(** * Bing engines of SearXNG: request builders and response parsers

    A shallow embedding of [searx/engines/bing.py], [bing_news.py] and
    [bing_videos.py].  Python values are modelled by [pyval], Python
    exceptions by the error side of [result], the lxml tree by [element]
    and the XPath expressions of the engines by a small evaluator over
    that tree.  The functions of the Python standard library that the
    engines call ([parse_qs], [unquote], [urlsafe_b64decode], the UTF-8
    codec) are written out; the HTML parser, the JSON parser, [urlencode]
    and the helper [extract_text] of [searx.utils] are parameters. *)

From Stdlib Require Import List NArith ZArith Lia Bool String Ascii.
From stdpp Require Import base gmap.
Import ListNotations.

Set Warnings "-register-all".

Local Open Scope string_scope.
Local Open Scope N_scope.
Local Open Scope list_scope.

(** ** Python strings

    A [str] is a sequence of code points. *)

Abbreviation str := (list N).
Abbreviation bytes := (list N).

Definition lit (s : string) : str :=
  List.map N_of_ascii (list_ascii_of_string s).

Fixpoint str_eqb (a b : str) : bool :=
  match a, b with
  | [], [] => true
  | x :: a', y :: b' => N.eqb x y && str_eqb a' b'
  | _, _ => false
  end.

(** [s.startswith(p)] *)
Fixpoint startswith (s p : str) {struct p} : bool :=
  match p with
  | [] => true
  | c :: p' =>
      match s with
      | [] => false
      | d :: s' => N.eqb d c && startswith s' p'
      end
  end.

(** [sub in s], also XPath's [contains(s, sub)] *)
Fixpoint contains (s sub : str) : bool :=
  startswith s sub ||
  match s with
  | [] => false
  | _ :: s' => contains s' sub
  end.

(** [sep.join(parts)] *)
Fixpoint join (sep : str) (parts : list str) : str :=
  match parts with
  | [] => []
  | [p] => p
  | p :: rest => p ++ sep ++ join sep rest
  end.

(** [str.isspace] on one code point *)
Definition is_space (c : N) : bool :=
  ((9 <=? c) && (c <=? 13)) || ((28 <=? c) && (c <=? 32)) ||
  (c =? 133) || (c =? 160) || (c =? 5760) ||
  ((8192 <=? c) && (c <=? 8202)) || (c =? 8232) || (c =? 8233) ||
  (c =? 8239) || (c =? 8287) || (c =? 12288).

Fixpoint lstrip (s : str) : str :=
  match s with
  | [] => []
  | c :: s' => if is_space c then lstrip s' else s
  end.

(** [s.strip()] *)
Definition strip (s : str) : str := rev (lstrip (rev (lstrip s))).

(** [s.split(sep)] for a one-character separator *)
Fixpoint split_on (sep : N) (s : str) : list str :=
  match s with
  | [] => [[]]
  | c :: s' =>
      if c =? sep then [] :: split_on sep s'
      else match split_on sep s' with
           | [] => [[c]]
           | w :: ws => (c :: w) :: ws
           end
  end.

(** [s.split(sep, 1)]: [None] when [sep] does not occur *)
Fixpoint split_once (sep : N) (s : str) : option (str * str) :=
  match s with
  | [] => None
  | c :: s' =>
      if c =? sep then Some ([], s')
      else match split_once sep s' with
           | Some (a, b) => Some (c :: a, b)
           | None => None
           end
  end.

(** ** Python values and exceptions *)

Inductive pyval :=
| VNone
| VBool (b : bool)
| VInt (z : Z)
| VFloat (repr : str)
| VStr (s : str)
| VList (l : list pyval)
| VDict (d : list (str * pyval)).

Inductive exn :=
| ParserError
| IndexError
| KeyError
| TypeError
| AttributeError
| ValueError
| JSONDecodeError
| BinasciiError
| OtherError (name : str).

Inductive result (A : Type) :=
| Ok (a : A)
| Raise (e : exn).
Arguments Ok {A} a.
Arguments Raise {A} e.

Definition bind {A B} (r : result A) (k : A -> result B) : result B :=
  match r with
  | Ok a => k a
  | Raise e => Raise e
  end.

Notation "'let!' x ':=' r 'in' k" := (bind r (fun x => k))
  (at level 10, x name, r at level 100, k at level 200).

(** A Python [dict] with string keys, in insertion order. *)
Abbreviation pydict := (list (str * pyval)).

Fixpoint dict_get {V} (k : str) (d : list (str * V)) : option V :=
  match d with
  | [] => None
  | (k', v) :: d' => if str_eqb k' k then Some v else dict_get k d'
  end.

(** [d[k] = v]: replaces the value in place, a new key goes last *)
Fixpoint dict_set {V} (k : str) (v : V) (d : list (str * V)) : list (str * V) :=
  match d with
  | [] => [(k, v)]
  | (k', v') :: d' =>
      if str_eqb k' k then (k', v) :: d' else (k', v') :: dict_set k v d'
  end.

(** [d.update(other)] *)
Definition dict_update {V} (d other : list (str * V)) : list (str * V) :=
  fold_left (fun acc kv => dict_set (fst kv) (snd kv) acc) other d.

Definition dict_keys {V} (d : list (str * V)) : list str := List.map fst d.

(** ** The document tree

    An element as lxml has it: its tag, attributes, the text before its
    first child, its children and the text that follows it ([tail]).  A
    comment or processing instruction is an element without a tag name.
    An empty [text] or [tail] stands for no text node. *)

Inductive element :=
| Element (tag : option str) (attrib : list (str * str)) (text : str)
          (children : list element) (tail : str).

Definition tag (e : element) : option str :=
  match e with Element t _ _ _ _ => t end.
Definition attrib (e : element) : list (str * str) :=
  match e with Element _ a _ _ _ => a end.
Definition text (e : element) : str :=
  match e with Element _ _ t _ _ => t end.
Definition children (e : element) : list element :=
  match e with Element _ _ _ c _ => c end.
Definition tail (e : element) : str :=
  match e with Element _ _ _ _ t => t end.

(** A node is named by the child indices that lead to it from the root.
    Removing a node from its parent ([parent.remove(node)]) detaches the
    node, its subtree and its tail; the tree keeps its shape and the set
    of detached nodes grows. *)
Abbreviation path := (list nat).

Fixpoint path_eqb (p q : path) : bool :=
  match p, q with
  | [], [] => true
  | i :: p', j :: q' => Nat.eqb i j && path_eqb p' q'
  | _, _ => false
  end.

Definition detached (R : list path) (p : path) : bool :=
  existsb (path_eqb p) R.

Fixpoint get_at (e : element) (p : path) : option element :=
  match p with
  | [] => Some e
  | i :: p' =>
      match nth_error (children e) i with
      | Some c => get_at c p'
      | None => None
      end
  end.

(** The subtree below the node [p] as it is once the nodes of [R] are
    detached. *)
Fixpoint prune (R : list path) (p : path) (e : element) : element :=
  match e with
  | Element t a tx cs tl =>
      let fix go (i : nat) (cs : list element) : list element :=
        match cs with
        | [] => []
        | c :: cs' =>
            if detached R (p ++ [i]) then go (S i) cs'
            else prune R (p ++ [i]) c :: go (S i) cs'
        end in
      Element t a tx (go 0%nat cs) tl
  end.

(** ** XPath

    The expressions of the engines are location paths: element steps on
    the child axis ([/name]) or below any descendant ([//name]) with
    attribute predicates, closed by the elements themselves, their text
    nodes or one of their attributes. *)

Inductive axis := Child | Descendant.

Inductive pred :=
| AttrEq (name value : str)          (* [@name="value"] *)
| AttrContains (name sub : str)      (* [contains(@name, "sub")] *)
| HasAttr (name : str).              (* [@name] *)

Record step := Step { st_axis : axis; st_name : str; st_preds : list pred }.

Inductive final :=
| Elements
| TextNodes (a : axis)               (* [/text()], [//text()] *)
| Attribute (name : str).            (* [/@name] *)

Record xpath := XPath { xp_steps : list step; xp_final : final }.

(** What an evaluation returns: elements (with their place in the tree)
    or strings. *)
Inductive xitem :=
| XElem (p : path) (e : element)
| XStr (s : str).

Definition pred_ok (e : element) (q : pred) : bool :=
  match q with
  | AttrEq n v =>
      match dict_get n (attrib e) with
      | Some w => str_eqb w v
      | None => false
      end
  | AttrContains n sub =>
      contains (match dict_get n (attrib e) with Some w => w | None => [] end) sub
  | HasAttr n =>
      match dict_get n (attrib e) with Some _ => true | None => false end
  end.

Definition step_ok (s : step) (e : element) : bool :=
  match tag e with
  | Some t => str_eqb t (st_name s) && forallb (pred_ok e) (st_preds s)
  | None => false
  end.

Definition mem (i : nat) (l : list nat) : bool := existsb (Nat.eqb i) l.

(** [advance steps P D e]: the numbers [i+1] such that [e] is selected by
    the first [i+1] steps, where [P] holds the [i] whose steps select the
    parent of [e] and [D] those selecting the parent or an ancestor. *)
Definition advance (steps : list step) (P D : list nat) (e : element) : list nat :=
  List.filter
    (fun j =>
       match j with
       | O => false
       | S i =>
           match nth_error steps i with
           | Some s =>
               step_ok s e &&
               match st_axis s with
               | Child => mem i P
               | Descendant => mem i D
               end
           | None => false
           end
       end)
    (seq 1 (List.length steps)).

Definition is_empty {A} (l : list A) : bool :=
  match l with [] => true | _ => false end.

Section Evaluation.

Variable R : list path.
Variable xp : xpath.

Let steps := xp_steps xp.
Let k := List.length (xp_steps xp).

(** Whether the text children of a node are selected, given the step
    counts [M] of the node and [D] of its ancestors. *)
Definition emits_text (M D : list nat) : bool :=
  match xp_final xp with
  | TextNodes Child => mem k M
  | TextNodes Descendant => mem k M || mem k D
  | _ => false
  end.

Definition text_item (b : bool) (s : str) : list xitem :=
  if b && negb (is_empty s) then [XStr s] else [].

Definition own_items (p : path) (M : list nat) (e : element) : list xitem :=
  if mem k M then
    match xp_final xp with
    | Elements => [XElem p e]
    | Attribute n =>
        match dict_get n (attrib e) with
        | Some v => [XStr v]
        | None => []
        end
    | TextNodes _ => []
    end
  else [].

(** The items selected among the text and the descendants of [e], in
    document order; detached children are not seen. *)
Fixpoint walk (p : path) (M D : list nat) (e : element) {struct e} : list xitem :=
  match e with
  | Element t _ tx cs _ =>
      text_item (emits_text M D && match t with Some _ => true | None => false end) tx ++
      (fix go (i : nat) (cs : list element) {struct cs} : list xitem :=
         match cs with
         | [] => []
         | c :: cs' =>
             (if detached R (p ++ [i]) then []
              else
                let Mc := advance steps M (M ++ D) c in
                own_items (p ++ [i]) Mc c ++
                walk (p ++ [i]) Mc (M ++ D) c ++
                text_item (emits_text M D) (tail c)) ++
             go (S i) cs'
         end) 0%nat cs
  end.

(** [e.xpath(".//...")]: the path starts at the element [e], found at [p]. *)
Definition xpath_rel (p : path) (e : element) : list xitem :=
  walk p [0%nat] [] e.

(** [e.xpath("//...")]: the path starts at the document node, whose only
    child is the root element. *)
Definition xpath_abs (root : element) : list xitem :=
  let M := advance steps [0%nat] [0%nat] root in
  own_items [] M root ++ walk [] M [0%nat] root.

End Evaluation.

(** [eval_xpath_getindex(e, xp, 0, None)] of [searx.utils]: the first item
    or [None]. *)
Definition getindex0 (l : list xitem) : option xitem := List.head l.

(** [e.attrib.get(name)] *)
Definition attrib_get (e : element) (name : str) : option str :=
  dict_get name (attrib e).

(** ** The UTF-8 codec *)

Definition REPLACEMENT : N := 65533.

Definition is_cont (b : N) : bool := (128 <=? b) && (b <=? 191).

(** The range of the second byte after the lead byte [b1] of a three- or
    four-byte sequence. *)
Definition second_ok (b1 b2 : N) : bool :=
  if b1 =? 224 then (160 <=? b2) && (b2 <=? 191)
  else if b1 =? 237 then (128 <=? b2) && (b2 <=? 159)
  else if b1 =? 240 then (144 <=? b2) && (b2 <=? 191)
  else if b1 =? 244 then (128 <=? b2) && (b2 <=? 143)
  else is_cont b2.

Definition cp2 (b1 b2 : N) : N :=
  N.lor (N.shiftl (N.land b1 31) 6) (N.land b2 63).
Definition cp3 (b1 b2 b3 : N) : N :=
  N.lor (N.shiftl (N.land b1 15) 12)
        (N.lor (N.shiftl (N.land b2 63) 6) (N.land b3 63)).
Definition cp4 (b1 b2 b3 b4 : N) : N :=
  N.lor (N.shiftl (N.land b1 7) 18)
        (N.lor (N.shiftl (N.land b2 63) 12)
               (N.lor (N.shiftl (N.land b3 63) 6) (N.land b4 63))).

(** [bs.decode("utf-8", errors="replace")]: every maximal prefix of an
    ill-formed sequence becomes one U+FFFD. *)
Fixpoint utf8_decode (bs : bytes) : str :=
  match bs with
  | [] => []
  | b1 :: r1 =>
      if b1 <? 128 then b1 :: utf8_decode r1
      else if (194 <=? b1) && (b1 <=? 223) then
        match r1 with
        | [] => [REPLACEMENT]
        | b2 :: r2 =>
            if is_cont b2 then cp2 b1 b2 :: utf8_decode r2
            else REPLACEMENT :: utf8_decode r1
        end
      else if (224 <=? b1) && (b1 <=? 239) then
        match r1 with
        | [] => [REPLACEMENT]
        | b2 :: r2 =>
            if second_ok b1 b2 then
              match r2 with
              | [] => [REPLACEMENT]
              | b3 :: r3 =>
                  if is_cont b3 then cp3 b1 b2 b3 :: utf8_decode r3
                  else REPLACEMENT :: utf8_decode r2
              end
            else REPLACEMENT :: utf8_decode r1
        end
      else if (240 <=? b1) && (b1 <=? 244) then
        match r1 with
        | [] => [REPLACEMENT]
        | b2 :: r2 =>
            if second_ok b1 b2 then
              match r2 with
              | [] => [REPLACEMENT]
              | b3 :: r3 =>
                  if is_cont b3 then
                    match r3 with
                    | [] => [REPLACEMENT]
                    | b4 :: r4 =>
                        if is_cont b4 then cp4 b1 b2 b3 b4 :: utf8_decode r4
                        else REPLACEMENT :: utf8_decode r3
                    end
                  else REPLACEMENT :: utf8_decode r2
              end
            else REPLACEMENT :: utf8_decode r1
        end
      else REPLACEMENT :: utf8_decode r1
  end.

(** A code point that UTF-8 encodes: below 0x110000 and no surrogate. *)
Definition is_scalar (c : N) : bool :=
  (c <? 55296) || ((57344 <=? c) && (c <? 1114112)).

Definition utf8_encode_cp (c : N) : bytes :=
  if c <? 128 then [c]
  else if c <? 2048 then
    [N.lor 192 (N.shiftr c 6); N.lor 128 (N.land c 63)]
  else if c <? 65536 then
    [N.lor 224 (N.shiftr c 12);
     N.lor 128 (N.land (N.shiftr c 6) 63);
     N.lor 128 (N.land c 63)]
  else
    [N.lor 240 (N.shiftr c 18);
     N.lor 128 (N.land (N.shiftr c 12) 63);
     N.lor 128 (N.land (N.shiftr c 6) 63);
     N.lor 128 (N.land c 63)].

(** [s.encode("utf-8")]: a surrogate raises [UnicodeEncodeError]. *)
Fixpoint utf8_encode (s : str) : result bytes :=
  match s with
  | [] => Ok []
  | c :: s' =>
      if is_scalar c then
        let! r := utf8_encode s' in Ok (utf8_encode_cp c ++ r)
      else Raise (OtherError (lit "UnicodeEncodeError"))
  end.

(** ** [base64] *)

(** [binascii]'s table from an ASCII character to its six bits. *)
Definition table_a2b_base64 (ch : N) : option N :=
  if (65 <=? ch) && (ch <=? 90) then Some (ch - 65)
  else if (97 <=? ch) && (ch <=? 122) then Some (ch - 97 + 26)
  else if (48 <=? ch) && (ch <=? 57) then Some (ch - 48 + 52)
  else if ch =? 43 then Some 62
  else if ch =? 47 then Some 63
  else None.

Definition emit (b : N) (r : result bytes) : result bytes :=
  let! l := r in Ok (b :: l).

(** [binascii.a2b_base64(data)] outside strict mode: a character that is
    not of the alphabet is skipped, padding that completes a quad ends the
    input, and leftover characters of a quad raise [binascii.Error]. *)
Fixpoint a2b_base64_loop (data : bytes) (quad_pos leftchar pads : N) : result bytes :=
  match data with
  | [] => if quad_pos =? 0 then Ok [] else Raise BinasciiError
  | this_ch :: rest =>
      if this_ch =? 61 then
        if (2 <=? quad_pos) && (4 <=? quad_pos + (pads + 1)) then Ok []
        else a2b_base64_loop rest quad_pos leftchar
               (if 2 <=? quad_pos then pads + 1 else pads)
      else
        match table_a2b_base64 this_ch with
        | None => a2b_base64_loop rest quad_pos leftchar pads
        | Some d =>
            match quad_pos with
            | 0 => a2b_base64_loop rest 1 d 0
            | 1 => emit (N.lor (N.shiftl leftchar 2) (N.shiftr d 4))
                        (a2b_base64_loop rest 2 (N.land d 15) 0)
            | 2 => emit (N.lor (N.shiftl leftchar 4) (N.shiftr d 2))
                        (a2b_base64_loop rest 3 (N.land d 3) 0)
            | _ => emit (N.lor (N.shiftl leftchar 6) d)
                        (a2b_base64_loop rest 0 0 0)
            end
        end
  end.

Definition a2b_base64 (data : bytes) : result bytes :=
  a2b_base64_loop data 0 0 0.

(** [s.encode("ascii")] as [base64] calls it on a [str] argument. *)
Definition bytes_from_decode_types (s : str) : result bytes :=
  if forallb (fun c => c <? 128) s then Ok s else Raise ValueError.

Definition urlsafe_decode_translation (b : N) : N :=
  if b =? 45 then 43 else if b =? 95 then 47 else b.

(** [base64.urlsafe_b64decode(s)] *)
Definition urlsafe_b64decode (s : str) : result bytes :=
  let! b := bytes_from_decode_types s in
  a2b_base64 (List.map urlsafe_decode_translation b).

(** ** [urllib.parse] *)

Definition hex_value (c : N) : option N :=
  if (48 <=? c) && (c <=? 57) then Some (c - 48)
  else if (65 <=? c) && (c <=? 70) then Some (c - 55)
  else if (97 <=? c) && (c <=? 102) then Some (c - 87)
  else None.

(** One piece of an unquoted string: a byte (an ASCII character or a
    decoded [%XX]) or a character outside ASCII, which is kept. *)
Inductive piece := PByte (b : N) | PChar (c : N).

(** [unquote_to_bytes] over the ASCII stretches of the string: [%XX] with
    two hexadecimal digits is one byte, any other [%] stays. *)
Fixpoint unquote_pieces (s : str) : list piece :=
  match s with
  | [] => []
  | c :: rest =>
      if 128 <=? c then PChar c :: unquote_pieces rest
      else if c =? 37 then
        match rest with
        | h1 :: h2 :: rest2 =>
            match hex_value h1, hex_value h2 with
            | Some x, Some y => PByte (16 * x + y) :: unquote_pieces rest2
            | _, _ => PByte c :: unquote_pieces rest
            end
        | _ => PByte c :: unquote_pieces rest
        end
      else PByte c :: unquote_pieces rest
  end.

(** Each stretch of bytes is decoded as UTF-8 with replacement; [run]
    holds the bytes of the current stretch, last one first. *)
Fixpoint decode_pieces (ps : list piece) (run : bytes) : str :=
  match ps with
  | [] => utf8_decode (rev run)
  | PByte b :: ps' => decode_pieces ps' (b :: run)
  | PChar c :: ps' => utf8_decode (rev run) ++ c :: decode_pieces ps' []
  end.

(** [unquote(s)] with the defaults [encoding="utf-8", errors="replace"] *)
Definition unquote (s : str) : str :=
  if negb (existsb (N.eqb 37) s) then s
  else decode_pieces (unquote_pieces s) [].

(** [s.replace("+", " ")] *)
Definition plus_to_space (s : str) : str :=
  List.map (fun c => if c =? 43 then 32 else c) s.

(** [parse_qsl(qs)]: fields are separated by [&]; a field without [=] or
    with an empty value is dropped; [parse_field] is the body of its loop. *)
Definition parse_field (name_value : str) : list (str * str) :=
  match split_once 61 name_value with
  | None => []
  | Some (n, v) =>
      if is_empty v then []
      else [(unquote (plus_to_space n), unquote (plus_to_space v))]
  end.

Definition parse_qsl (qs : str) : list (str * str) :=
  flat_map parse_field (split_on 38 qs).

(** [parse_qs(qs)]: the values of each name, in the order of the fields. *)
Definition parse_qs (qs : str) : list (str * list str) :=
  fold_left
    (fun d nv =>
       match dict_get (fst nv) d with
       | Some vs => dict_set (fst nv) (vs ++ [snd nv]) d
       | None => dict_set (fst nv) [snd nv] d
       end)
    (parse_qsl qs) [].

Fixpoint take_until (stop : N) (s : str) : str :=
  match s with
  | [] => []
  | c :: s' => if c =? stop then [] else c :: take_until stop s'
  end.

(** [urlparse(url).query] for a [url] that begins with
    [https://www.bing.com/ck/a?], the only place the engine asks for it:
    tabs and line breaks are removed from the URL, the query is what
    follows the [?] up to the first [#]. *)
Definition urlparse_query (url : str) : str :=
  let cleaned :=
    List.filter (fun c => negb ((c =? 9) || (c =? 10) || (c =? 13))) url in
  take_until 35 (skipn 26 cleaned).

(** ** Values shared by the three engines *)

(** The number that a string of ASCII digits spells. *)
Definition int_of_digits (s : str) : Z :=
  fold_left (fun acc c => (10 * acc + Z.of_N (c - 48))%Z) s 0%Z.

(** [sys.get_int_max_str_digits()]: the digits that [int] converts at
    most, 4300 unless the interpreter is started with another limit. *)
Definition int_max_str_digits : N := 4300.

(** [int(s)] for a string of ASCII digits: [ValueError] for the empty
    string and for a string of more digits than the limit. *)
Definition int_of_str (s : str) : result Z :=
  match s with
  | [] => Raise ValueError
  | _ =>
      if int_max_str_digits <? N.of_nat (List.length s) then Raise ValueError
      else Ok (int_of_digits s)
  end.

(** An ASCII digit, [0-9] *)
Definition is_digit (c : N) : bool := (48 <=? c) && (c <=? 57).

(** [re.sub(r"[^0-9]", "", s)] *)
Definition strip_non_digits (s : str) : str := List.filter is_digit s.

(** The argument of [extract_text]: an element, a list of elements or a
    string. *)
Inductive text_arg :=
| TElem (e : element)
| TList (l : list element)
| TStr (s : str).

Definition elements_of (R : list path) (l : list xitem) : list element :=
  flat_map (fun it => match it with XElem p e => [prune R p e] | XStr _ => [] end) l.

Definition strings_of (l : list xitem) : list str :=
  flat_map (fun it => match it with XStr s => [s] | XElem _ _ => [] end) l.

Definition paths_of (l : list xitem) : list path :=
  flat_map (fun it => match it with XElem p _ => [p] | XStr _ => [] end) l.

(** [v[k]] *)
Definition getitem (v : pyval) (k : str) : result pyval :=
  match v with
  | VDict d =>
      match dict_get k d with
      | Some x => Ok x
      | None => Raise KeyError
      end
  | _ => Raise TypeError
  end.

(** [v.get(k, default)] *)
Definition get_default (v : pyval) (k : str) (default : pyval) : result pyval :=
  match v with
  | VDict d =>
      match dict_get k d with
      | Some x => Ok x
      | None => Ok default
      end
  | _ => Raise AttributeError
  end.

(** The truth value of an optional string: [None] and [""] are false. *)
Definition truthy (s : option str) : bool :=
  match s with
  | Some (_ :: _) => true
  | _ => false
  end.

(** The engine traits: the market code of each SearXNG region tag, and
    the code that stands for all locales. *)
Record EngineTraits := {
  regions : gmap str str;
  all_locale : option str
}.

(** Modelled from the spec: [EngineTraits.get_region] of
    [searx.enginelib.traits], which is not part of the sources.  The
    locale tag is looked up in the table; a tag that is absent (or null)
    yields the default. *)
Definition get_region (traits : EngineTraits) (searxng_locale : option str)
    (default : option str) : option str :=
  match searxng_locale with
  | None => default
  | Some tag =>
      match regions traits !! tag with
      | Some market => Some market
      | None => default
      end
  end.

(** The request parameters the engines read and write. *)
Record OnlineParams := {
  searxng_locale : option str;
  safesearch : option Z;
  pageno : option Z;
  time_range : option str;
  headers : list (str * str);
  url : option str;
  allow_redirects : option bool
}.

Definition set_headers (h : list (str * str)) (params : OnlineParams) : OnlineParams :=
  {| searxng_locale := searxng_locale params; safesearch := safesearch params;
     pageno := pageno params; time_range := time_range params;
     headers := h; url := url params; allow_redirects := allow_redirects params |}.

Definition set_url (u : str) (params : OnlineParams) : OnlineParams :=
  {| searxng_locale := searxng_locale params; safesearch := safesearch params;
     pageno := pageno params; time_range := time_range params;
     headers := headers params; url := Some u; allow_redirects := allow_redirects params |}.

Definition set_allow_redirects (b : bool) (params : OnlineParams) : OnlineParams :=
  {| searxng_locale := searxng_locale params; safesearch := safesearch params;
     pageno := pageno params; time_range := time_range params;
     headers := headers params; url := url params; allow_redirects := Some b |}.

(** ** [searx/engines/bing.py] *)

Module Bing.

Definition _safesearch_map : list (Z * str) :=
  [(0%Z, lit "off"); (1%Z, lit "moderate"); (2%Z, lit "strict")].

Definition base_url : str := lit "https://www.bing.com/search".

Definition get_locale_params (engine_region : option str) : option pydict :=
  if negb (truthy engine_region) then None
  else
    match engine_region with
    | Some r => if str_eqb r (lit "clear") then None else Some [(lit "mkt", VStr r)]
    | None => None
    end.

Definition override_accept_language (params : OnlineParams)
    (engine_region : option str) : OnlineParams :=
  if negb (truthy engine_region) then params
  else
    match engine_region with
    | Some r =>
        if str_eqb r (lit "clear") then params
        else
          let lang := List.hd [] (split_on 45 r) in
          set_headers
            (dict_set (lit "Accept-Language") (r ++ lit "," ++ lang ++ lit ";q=0.9")
                      (headers params))
            params
    | None => params
    end.

Definition results_xpath : xpath :=
  XPath [Step Descendant (lit "ol") [AttrEq (lit "id") (lit "b_results")];
         Step Child (lit "li") [AttrContains (lit "class") (lit "b_algo")]]
        Elements.

Definition link_xpath : xpath :=
  XPath [Step Descendant (lit "h2") []; Step Child (lit "a") []] Elements.

Definition p_xpath : xpath :=
  XPath [Step Descendant (lit "p") []] Elements.

Definition icon_xpath : xpath :=
  XPath [Step Descendant (lit "span") [AttrEq (lit "class") (lit "algoSlug_icon")]]
        Elements.

Definition count_xpath : xpath :=
  XPath [Step Descendant (lit "span") [AttrEq (lit "class") (lit "sb_count")]]
        (TextNodes Descendant).

Definition ck_prefix : str := lit "https://www.bing.com/ck/a?".

(** The padding [(-len(encoded)) % 4] *)
Definition pad_len (n : nat) : nat := ((4 - n mod 4) mod 4)%nat.

(** Lines 145-154 of [response]: the destination behind a click-tracking
    link. *)
Definition resolve_href (href : str) : result str :=
  if startswith href ck_prefix then
    let qs := parse_qs (urlparse_query href) in
    match dict_get (lit "u") qs with
    | Some (u_val :: _) =>
        if startswith u_val (lit "a1") then
          let encoded := skipn 2 u_val in
          let encoded := encoded ++ repeat 61 (pad_len (List.length encoded)) in
          let! b := urlsafe_b64decode encoded in
          Ok (utf8_decode b)
        else Ok href
    | _ => Ok href
    end
  else Ok href.

(** Lines 158-161 of [response]: every icon below a [p] of the item is
    removed from its parent. *)
Definition remove_icons (R : list path) (content_els : list xitem) : list path :=
  fold_left
    (fun R p_el =>
       match p_el with
       | XElem pp pe => R ++ paths_of (xpath_rel R icon_xpath pp pe)
       | XStr _ => R
       end)
    content_els R.

Section Engine.

Variable traits : EngineTraits.

(** [urlencode(query_params)]: it raises [UnicodeEncodeError] on a string
    that UTF-8 does not encode and [ValueError] on an integer of more
    digits than [str] converts. *)
Variable urlencode : pydict -> result str.
Variable fromstring : str -> result element.
Variable extract_text : text_arg -> str.

(** The dictionary [query_params] that [request] builds (lines 108-115). *)
Definition query_params (query : str) (params : OnlineParams) : pydict :=
  let engine_region := get_region traits (searxng_locale params) (all_locale traits) in
  let level := match safesearch params with Some l => l | None => 0%Z end in
  let adlt :=
    match List.find (fun kv => Z.eqb (fst kv) level) _safesearch_map with
    | Some kv => snd kv
    | None => lit "off"
    end in
  let query_params : pydict := [(lit "q", VStr query); (lit "adlt", VStr adlt)] in
  let locale_params := get_locale_params engine_region in
  match locale_params with
  | Some (kv :: lp) => dict_update query_params (kv :: lp)
  | _ => query_params
  end.

Definition request (query : str) (params : OnlineParams) : result OnlineParams :=
  let engine_region := get_region traits (searxng_locale params) (all_locale traits) in
  let params' := override_accept_language params engine_region in
  let! encoded := urlencode (query_params query params) in
  let params' := set_url (base_url ++ lit "?" ++ encoded) params' in
  Ok (set_allow_redirects true params').

(** One turn of the loop of [response] on [item], with the nodes [R]
    detached so far: the records the turn appends and the nodes detached
    after it. *)
Definition response_item (R : list path) (item : xitem)
  : result (list pydict * list path) :=
  match item with
  | XStr _ => Ok ([], R)
  | XElem p e =>
      match getindex0 (xpath_rel R link_xpath p e) with
      | Some (XElem lp le) =>
          let href := match attrib_get le (lit "href") with Some h => h | None => [] end in
          let title := extract_text (TElem (prune R lp le)) in
          if is_empty href || is_empty title then Ok ([], R)
          else
            let! href := resolve_href href in
            let content_els := xpath_rel R p_xpath p e in
            let R' := remove_icons R content_els in
            let content := extract_text (TList (elements_of R' content_els)) in
            Ok ([[(lit "url", VStr href); (lit "title", VStr title);
                  (lit "content", VStr content)]], R')
      | _ => Ok ([], R)
      end
  end.

Fixpoint response_loop (items : list xitem) (R : list path)
  : result (list pydict * list path) :=
  match items with
  | [] => Ok ([], R)
  | item :: rest =>
      let! r := response_item R item in
      let! r' := response_loop rest (snd r) in
      Ok (fst r ++ fst r', snd r')
  end.

(** The text of the result-count banner, read after the loop. *)
Definition banner (R : list path) (dom : element) : str :=
  join [] (strings_of (xpath_abs R count_xpath dom)).

(** [response] from the parsed document on. *)
Definition response_dom (dom : element) : result (list pydict) :=
  let! r := response_loop (xpath_abs [] results_xpath dom) [] in
  let results := fst r in
  if negb (is_empty results) then
    let result_len_container := strip_non_digits (banner (snd r) dom) in
    if negb (is_empty result_len_container) then
      let! number_of_results := int_of_str result_len_container in
      Ok (results ++ [[(lit "number_of_results", VInt number_of_results)]])
    else Ok results
  else Ok results.

Definition response (resp_text : str) : result (list pydict) :=
  let! dom := fromstring resp_text in
  response_dom dom.

End Engine.

End Bing.

(** ** [searx/engines/bing_news.py] *)

Module BingNews.

(** The filter [interval="n"]; 34 is the double quote. *)
Definition interval (n : string) : str :=
  lit "interval=" ++ [34] ++ lit n ++ [34].

Definition time_map : list (str * str) :=
  [(lit "day", interval "4");
   (lit "week", interval "7");
   (lit "month", interval "9")].

Definition base_url : str := lit "https://www.bing.com/news/infinitescrollajax".

Definition newsitem_xpath : xpath :=
  XPath [Step Descendant (lit "div") [AttrContains (lit "class") (lit "newsitem")]]
        Elements.

Definition title_xpath : xpath :=
  XPath [Step Descendant (lit "a") [AttrEq (lit "class") (lit "title")]] Elements.

Definition snippet_xpath : xpath :=
  XPath [Step Descendant (lit "div") [AttrEq (lit "class") (lit "snippet")]] Elements.

Definition source_xpath : xpath :=
  XPath [Step Descendant (lit "div") [AttrContains (lit "class") (lit "source")]]
        Elements.

Definition aria_label_xpath : xpath :=
  XPath [Step Descendant (lit "span") [HasAttr (lit "aria-label")]]
        (Attribute (lit "aria-label")).

Definition imagelink_xpath : xpath :=
  XPath [Step Descendant (lit "a") [AttrEq (lit "class") (lit "imagelink")];
         Step Descendant (lit "img") []]
        Elements.

Definition origin : str := lit "https://www.bing.com".

Definition opt_val (s : option str) : pyval :=
  match s with
  | Some x => VStr x
  | None => VNone
  end.

(** Lines 118-120 of [response]: the thumbnail from the [src] of the
    image; [startswith] on [None] raises [AttributeError]. *)
Definition thumbnail_of (src : option str) : result str :=
  match src with
  | None => Raise AttributeError
  | Some thumbnail =>
      if negb (startswith thumbnail origin) then Ok (lit "https://www.bing.com/" ++ thumbnail)
      else Ok thumbnail
  end.

Section Engine.

Variable traits : EngineTraits.

(** [urlencode(query_params)], which may raise as for the Web engine. *)
Variable urlencode : pydict -> result str.
Variable fromstring : str -> result element.
Variable extract_text : text_arg -> str.

(** The dictionary [query_params] that [request] builds (lines 63-78). *)
Definition query_params (query : str) (params : OnlineParams) : pydict :=
  let engine_region := get_region traits (searxng_locale params) (all_locale traits) in
  let page := ((match pageno params with Some n => n | None => 1 end) - 1)%Z in
  let query_params : pydict :=
    [(lit "q", VStr query);
     (lit "InfiniteScroll", VInt 1);
     (lit "first", VInt (page * 10 + 1));
     (lit "SFX", VInt page);
     (lit "form", VStr (lit "PTFTNR"))] in
  let locale_params := Bing.get_locale_params engine_region in
  let query_params :=
    match locale_params with
    | Some (kv :: lp) => dict_update query_params (kv :: lp)
    | _ => query_params
    end in
  if truthy (time_range params) then
    dict_set (lit "qft")
        (VStr (match time_range params with
               | Some r =>
                   match dict_get r time_map with
                   | Some code => code
                   | None => interval "9"
                   end
               | None => interval "9"
               end))
        query_params
  else query_params.

Definition request (query : str) (params : OnlineParams) : result OnlineParams :=
  let engine_region := get_region traits (searxng_locale params) (all_locale traits) in
  let params' := Bing.override_accept_language params engine_region in
  let! encoded := urlencode (query_params query params) in
  Ok (set_url (base_url ++ lit "?" ++ encoded) params').

(** The entries of the metadata list of one news item (lines 100-112). *)
Definition metadata_of (source : option xitem) (link : element) : list str :=
  match source with
  | Some (XElem sp se) =>
      flat_map
        (fun item =>
           match item with
           | Some i =>
               let t := extract_text (TStr i) in
               if negb (is_empty t) && negb (is_empty (strip t)) then [strip t] else []
           | None => []
           end)
        [List.head (strings_of (xpath_rel [] aria_label_xpath sp se));
         attrib_get link (lit "data-author")]
  | _ => []
  end.

(** One turn of the loop of [response]. *)
Definition response_item (newsitem : xitem) : result (list pydict) :=
  match newsitem with
  | XStr _ => Ok []
  | XElem p e =>
      match getindex0 (xpath_rel [] title_xpath p e) with
      | Some (XElem _ link) =>
          let url := attrib_get link (lit "href") in
          let title := extract_text (TElem link) in
          let content :=
            extract_text (TList (elements_of [] (xpath_rel [] snippet_xpath p e))) in
          let source := getindex0 (xpath_rel [] source_xpath p e) in
          let metadata := join (lit " | ") (metadata_of source link) in
          let! thumbnail :=
            match getindex0 (xpath_rel [] imagelink_xpath p e) with
            | Some (XElem _ imagelink) =>
                let! t := thumbnail_of (attrib_get imagelink (lit "src")) in
                Ok (VStr t)
            | _ => Ok VNone
            end in
          Ok [[(lit "url", opt_val url);
               (lit "title", VStr title);
               (lit "content", VStr content);
               (lit "thumbnail", thumbnail);
               (lit "metadata", VStr metadata)]]
      | _ => Ok []
      end
  end.

Fixpoint response_loop (items : list xitem) : result (list pydict) :=
  match items with
  | [] => Ok []
  | item :: rest =>
      let! r := response_item item in
      let! r' := response_loop rest in
      Ok (r ++ r')
  end.

Definition response_dom (dom : element) : result (list pydict) :=
  response_loop (xpath_abs [] newsitem_xpath dom).

Definition response (resp_text : str) : result (list pydict) :=
  let! dom := fromstring resp_text in
  response_dom dom.

End Engine.

End BingNews.

(** ** [searx/engines/bing_videos.py] *)

Module BingVideos.

Definition base_url : str := lit "https://www.bing.com/videos/asyncv2".

Definition result_xpath : xpath :=
  XPath [Step Descendant (lit "div") [AttrEq (lit "class") (lit "dg_u")];
         Step Descendant (lit "div") [AttrContains (lit "id") (lit "mc_vtvc_video")]]
        Elements.

Definition vrhm_xpath : xpath :=
  XPath [Step Descendant (lit "div") [AttrEq (lit "class") (lit "vrhdata")]]
        (Attribute (lit "vrhm")).

Definition meta_xpath : xpath :=
  XPath [Step Descendant (lit "div") [AttrEq (lit "class") (lit "mc_vtvc_meta_block")];
         Step Descendant (lit "span") []]
        (TextNodes Child).

Definition thumbnail_xpath : xpath :=
  XPath [Step Descendant (lit "div") [AttrContains (lit "class") (lit "mc_vtvc_th")];
         Step Descendant (lit "img") []]
        (Attribute (lit "src")).

(** [l[0]] *)
Definition index0 {A} (l : list A) : result A :=
  match l with
  | x :: _ => Ok x
  | [] => Raise IndexError
  end.

Section Engine.

Variable traits : EngineTraits.

(** [urlencode(query_params)], which may raise as for the Web engine. *)
Variable urlencode : pydict -> result str.
Variable fromstring : str -> result element.

(** [json.loads] *)
Variable json_loads : str -> result pyval.

(** [str(v)] for a value that is no string *)
Variable repr : pyval -> str.

(** [time_map] of [searx.engines.bing_images], which is not part of the
    sources: the age filter of each time range. *)
Variable time_map : pydict.

(** [str(v)] as [format] and [%s] apply it *)
Definition str_of (v : pyval) : str :=
  match v with
  | VStr s => s
  | _ => repr v
  end.

(** The dictionary [query_params] that [request] builds (lines 46-62);
    a time range that [time_map] does not hold raises [KeyError]. *)
Definition query_params (query : str) (params : OnlineParams) : result pydict :=
  let engine_region := get_region traits (searxng_locale params) (all_locale traits) in
  let query_params : pydict :=
    [(lit "q", VStr query);
     (lit "async", VStr (lit "content"));
     (lit "first",
      VInt (((match pageno params with Some n => n | None => 1 end) - 1) * 35 + 1)%Z);
     (lit "count", VInt 35)] in
  let locale_params := Bing.get_locale_params engine_region in
  let query_params :=
    match locale_params with
    | Some (kv :: lp) => dict_update query_params (kv :: lp)
    | _ => query_params
    end in
  if truthy (time_range params) then
    let query_params := dict_set (lit "form") (VStr (lit "VRFLTR")) query_params in
    let! age := getitem (VDict time_map)
                  (match time_range params with Some r => r | None => [] end) in
    Ok (dict_set (lit "qft") (VStr (lit " filterui:videoage-lt" ++ str_of age)) query_params)
  else Ok query_params.

Definition request (query : str) (params : OnlineParams) : result OnlineParams :=
  let engine_region := get_region traits (searxng_locale params) (all_locale traits) in
  let params' := Bing.override_accept_language params engine_region in
  let! qp := query_params query params in
  let! encoded := urlencode qp in
  Ok (set_url (base_url ++ lit "?" ++ encoded) params').

(** One turn of the loop of [response]. *)
Definition response_item (block : xitem) : result pydict :=
  match block with
  | XStr _ => Raise AttributeError
  | XElem p e =>
      let! blob := index0 (strings_of (xpath_rel [] vrhm_xpath p e)) in
      let! metadata := json_loads blob in
      let info := strip (join (lit " - ") (strings_of (xpath_rel [] meta_xpath p e))) in
      let! du := getitem metadata (lit "du") in
      let content := str_of du ++ lit " - " ++ info in
      let! thumbnail := index0 (strings_of (xpath_rel [] thumbnail_xpath p e)) in
      let! murl := getitem metadata (lit "murl") in
      let! vt := get_default metadata (lit "vt") (VStr []) in
      Ok [(lit "url", murl);
          (lit "thumbnail", VStr thumbnail);
          (lit "title", vt);
          (lit "content", VStr content);
          (lit "template", VStr (lit "videos.html"))]
  end.

Fixpoint response_loop (items : list xitem) : result (list pydict) :=
  match items with
  | [] => Ok []
  | item :: rest =>
      let! r := response_item item in
      let! r' := response_loop rest in
      Ok (r :: r')
  end.

Definition response_dom (dom : element) : result (list pydict) :=
  response_loop (xpath_abs [] result_xpath dom).

Definition response (resp_text : str) : result (list pydict) :=
  let! dom := fromstring resp_text in
  response_dom dom.

End Engine.

End BingVideos.

(** ** Examples: stand-ins for the parameters

    The theorems below hold for every [urlencode], HTML parser, JSON
    parser and [extract_text]; the examples need one of each. *)

Definition is_unreserved (c : N) : bool :=
  is_digit c || ((65 <=? c) && (c <=? 90)) || ((97 <=? c) && (c <=? 122)) ||
  (c =? 95) || (c =? 46) || (c =? 45) || (c =? 126).

Definition hex_digit (n : N) : N := if n <? 10 then 48 + n else 55 + n.

(** [quote_plus] on the UTF-8 bytes of a string *)
Definition quote_plus (s : str) : str :=
  flat_map
    (fun c =>
       if c =? 32 then [43]
       else if is_unreserved c then [c]
       else flat_map (fun b => [37; hex_digit (b / 16); hex_digit (b mod 16)])
                     (utf8_encode_cp c))
    s.

Fixpoint digits_of (fuel : nat) (n : N) (acc : str) : str :=
  match fuel with
  | O => acc
  | S fuel' =>
      let acc' := (48 + n mod 10) :: acc in
      if n <? 10 then acc' else digits_of fuel' (n / 10) acc'
  end.

Definition str_of_int (z : Z) : str :=
  let n := Z.abs_N z in
  (if (z <? 0)%Z then [45] else []) ++ digits_of (S (N.to_nat (N.log2 n))) n [].

(** [quote_plus(str(v))] on a string or an integer: a string that UTF-8
    does not encode raises [UnicodeEncodeError], an integer of more
    digits than [str] converts raises [ValueError]. *)
Definition quote_value (v : pyval) : result str :=
  match v with
  | VStr s =>
      let! encoded := utf8_encode s in
      Ok (quote_plus s)
  | VInt z =>
      let digits := str_of_int (Z.abs z) in
      if int_max_str_digits <? N.of_nat (List.length digits) then Raise ValueError
      else Ok (str_of_int z)
  | _ => Ok []
  end.

Fixpoint quote_fields (d : pydict) : result (list str) :=
  match d with
  | [] => Ok []
  | (k, v) :: d' =>
      let! name := quote_value (VStr k) in
      let! value := quote_value v in
      let! fields := quote_fields d' in
      Ok ((name ++ lit "=" ++ value) :: fields)
  end.

(** [urlencode] on a dictionary of strings and integers. *)
Definition urlencode_strings (d : pydict) : result str :=
  let! fields := quote_fields d in
  Ok (join (lit "&") fields).

(** The text of an element: its own text and that of its descendants,
    tails included below the element itself. *)
Fixpoint text_content (e : element) : str :=
  match e with
  | Element _ _ tx cs _ =>
      tx ++ flat_map (fun c => text_content c ++ tail c) cs
  end.

(** [extract_text] on texts that hold no white space to normalise. *)
Definition extract_plain_text (a : text_arg) : str :=
  match a with
  | TElem e => text_content e
  | TList l => flat_map text_content l
  | TStr s => s
  end.

Definition quoted (s : string) : str := [34] ++ lit s ++ [34].

(** A JSON object with the fields [du] and [murl]. *)
Definition video_blob : str :=
  lit "{" ++ quoted "du" ++ lit ":" ++ quoted "3:00" ++ lit "," ++
  quoted "murl" ++ lit ":" ++ quoted "https://v.example/1" ++ lit "}".

(** [json.loads] on [video_blob]; the other texts of the examples are no
    JSON. *)
Definition json_loads_blob (s : str) : result pyval :=
  if str_eqb s video_blob then
    Ok (VDict [(lit "du", VStr (lit "3:00")); (lit "murl", VStr (lit "https://v.example/1"))])
  else Raise JSONDecodeError.

Definition repr_unused (v : pyval) : str := [].

(** An element with a tag name, written with string literals. *)
Definition el (t : string) (a : list (string * string)) (tx : string)
    (cs : list element) (tl : string) : element :=
  Element (Some (lit t)) (List.map (fun kv => (lit (fst kv), lit (snd kv))) a)
          (lit tx) cs (lit tl).

Definition sample_traits : EngineTraits :=
  {| regions := {[ lit "de-DE" := lit "de-DE" ]}; all_locale := Some (lit "clear") |}.

Definition sample_params (locale : string) (page : Z) (range : option str) : OnlineParams :=
  {| searxng_locale := Some (lit locale); safesearch := Some 1%Z; pageno := Some page;
     time_range := range; headers := []; url := None; allow_redirects := None |}.

(** ** Definitions used in the statements and examples *)

(** *** Tables and locale tags *)

(** A table as the trait fetcher builds it: the code for all locales is
    unset or the sentinel [clear], and neither the empty tag nor [clear]
    is a region tag. *)
Definition wf_traits (t : EngineTraits) : Prop :=
  (all_locale t = None \/ all_locale t = Some (lit "clear")) /\
  regions t !! ([] : str) = None /\
  regions t !! lit "clear" = None.

(** A locale tag that resolves to no market: null, empty, [clear] or not
    in the table. *)
Definition unknown_locale (t : EngineTraits) (tag : option str) : Prop :=
  tag = None \/ tag = Some [] \/ tag = Some (lit "clear") \/
  exists l, tag = Some l /\ regions t !! l = None.

(** *** Records *)

(** The record [r] is the one of the result item [item], read with the
    nodes [R] detached: the first link below a heading of the item has an
    [href] and a text that are not empty, the title of the record is that
    text and its address is what the [href] resolves to, the [href]
    itself unless it is a click-tracking address. *)
Definition web_record_of (extract_text : text_arg -> str) (R : list path) (item : xitem)
    (r : pydict) : Prop :=
  exists p e lp le href address,
    item = XElem p e /\
    getindex0 (xpath_rel R Bing.link_xpath p e) = Some (XElem lp le) /\
    attrib_get le (lit "href") = Some href /\
    href <> [] /\
    extract_text (TElem (prune R lp le)) <> [] /\
    Bing.resolve_href href = Ok address /\
    (startswith href (lit "https://www.bing.com/ck/a?") = false -> address = href) /\
    dict_keys r = [lit "url"; lit "title"; lit "content"] /\
    dict_get (lit "url") r = Some (VStr address) /\
    dict_get (lit "title") r = Some (VStr (extract_text (TElem (prune R lp le)))).

(** The record that carries the number of results. *)
Definition summary_record (n : Z) : pydict := [(lit "number_of_results", VInt n)].

(** The record of a block whose blob is [video_blob]. *)
Definition video_record : pydict :=
  [(lit "url", VStr (lit "https://v.example/1"));
   (lit "thumbnail", VStr (lit "https://t.example/1.jpg"));
   (lit "title", VStr []);
   (lit "content", VStr (lit "3:00 - 1M views - Channel"));
   (lit "template", VStr (lit "videos.html"))].

(** *** Sample pages *)

(** A page without any item. *)
Definition empty_page : element := el "html" [] "" [el "body" [] "" [] ""] "".

(** A result page: two items, the second behind a click-tracking link,
    and the banner [1,234 results]. *)
Definition web_doc : element :=
  el "html" [] ""
    [el "body" [] ""
       [el "span" [("class", "sb_count")] "1,234 results" [] "";
        el "ol" [("id", "b_results")] ""
          [el "li" [("class", "b_algo")] ""
             [el "h2" [] "" [el "a" [("href", "https://example.org/")] "First" [] ""] "";
              el "p" [] "Snippet"
                [el "span" [("class", "algoSlug_icon")] "icon" [] ""] ""] "";
           el "li" [("class", "b_algo")] ""
             [el "h2" [] ""
                [el "a" [("href",
                          "https://www.bing.com/ck/a?p=1&u=a1aHR0cHM6Ly9leGFtcGxlLmNvbS9wYWdl&ntb=1")]
                    "Second" [] ""] ""] ""] ""] ""] "".

(** A result page with one item and the banner [digits]. *)
Definition banner_doc (digits : str) : element :=
  el "html" [] ""
    [el "body" [] ""
       [Element (Some (lit "span")) [(lit "class", lit "sb_count")] digits [] [];
        el "ol" [("id", "b_results")] ""
          [el "li" [("class", "b_algo")] ""
             [el "h2" [] "" [el "a" [("href", "https://example.org/")] "First" [] ""] ""]
             ""] ""] ""] "".

(** A result page whose item is behind a click-tracking link with a
    payload outside the alphabet of base64. *)
Definition junk_payload_doc : element :=
  el "html" [] ""
    [el "body" [] ""
       [el "ol" [("id", "b_results")] ""
          [el "li" [("class", "b_algo")] ""
             [el "h2" [] ""
                [el "a" [("href", "https://www.bing.com/ck/a?u=a1!!!!")] "First" [] ""] ""]
             ""] ""] ""] "".

(** A result item behind a click-tracking link. *)
Definition tracked_item : element :=
  el "li" [("class", "b_algo")] ""
    [el "h2" [] ""
       [el "a" [("href",
                 "https://www.bing.com/ck/a?p=1&u=a1aHR0cHM6Ly9leGFtcGxlLmNvbS9wYWdl&ntb=1")]
           "Second" [] ""] ""] "".

(** A result page whose second item has a payload of one character. *)
Definition bad_payload_doc : element :=
  el "html" [] ""
    [el "body" [] ""
       [el "ol" [("id", "b_results")] ""
          [el "li" [("class", "b_algo")] ""
             [el "h2" [] "" [el "a" [("href", "https://example.org/")] "First" [] ""] ""] "";
           el "li" [("class", "b_algo")] ""
             [el "h2" [] ""
                [el "a" [("href", "https://www.bing.com/ck/a?u=a1Q")] "Second" [] ""] ""] ""]
          ""] ""] "".

(** A news item with a relative image source, and one whose title link
    has neither an address nor a text. *)
Definition news_doc : element :=
  el "div" [] ""
    [el "div" [("class", "news-card newsitem")] ""
       [el "a" [("class", "imagelink")] ""
          [el "img" [("src", "/th?id=abc")] "" [] ""] "";
        el "a" [("class", "title"); ("href", "https://news.example/1")] "Headline" [] "";
        el "div" [("class", "snippet")] "Snippet" [] ""] "";
     el "div" [("class", "newsitem")] "" [el "a" [("class", "title")] "" [] ""] ""] "".

(** A news item whose image source is absolute. *)
Definition news_item_1 : element :=
  el "div" [("class", "news-card newsitem")] ""
    [el "a" [("class", "imagelink")] ""
       [el "img" [("src", "https://www.bing.com/th?id=abc")] "" [] ""] "";
     el "a" [("class", "title"); ("href", "https://news.example/1")] "Headline" [] ""] "".

(** A video block whose [vrhm] attribute holds [blob]. *)
Definition video_block (blob : str) : element :=
  Element (Some (lit "div")) [(lit "id", lit "mc_vtvc_video_1")] []
    [Element (Some (lit "div")) [(lit "class", lit "vrhdata"); (lit "vrhm", blob)] [] [] [];
     el "div" [("class", "mc_vtvc_th")] "" [el "img" [("src", "https://t.example/1.jpg")] "" [] ""] "";
     el "div" [("class", "mc_vtvc_meta_block")] ""
       [el "span" [] "1M views" [] ""; el "span" [] "Channel" [] ""] ""] [].

(** A page of video blocks, one for each blob. *)
Definition video_doc (blobs : list str) : element :=
  el "div" [("class", "dg_u")] "" (List.map video_block blobs) "".

(** A video block without the [vrhdata] element. *)
Definition video_doc_without_blob : element :=
  el "div" [("class", "dg_u")] ""
    [el "div" [("id", "mc_vtvc_video_1")] ""
       [el "div" [("class", "mc_vtvc_th")] ""
          [el "img" [("src", "https://t.example/1.jpg")] "" [] ""] ""] ""] "".

(** *** The encoding of a target address *)

(** Base64 with the URL-safe alphabet and without padding,
    [urlsafe_b64encode(bs).rstrip("=")]: the encoding of the target that
    the Web parser is to undo. *)
Definition b64url_char (d : N) : N :=
  if d <? 26 then 65 + d
  else if d <? 52 then 97 + (d - 26)
  else if d <? 62 then 48 + (d - 52)
  else if d =? 62 then 45
  else 95.

(** The four characters of three bytes. *)
Definition b64_quad (b1 b2 b3 : N) : str :=
  [b64url_char (N.shiftr b1 2);
   b64url_char (N.lor (N.shiftl (N.land b1 3) 4) (N.shiftr b2 4));
   b64url_char (N.lor (N.shiftl (N.land b2 15) 2) (N.shiftr b3 6));
   b64url_char (N.land b3 63)].

Fixpoint urlsafe_b64encode_nopad (bs : bytes) : str :=
  match bs with
  | [] => []
  | [b1] => firstn 2 (b64_quad b1 0 0)
  | [b1; b2] => firstn 3 (b64_quad b1 b2 0)
  | b1 :: b2 :: b3 :: rest => b64_quad b1 b2 b3 ++ urlsafe_b64encode_nopad rest
  end.

(** The characters of the encoding: letters, digits, [-] and [_]. *)
Definition is_b64url (c : N) : bool :=
  is_digit c || ((65 <=? c) && (c <=? 90)) || ((97 <=? c) && (c <=? 122)) ||
  (c =? 45) || (c =? 95).

(** The values of the name [k] among parsed fields. *)
Definition values (k : str) (pairs : list (str * str)) : list str :=
  List.map snd (List.filter (fun nv => str_eqb (fst nv) k) pairs).

(** A character that [urlparse] leaves in the query: no [#], no tab and
    no line break. *)
Definition query_char (c : N) : bool :=
  negb ((c =? 35) || (c =? 9) || (c =? 10) || (c =? 13)).

(** A field of the query string that is not the parameter [u]: it holds
    no [&] and no character that ends or leaves the query, and
    [parse_qsl] does not read it as a value of [u]. *)
Definition other_field (f : str) : bool :=
  forallb (fun c => query_char c && negb (c =? 38)) f &&
  is_empty (values (lit "u") (parse_field f)).

(** A click-tracking address: the fields [fs], the field [u=a1] with
    the payload, and what follows. *)
Definition ck_href (fs : list str) (payload : str) (rest : str) : str :=
  Bing.ck_prefix ++ join [38] (fs ++ [lit "u=a1" ++ payload]) ++ rest.

(** What may follow the payload: nothing, a further field or a fragment. *)
Definition ends_field (rest : str) : Prop :=
  rest = [] \/ exists r, rest = 38 :: r \/ rest = 35 :: r.

(** *** Checks over finite ranges *)

(** [P] holds of [base], [base + 1], ..., [base + 2^k - 1]. *)
Fixpoint all_in_block (k : nat) (base : N) (P : N -> bool) : bool :=
  match k with
  | O => P base
  | S k' => all_in_block k' base P && all_in_block k' (base + 2 ^ N.of_nat k') P
  end.

(** [P] holds of every byte. *)
Definition all_bytes (P : N -> bool) : bool := all_in_block 8 0 P.

(** The checks that the decoder makes on the bytes of one encoded code
    point, and the value it rebuilds; for the code points below 0x10000. *)
Definition decodes_back (c : N) : bool :=
  match utf8_encode_cp c with
  | [b1] => (b1 <? 128) && (b1 =? c)
  | [b1; b2] =>
      negb (b1 <? 128) && ((194 <=? b1) && (b1 <=? 223)) && is_cont b2 &&
      (cp2 b1 b2 =? c)
  | [b1; b2; b3] =>
      negb (b1 <? 128) && negb ((194 <=? b1) && (b1 <=? 223)) &&
      ((224 <=? b1) && (b1 <=? 239)) && second_ok b1 b2 && is_cont b3 &&
      (cp3 b1 b2 b3 =? c)
  | _ => false
  end.

(** ** [fetch_traits] of [bing.py] and [bing_news.py]

    The region page arrives as the response of one GET ([resp.ok],
    [resp.text]); what [print] writes is kept as a list of lines.  The
    functions of [babel] and [urlparse] are parameters. *)

Module BingTraits.

Definition region_xpath : xpath :=
  XPath [Step Descendant (lit "div") [AttrEq (lit "id") (lit "region-section-content")];
         Step Descendant (lit "div") [AttrEq (lit "class") (lit "regionItem")];
         Step Child (lit "a") []]
        (Attribute (lit "href")).

Definition map_market_codes : list (str * str) := [(lit "zh-hk", lit "en-hk")].

Definition RuntimeError : exn := OtherError (lit "RuntimeError").

(** [except babel.UnknownLocaleError] *)
Definition is_unknown_locale_error (e : exn) : bool :=
  match e with
  | OtherError n => str_eqb n (lit "UnknownLocaleError")
  | _ => false
  end.

(** The line [print("CONFLICT: babel %s --> %s, %s" % ...)] writes. *)
Definition conflict_line (sxng_tag conflict market_code : str) : str :=
  lit "CONFLICT: babel " ++ sxng_tag ++ lit " --> " ++ conflict ++ lit ", " ++ market_code.

Section Fetch.

Variable fromstring : str -> result element.

(** [urlparse(href).query]; [urlparse] raises [ValueError] on an address
    that it cannot split, such as one with an unmatched bracket in its
    host. *)
Variable url_query : str -> result str.

(** [babel.languages.get_official_languages(cc_tag, de_facto=True)] *)
Variable get_official_languages : str -> list str.

(** [region_tag(babel.Locale.parse("%s_%s" % (lang_tag, cc_tag.upper())))] *)
Variable region_tag : str -> str -> result str.

(** One turn of the inner loop (lines 210-227): the traits and the lines
    printed so far, after the language [lang_tag] of the country
    [cc_tag]. *)
Definition add_language (cc_tag : str) (st : EngineTraits * list str) (lang_tag : str)
  : result (EngineTraits * list str) :=
  let lang_tag := List.hd [] (split_on 95 lang_tag) in
  let market_code := lang_tag ++ lit "-" ++ cc_tag in
  let market_code :=
    match dict_get market_code map_market_codes with
    | Some m => m
    | None => market_code
    end in
  match region_tag lang_tag cc_tag with
  | Raise e => if is_unknown_locale_error e then Ok st else Raise e
  | Ok sxng_tag =>
      let engine_traits := fst st in
      let assign :=
        ({| regions := <[sxng_tag := market_code]> (regions engine_traits);
            all_locale := all_locale engine_traits |}, snd st) in
      match regions engine_traits !! sxng_tag with
      | Some conflict =>
          if is_empty conflict then Ok assign
          else if negb (str_eqb conflict market_code)
               then Ok (engine_traits, snd st ++ [conflict_line sxng_tag conflict market_code])
               else Ok st
      | None => Ok assign
      end
  end.

Fixpoint add_languages (cc_tag : str) (st : EngineTraits * list str) (langs : list str)
  : result (EngineTraits * list str) :=
  match langs with
  | [] => Ok st
  | lang_tag :: rest =>
      let! st' := add_language cc_tag st lang_tag in
      add_languages cc_tag st' rest
  end.

(** One turn of the outer loop (lines 203-227) on the address [href]. *)
Definition add_region (st : EngineTraits * list str) (href : str)
  : result (EngineTraits * list str) :=
  let! query := url_query href in
  match dict_get (lit "cc") (parse_qs query) with
  | Some (cc_tag :: _) =>
      if str_eqb cc_tag (lit "clear") then
        Ok ({| regions := regions (fst st); all_locale := Some cc_tag |}, snd st)
      else add_languages cc_tag st (get_official_languages cc_tag)
  | Some [] => Raise IndexError
  | None => Raise KeyError
  end.

Fixpoint add_regions (st : EngineTraits * list str) (hrefs : list str)
  : result (EngineTraits * list str) :=
  match hrefs with
  | [] => Ok st
  | href :: rest =>
      let! st' := add_region st href in
      add_regions st' rest
  end.

(** [fetch_traits(engine_traits)] of [bing.py], given the response to
    the request for the region page: the traits afterwards and the lines
    printed. *)
Definition fetch_traits (engine_traits : EngineTraits) (resp_ok : bool) (resp_text : str)
  : result (EngineTraits * list str) :=
  if negb resp_ok then Raise RuntimeError
  else
    let! dom := fromstring resp_text in
    add_regions (engine_traits, []) (strings_of (xpath_abs [] region_xpath dom)).

(** [fetch_traits(engine_traits)] of [bing_news.py] *)
Definition news_fetch_traits (engine_traits : EngineTraits) (resp_ok : bool)
    (resp_text : str) : result (EngineTraits * list str) :=
  let! st := fetch_traits engine_traits resp_ok resp_text in
  Ok ({| regions := <[lit "zh-CN" := lit "en-hk"]> (regions (fst st));
         all_locale := all_locale (fst st) |}, snd st).

End Fetch.

End BingTraits.

(** *** Stand-ins for the examples of the further properties *)

(** [time_map] of the image engine: the minutes of each range. *)
Definition sample_time_map : pydict :=
  [(lit "day", VInt 1440); (lit "week", VInt 10080);
   (lit "month", VInt 44640); (lit "year", VInt 525600)].

(** [str(v)] on integers *)
Definition repr_int (v : pyval) : str :=
  match v with
  | VInt z => str_of_int z
  | _ => []
  end.

(** *** The region page *)

(** The link [href] sets the market code for all locales: the first
    value of its parameter [cc] is [clear]. *)
Definition clears_locale (url_query : str -> result str) (href : str) : bool :=
  match url_query href with
  | Ok query =>
      match dict_get (lit "cc") (parse_qs query) with
      | Some (cc_tag :: _) => str_eqb cc_tag (lit "clear")
      | _ => false
      end
  | Raise _ => false
  end.

(** The market code of a language and a country:
    [map_market_codes.get(market_code, market_code)] *)
Definition market_code_of (lang_tag cc_tag : str) : str :=
  match dict_get (lang_tag ++ lit "-" ++ cc_tag) BingTraits.map_market_codes with
  | Some m => m
  | None => lang_tag ++ lit "-" ++ cc_tag
  end.

(** The entry [tag] to [m] comes from the link [href]: from an official
    language of the country the link names. *)
Definition from_link (url_query : str -> result str)
    (get_official_languages : str -> list str)
    (region_tag : str -> str -> result str) (href tag m : str) : Prop :=
  exists query cc_tag more lang_tag,
    url_query href = Ok query /\
    dict_get (lit "cc") (parse_qs query) = Some (cc_tag :: more) /\
    cc_tag <> lit "clear" /\
    In lang_tag (get_official_languages cc_tag) /\
    region_tag (List.hd [] (split_on 95 lang_tag)) cc_tag = Ok tag /\
    m = market_code_of (List.hd [] (split_on 95 lang_tag)) cc_tag.


(** *** Stand-ins for the examples of the region page *)

(** [urlparse(href).query] for an [href] that is a path with a query;
    an [href] that opens a host with a bracket and does not close it
    raises [ValueError]. *)
Definition sample_url_query (href : str) : result str :=
  if startswith href (lit "//[") && negb (existsb (N.eqb 93) href) then Raise ValueError
  else
    match split_once 63 href with
    | Some (_, q) => Ok (take_until 35 q)
    | None => Ok []
    end.

Definition sample_official_languages (cc_tag : str) : list str :=
  if str_eqb cc_tag (lit "de") then [lit "de"]
  else if str_eqb cc_tag (lit "hk") then [lit "zh_Hant"; lit "en"]
  else if str_eqb cc_tag (lit "at") then [lit "de"; lit "tlh"]
  else [].

Definition sample_region_tag (lang_tag cc_tag : str) : result str :=
  match dict_get (lang_tag ++ lit "_" ++ cc_tag)
          [(lit "de_de", lit "de-DE"); (lit "zh_hk", lit "zh-HK");
           (lit "en_hk", lit "en-HK"); (lit "de_at", lit "de-AT")] with
  | Some t => Ok t
  | None => Raise (OtherError (lit "UnknownLocaleError"))
  end.

Definition region_link (href : string) : element :=
  el "div" [("class", "regionItem")] "" [el "a" [("href", href)] "region" [] ""] "".

(** A region page with the links [clear], [de], [hk] and [at]. *)
Definition region_page : element :=
  el "html" [] ""
    [el "body" [] ""
       [el "div" [("id", "region-section-content")] ""
          [region_link "/account/general?cc=clear";
           region_link "/account/general?cc=de";
           region_link "/account/general?cc=hk";
           region_link "/account/general?cc=at"] ""] ""] "".



Definition empty_traits : EngineTraits := {| regions := ∅; all_locale := None |}.

(** A table that holds market codes of its own for [de-DE] and [zh-CN]. *)
Definition old_traits : EngineTraits :=
  {| regions := {[ lit "de-DE" := lit "de-DE"; lit "zh-CN" := lit "zh-cn" ]};
     all_locale := None |}.

(** *** Definitions of the further properties *)

(** The value of [Accept-Language] for the region [r]:
    [r + "," + r.split("-")[0] + ";q=0.9"] *)
Definition accept_language (r : str) : str :=
  r ++ lit "," ++ List.hd [] (split_on 45 r) ++ lit ";q=0.9".

(** A news item whose first image has no [src], below the title link. *)
Definition image_without_src (p : path) (el0 : element) : Prop :=
  exists lp link ip img,
    getindex0 (xpath_rel [] BingNews.title_xpath p el0) = Some (XElem lp link) /\
    getindex0 (xpath_rel [] BingNews.imagelink_xpath p el0) = Some (XElem ip img) /\
    attrib_get img (lit "src") = None.

(** A news page whose second item has an image without [src]. *)
Definition news_doc_without_src : element :=
  el "div" [] ""
    [el "div" [("class", "newsitem")] ""
       [el "a" [("class", "title"); ("href", "https://news.example/1")] "One" [] ""] "";
     el "div" [("class", "newsitem")] ""
       [el "a" [("class", "imagelink")] "" [el "img" [("alt", "x")] "" [] ""] "";
        el "a" [("class", "title"); ("href", "https://news.example/2")] "Two" [] ""] ""] "".

(** The entry that an item gives to the metadata of a news record: its
    text, stripped; nothing when the item is missing or its text is
    blank. *)
Definition metadata_part (extract_text : text_arg -> str) (item : option str)
  : option str :=
  match item with
  | Some i =>
      if is_empty (strip (extract_text (TStr i))) then None
      else Some (strip (extract_text (TStr i)))
  | None => None
  end.

(** A string that [strip] leaves: it neither begins nor ends with white
    space. *)
Definition stripped (m : str) : Prop :=
  (exists c r, m = c :: r /\ is_space c = false) /\
  (exists r c, m = r ++ [c] /\ is_space c = false).

(** A news item with a padded label and an author, and the same item
    without its source block. *)
Definition news_item_with_source : element :=
  el "div" [("class", "newsitem")] ""
    [el "a" [("class", "title"); ("href", "https://news.example/1");
             ("data-author", "Author")] "One" [] "";
     el "div" [("class", "source")] "" [el "span" [("aria-label", " Paper ")] "" [] ""] ""] "".

(** How the traits and the printed lines may change while the region
    page is read: a market code that is not empty stays, no region tag is
    lost, the code for all locales stays or becomes [clear], the market
    code [zh-hk] is not stored, and lines are only added. *)
Definition traits_extend (st st' : EngineTraits * list str) : Prop :=
  (forall tag m, regions (fst st) !! tag = Some m -> m <> [] ->
                 regions (fst st') !! tag = Some m) /\
  (forall tag m, regions (fst st) !! tag = Some m ->
                 exists m', regions (fst st') !! tag = Some m') /\
  (all_locale (fst st') = all_locale (fst st) \/
   all_locale (fst st') = Some (lit "clear")) /\
  ((forall tag, regions (fst st) !! tag <> Some (lit "zh-hk")) ->
   forall tag, regions (fst st') !! tag <> Some (lit "zh-hk")) /\
  (exists lines, snd st' = snd st ++ lines).

(** A result item whose paragraph holds a decorative icon. *)
Definition item_with_icon : element :=
  el "li" [("class", "b_algo")] ""
    [el "h2" [] "" [el "a" [("href", "https://example.org/")] "First" [] ""] "";
     el "p" [] "Snippet" [el "span" [("class", "algoSlug_icon")] "icon" [] ""] " "] "".

(** The news item has a title link: [link is not None]. *)
Definition has_title_link (item : xitem) : bool :=
  match item with
  | XElem p e =>
      match getindex0 (xpath_rel [] BingNews.title_xpath p e) with
      | Some (XElem _ _) => true
      | _ => false
      end
  | XStr _ => false
  end.

(** The record [r] is the one of the news item [item]: its keys, and its
    address, title and content from the title link and the snippets. *)
Definition news_record_of (extract_text : text_arg -> str) (item : xitem) (r : pydict)
  : Prop :=
  exists p e lp link,
    item = XElem p e /\
    getindex0 (xpath_rel [] BingNews.title_xpath p e) = Some (XElem lp link) /\
    dict_keys r =
      [lit "url"; lit "title"; lit "content"; lit "thumbnail"; lit "metadata"] /\
    dict_get (lit "url") r = Some (BingNews.opt_val (attrib_get link (lit "href"))) /\
    dict_get (lit "title") r = Some (VStr (extract_text (TElem link))) /\
    dict_get (lit "content") r =
      Some (VStr (extract_text
                    (TList (elements_of [] (xpath_rel [] BingNews.snippet_xpath p e))))).

(** * Properties *)

(** ** Strings and dictionaries *)

Lemma str_eqb_refl (s : str) : str_eqb s s = true.
Proof.
  induction s as [|c s IH]; simpl; [reflexivity|].
  now rewrite N.eqb_refl, IH.
Qed.

Lemma str_eqb_eq (a b : str) : str_eqb a b = true <-> a = b.
Proof.
  split; [|intros ->; apply str_eqb_refl].
  revert b; induction a as [|x a IH]; intros [|y b]; simpl; try discriminate; auto.
  rewrite andb_true_iff, N.eqb_eq. intros [-> H]. f_equal. now apply IH.
Qed.

Lemma str_eqb_neq (a b : str) : str_eqb a b = false <-> a <> b.
Proof.
  rewrite <- str_eqb_eq. destruct (str_eqb a b); split; congruence.
Qed.

Lemma str_eqb_sym (a b : str) : str_eqb a b = str_eqb b a.
Proof.
  destruct (str_eqb a b) eqn:E.
  - apply str_eqb_eq in E. subst. symmetry. apply str_eqb_refl.
  - symmetry. apply str_eqb_neq. apply str_eqb_neq in E. congruence.
Qed.

Lemma dict_get_set_eq {V} (k : str) (v : V) (d : list (str * V)) :
  dict_get k (dict_set k v d) = Some v.
Proof.
  induction d as [|[k' v'] d IH]; simpl.
  - now rewrite str_eqb_refl.
  - destruct (str_eqb k' k) eqn:E; simpl; rewrite E; auto.
Qed.

Lemma dict_get_set_ne {V} (k k' : str) (v : V) (d : list (str * V)) :
  str_eqb k' k = false -> dict_get k (dict_set k' v d) = dict_get k d.
Proof.
  intros Hne. induction d as [|[k2 v2] d IH]; simpl.
  - now rewrite Hne.
  - destruct (str_eqb k2 k') eqn:E; simpl.
    + apply str_eqb_eq in E. subst k2. now rewrite Hne.
    + destruct (str_eqb k2 k); auto.
Qed.

(** ** The market parameter *)

Lemma get_locale_params_some (region : option str) (lp : pydict) :
  Bing.get_locale_params region = Some lp ->
  exists r, region = Some r /\ r <> [] /\ r <> lit "clear" /\ lp = [(lit "mkt", VStr r)].
Proof.
  unfold Bing.get_locale_params.
  destruct region as [[|c r]|]; cbn [truthy negb]; try discriminate.
  destruct (str_eqb (c :: r) (lit "clear")) eqn:E; [discriminate|].
  intros H. injection H as <-. exists (c :: r). repeat split; try congruence.
  now apply str_eqb_neq.
Qed.

Lemma get_locale_params_clear (region : option str) :
  region = None \/ region = Some [] \/ region = Some (lit "clear") ->
  Bing.get_locale_params region = None.
Proof.
  intros [-> | [-> | ->]]; reflexivity.
Qed.

(** What [query_params.update(locale_params)] leaves: the dictionary
    itself, or the dictionary with the key [mkt] set. *)
Lemma locale_update (region : option str) (d : pydict) :
  match Bing.get_locale_params region with
  | Some (kv :: lp) => dict_update d (kv :: lp)
  | _ => d
  end =
  match Bing.get_locale_params region, region with
  | Some _, Some r => dict_set (lit "mkt") (VStr r) d
  | _, _ => d
  end.
Proof.
  destruct (Bing.get_locale_params region) as [lp|] eqn:E; [|reflexivity].
  destruct (get_locale_params_some _ _ E) as (r & -> & _ & _ & ->). reflexivity.
Qed.

Lemma web_query_params_ext (traits : EngineTraits) (query : str) (params params' : OnlineParams) :
  searxng_locale params = searxng_locale params' ->
  safesearch params = safesearch params' ->
  Bing.query_params traits query params = Bing.query_params traits query params'.
Proof.
  unfold Bing.query_params. now intros -> ->.
Qed.

Lemma web_request_url (traits : EngineTraits) (urlencode : pydict -> result str)
    (query : str) (params : OnlineParams) :
  (forall encoded,
     urlencode (Bing.query_params traits query params) = Ok encoded ->
     exists r,
       Bing.request traits urlencode query params = Ok r /\
       url r = Some (Bing.base_url ++ lit "?" ++ encoded)) /\
  (forall e,
     urlencode (Bing.query_params traits query params) = Raise e ->
     Bing.request traits urlencode query params = Raise e).
Proof.
  unfold Bing.request. split.
  - intros encoded ->. cbn [bind]. eexists. split; reflexivity.
  - now intros e ->.
Qed.

(** C8: the URL of the Web request does not depend on the page number or
    the time range: two parameter sets that agree on the locale and the
    safe-search level yield the same dictionary, whose keys are [q],
    [adlt] and at most [mkt], and the same URL, whose query string is
    [urlencode] of that dictionary; when [urlencode] raises, both
    requests raise its exception. *)
Theorem web_request_ignores_paging (traits : EngineTraits)
    (urlencode : pydict -> result str) (query : str) (params params' : OnlineParams) :
  searxng_locale params = searxng_locale params' ->
  safesearch params = safesearch params' ->
  Bing.query_params traits query params = Bing.query_params traits query params' /\
  (forall encoded,
     urlencode (Bing.query_params traits query params) = Ok encoded ->
     exists r r',
       Bing.request traits urlencode query params = Ok r /\
       Bing.request traits urlencode query params' = Ok r' /\
       url r = url r' /\
       url r = Some (Bing.base_url ++ lit "?" ++ encoded)) /\
  (forall e,
     urlencode (Bing.query_params traits query params) = Raise e ->
     Bing.request traits urlencode query params = Raise e /\
     Bing.request traits urlencode query params' = Raise e) /\
  (dict_keys (Bing.query_params traits query params) = [lit "q"; lit "adlt"] \/
   dict_keys (Bing.query_params traits query params) = [lit "q"; lit "adlt"; lit "mkt"]).
Proof.
  intros Hl Hs.
  pose proof (web_query_params_ext traits query _ _ Hl Hs) as Hqp.
  split; [exact Hqp|]. split; [|split].
  - intros encoded He.
    destruct (proj1 (web_request_url traits urlencode query params) _ He) as (r & Hr & Hu).
    rewrite Hqp in He.
    destruct (proj1 (web_request_url traits urlencode query params') _ He) as (r' & Hr' & Hu').
    exists r, r'. split; [exact Hr|]. split; [exact Hr'|].
    split; [now rewrite Hu, Hu' | exact Hu].
  - intros e He. split.
    + now apply web_request_url.
    + rewrite Hqp in He. now apply web_request_url.
  - unfold Bing.query_params. rewrite locale_update.
    destruct (Bing.get_locale_params _) as [lp|]; [|now left].
    destruct (get_region _ _ _); [right|left]; reflexivity.
Qed.

Lemma web_request_ignores_paging_witness :
  exists r r',
    Bing.request sample_traits urlencode_strings (lit "rocq")
      (sample_params "de-DE" 1 None) = Ok r /\
    Bing.request sample_traits urlencode_strings (lit "rocq")
      (sample_params "de-DE" 7 (Some (lit "week"))) = Ok r' /\
    url r = url r' /\
    url r = Some (lit "https://www.bing.com/search?q=rocq&adlt=moderate&mkt=de-DE").
Proof.
  destruct (web_request_ignores_paging sample_traits urlencode_strings (lit "rocq")
              (sample_params "de-DE" 1 None) (sample_params "de-DE" 7 (Some (lit "week")))
              eq_refl eq_refl) as (_ & H & _).
  destruct (H (lit "q=rocq&adlt=moderate&mkt=de-DE")) as (r & r' & Hr & Hr' & Hu & Hurl).
  { vm_compute. reflexivity. }
  exists r, r'. split; [exact Hr|]. split; [exact Hr'|]. split; [exact Hu|].
  rewrite Hurl. vm_compute. reflexivity.
Defined.

(** The News dictionary before the time range is looked at. *)
Lemma news_paging_keys (region : option str) (query : str) (page : Z) (k : str) (v : pyval) :
  dict_get k [(lit "q", VStr query); (lit "InfiniteScroll", VInt 1);
              (lit "first", VInt (page * 10 + 1)); (lit "SFX", VInt page);
              (lit "form", VStr (lit "PTFTNR"))] = Some v ->
  str_eqb (lit "mkt") k = false ->
  dict_get k
    (match Bing.get_locale_params region with
     | Some (kv :: lp) =>
         dict_update [(lit "q", VStr query); (lit "InfiniteScroll", VInt 1);
                      (lit "first", VInt (page * 10 + 1)); (lit "SFX", VInt page);
                      (lit "form", VStr (lit "PTFTNR"))] (kv :: lp)
     | _ => [(lit "q", VStr query); (lit "InfiniteScroll", VInt 1);
             (lit "first", VInt (page * 10 + 1)); (lit "SFX", VInt page);
             (lit "form", VStr (lit "PTFTNR"))]
     end) = Some v.
Proof.
  intros Hk Hne. rewrite locale_update.
  destruct (Bing.get_locale_params region); [|exact Hk].
  destruct region; [|exact Hk].
  now rewrite dict_get_set_ne.
Qed.

Lemma news_no_qft (region : option str) (query : str) (page : Z) :
  dict_get (lit "qft")
    (match Bing.get_locale_params region with
     | Some (kv :: lp) =>
         dict_update [(lit "q", VStr query); (lit "InfiniteScroll", VInt 1);
                      (lit "first", VInt (page * 10 + 1)); (lit "SFX", VInt page);
                      (lit "form", VStr (lit "PTFTNR"))] (kv :: lp)
     | _ => [(lit "q", VStr query); (lit "InfiniteScroll", VInt 1);
             (lit "first", VInt (page * 10 + 1)); (lit "SFX", VInt page);
             (lit "form", VStr (lit "PTFTNR"))]
     end) = None.
Proof.
  rewrite locale_update.
  destruct (Bing.get_locale_params region); [|reflexivity].
  destruct region; [|reflexivity].
  now rewrite dict_get_set_ne.
Qed.

(** The value of [qft] for a time range that is set. *)
Lemma news_qft (traits : EngineTraits) (query : str) (params : OnlineParams) (r : str) :
  time_range params = Some r -> r <> [] ->
  dict_get (lit "qft") (BingNews.query_params traits query params) =
  Some (VStr (match dict_get r BingNews.time_map with
              | Some code => code
              | None => BingNews.interval "9"
              end)).
Proof.
  intros Hr Hne. unfold BingNews.query_params. rewrite Hr.
  destruct r as [|c r]; [congruence|]. cbn [truthy].
  apply dict_get_set_eq.
Qed.

(** C9: for the page number [p] the News request sets [first] to
    [(p-1)*10 + 1] and [SFX] to [p-1]; the time ranges day, week and month
    give the filters [interval="4"], [interval="7"] and [interval="9"], any
    other range (year too) gives [interval="9"], and without a time range
    there is no [qft] parameter.  The filters are written out: the code
    point 34 is the double quote.  The URL of the request is the address
    of the engine followed by [urlencode] of this dictionary; when
    [urlencode] raises, the request raises its exception. *)
Theorem news_request_paging_and_time_range (traits : EngineTraits)
    (urlencode : pydict -> result str) (query : str) (params : OnlineParams) (p : Z) :
  pageno params = Some p ->
  let qp := BingNews.query_params traits query params in
  ((forall encoded,
      urlencode qp = Ok encoded ->
      exists r,
        BingNews.request traits urlencode query params = Ok r /\
        url r = Some (lit "https://www.bing.com/news/infinitescrollajax?" ++ encoded)) /\
   (forall e,
      urlencode qp = Raise e ->
      BingNews.request traits urlencode query params = Raise e)) /\
  dict_get (lit "first") qp = Some (VInt ((p - 1) * 10 + 1)) /\
  dict_get (lit "SFX") qp = Some (VInt (p - 1)) /\
  (time_range params = Some (lit "day") ->
   dict_get (lit "qft") qp = Some (VStr (lit "interval=" ++ [34] ++ lit "4" ++ [34]))) /\
  (time_range params = Some (lit "week") ->
   dict_get (lit "qft") qp = Some (VStr (lit "interval=" ++ [34] ++ lit "7" ++ [34]))) /\
  (time_range params = Some (lit "month") ->
   dict_get (lit "qft") qp = Some (VStr (lit "interval=" ++ [34] ++ lit "9" ++ [34]))) /\
  (forall r, time_range params = Some r -> r <> [] ->
   r <> lit "day" -> r <> lit "week" -> r <> lit "month" ->
   dict_get (lit "qft") qp = Some (VStr (lit "interval=" ++ [34] ++ lit "9" ++ [34]))) /\
  (time_range params = None \/ time_range params = Some [] ->
   dict_get (lit "qft") qp = None).
Proof.
  intros Hp qp. subst qp.
  split.
  { unfold BingNews.request. split.
    - intros encoded ->. cbn [bind]. eexists. split; reflexivity.
    - now intros e ->. }
  split; [|split].
  - unfold BingNews.query_params. rewrite Hp.
    destruct (truthy (time_range params));
      [rewrite dict_get_set_ne by reflexivity|];
      now apply news_paging_keys.
  - unfold BingNews.query_params. rewrite Hp.
    destruct (truthy (time_range params));
      [rewrite dict_get_set_ne by reflexivity|];
      now apply news_paging_keys.
  - repeat split.
    + intros H. rewrite (news_qft _ _ _ _ H) by discriminate. reflexivity.
    + intros H. rewrite (news_qft _ _ _ _ H) by discriminate. reflexivity.
    + intros H. rewrite (news_qft _ _ _ _ H) by discriminate. reflexivity.
    + intros r H Hne Hd Hw Hm. rewrite (news_qft _ _ _ _ H Hne).
      unfold BingNews.time_map. cbn [dict_get].
      apply str_eqb_neq in Hd, Hw, Hm.
      rewrite str_eqb_sym in Hd, Hw, Hm. rewrite Hd, Hw, Hm. reflexivity.
    + intros H. unfold BingNews.query_params.
      assert (truthy (time_range params) = false) as -> by (destruct H as [-> | ->]; reflexivity).
      apply news_no_qft.
Qed.

Lemma news_request_paging_witness :
  (exists r,
     BingNews.request sample_traits urlencode_strings (lit "rocq")
       (sample_params "de-DE" 3 (Some (lit "year"))) = Ok r /\
     url r =
     Some (lit "https://www.bing.com/news/infinitescrollajax?q=rocq&InfiniteScroll=1&first=21&SFX=2&form=PTFTNR&mkt=de-DE&qft=interval%3D%229%22")) /\
  dict_get (lit "first")
    (BingNews.query_params sample_traits (lit "rocq")
       (sample_params "de-DE" 3 (Some (lit "year")))) = Some (VInt 21) /\
  dict_get (lit "SFX")
    (BingNews.query_params sample_traits (lit "rocq")
       (sample_params "de-DE" 3 (Some (lit "year")))) = Some (VInt 2) /\
  dict_get (lit "qft")
    (BingNews.query_params sample_traits (lit "rocq")
       (sample_params "de-DE" 3 (Some (lit "year")))) =
  Some (VStr [105; 110; 116; 101; 114; 118; 97; 108; 61; 34; 57; 34]) /\
  dict_get (lit "qft")
    (BingNews.query_params sample_traits (lit "rocq")
       (sample_params "de-DE" 1 (Some (lit "day")))) =
  Some (VStr [105; 110; 116; 101; 114; 118; 97; 108; 61; 34; 52; 34]) /\
  dict_get (lit "qft")
    (BingNews.query_params sample_traits (lit "rocq")
       (sample_params "de-DE" 1 (Some (lit "week")))) =
  Some (VStr [105; 110; 116; 101; 114; 118; 97; 108; 61; 34; 55; 34]).
Proof.
  destruct (news_request_paging_and_time_range sample_traits urlencode_strings
              (lit "rocq") (sample_params "de-DE" 3 (Some (lit "year"))) 3 eq_refl)
    as ((Hu & _) & Hf & Hs & _ & _ & _ & Hy & _).
  destruct (news_request_paging_and_time_range sample_traits urlencode_strings
              (lit "rocq") (sample_params "de-DE" 1 (Some (lit "day"))) 1 eq_refl)
    as (_ & _ & _ & Hd & _).
  destruct (news_request_paging_and_time_range sample_traits urlencode_strings
              (lit "rocq") (sample_params "de-DE" 1 (Some (lit "week"))) 1 eq_refl)
    as (_ & _ & _ & _ & Hw & _).
  split.
  { destruct (Hu (lit "q=rocq&InfiniteScroll=1&first=21&SFX=2&form=PTFTNR&mkt=de-DE&qft=interval%3D%229%22"))
      as (r & Hr & Hurl); [vm_compute; reflexivity|].
    exists r. split; [exact Hr | exact Hurl]. }
  split; [exact Hf|]. split; [exact Hs|].
  split; [apply (Hy (lit "year")); [reflexivity | discriminate..]|].
  split; [exact (Hd eq_refl) | exact (Hw eq_refl)].
Defined.

Lemma get_region_unknown (t : EngineTraits) (tag : option str) :
  wf_traits t -> unknown_locale t tag ->
  get_region t tag (all_locale t) = all_locale t.
Proof.
  intros (_ & He & Hc) [-> | [-> | [-> | (l & -> & Hl)]]]; unfold get_region.
  - reflexivity.
  - now rewrite He.
  - now rewrite Hc.
  - now rewrite Hl.
Qed.

(** C10: for a locale tag that is null, empty, [clear] or absent from the
    table, the market resolves to nothing ([get_locale_params] over the
    resolved region returns [None]) and none of the three requests carries
    the [mkt] parameter. *)
Theorem market_omitted_for_unknown_locale (traits : EngineTraits) (query : str)
    (params : OnlineParams) (repr : pyval -> str) (time_map : pydict) :
  wf_traits traits ->
  unknown_locale traits (searxng_locale params) ->
  Bing.get_locale_params
    (get_region traits (searxng_locale params) (all_locale traits)) = None /\
  dict_get (lit "mkt") (Bing.query_params traits query params) = None /\
  dict_get (lit "mkt") (BingNews.query_params traits query params) = None /\
  (forall qp, BingVideos.query_params traits repr time_map query params = Ok qp ->
              dict_get (lit "mkt") qp = None).
Proof.
  intros Hwf Hu.
  assert (Bing.get_locale_params
            (get_region traits (searxng_locale params) (all_locale traits)) = None) as Hnone.
  { rewrite (get_region_unknown _ _ Hwf Hu).
    destruct Hwf as ([-> | ->] & _); reflexivity. }
  split; [exact Hnone|]. split; [|split].
  - unfold Bing.query_params. now rewrite Hnone.
  - unfold BingNews.query_params. rewrite Hnone.
    destruct (truthy (time_range params)); [|reflexivity].
    now rewrite dict_get_set_ne.
  - intros qp. unfold BingVideos.query_params. rewrite Hnone.
    destruct (truthy (time_range params)).
    + destruct (getitem _ _) as [age|e]; cbn [bind]; [|discriminate].
      intros [= <-]. reflexivity.
    + intros [= <-]. reflexivity.
Qed.

Lemma market_omitted_witness :
  Bing.get_locale_params
    (get_region sample_traits (Some (lit "fr-FR")) (all_locale sample_traits)) = None /\
  Bing.request sample_traits urlencode_strings (lit "rocq")
    (sample_params "fr-FR" 1 None) =
  Ok (set_allow_redirects true
        (set_url (lit "https://www.bing.com/search?q=rocq&adlt=moderate")
           (sample_params "fr-FR" 1 None))).
Proof.
  assert (wf_traits sample_traits) as Hwf.
  { split; [right; reflexivity | split; reflexivity]. }
  assert (unknown_locale sample_traits (searxng_locale (sample_params "fr-FR" 1 None))) as Hu.
  { right; right; right. exists (lit "fr-FR"). split; reflexivity. }
  destruct (market_omitted_for_unknown_locale sample_traits (lit "rocq")
              (sample_params "fr-FR" 1 None) repr_unused [] Hwf Hu) as (H & _).
  split; [exact H | vm_compute; reflexivity].
Defined.

(** ** News thumbnails *)

Lemma news_doc_response :
  BingNews.response_dom extract_plain_text news_doc =
  Ok [[(lit "url", VStr (lit "https://news.example/1"));
       (lit "title", VStr (lit "Headline"));
       (lit "content", VStr (lit "Snippet"));
       (lit "thumbnail", VStr (lit "https://www.bing.com//th?id=abc"));
       (lit "metadata", VStr [])];
      [(lit "url", VNone);
       (lit "title", VStr []);
       (lit "content", VStr []);
       (lit "thumbnail", VNone);
       (lit "metadata", VStr [])]].
Proof. vm_compute. reflexivity. Qed.

(** C5, as the claim states it, fails: the source [/th?id=abc] yields
    [https://www.bing.com//th?id=abc], with two slashes after the origin. *)
Lemma news_thumbnail_double_slash :
  BingNews.thumbnail_of (Some (lit "/th?id=abc")) =
    Ok (lit "https://www.bing.com//th?id=abc") /\
  List.map (dict_get (lit "thumbnail"))
    (match BingNews.response_dom extract_plain_text news_doc with
     | Ok rs => rs
     | Raise _ => []
     end) =
  [Some (VStr (lit "https://www.bing.com//th?id=abc")); Some VNone].
Proof. split; vm_compute; reflexivity. Qed.

(** C5 (amended): for a news item with a title link, the thumbnail of the
    record is [None] when the item has no image; when the first image has
    the source [src], it is [src] itself if [src] starts with the origin
    [https://www.bing.com], and [https://www.bing.com/] followed by [src]
    otherwise. *)
Theorem news_thumbnail (extract_text : text_arg -> str) (p lp : path) (e link : element) :
  getindex0 (xpath_rel [] BingNews.title_xpath p e) = Some (XElem lp link) ->
  (getindex0 (xpath_rel [] BingNews.imagelink_xpath p e) = None ->
   exists r, BingNews.response_item extract_text (XElem p e) = Ok [r] /\
             dict_get (lit "thumbnail") r = Some VNone) /\
  (forall ip img src,
     getindex0 (xpath_rel [] BingNews.imagelink_xpath p e) = Some (XElem ip img) ->
     attrib_get img (lit "src") = Some src ->
     exists r, BingNews.response_item extract_text (XElem p e) = Ok [r] /\
               dict_get (lit "thumbnail") r =
               Some (VStr (if startswith src BingNews.origin then src
                           else lit "https://www.bing.com/" ++ src))).
Proof.
  intros Hlink. split.
  - intros Himg. unfold BingNews.response_item. rewrite Hlink, Himg. cbn [bind].
    eexists. split; reflexivity.
  - intros ip img src Himg Hsrc. unfold BingNews.response_item.
    rewrite Hlink, Himg, Hsrc. unfold BingNews.thumbnail_of.
    destruct (startswith src BingNews.origin); cbn [negb bind];
      eexists; split; reflexivity.
Qed.

Lemma news_thumbnail_witness :
  exists r, BingNews.response_item extract_plain_text (XElem [] news_item_1) = Ok [r] /\
            dict_get (lit "thumbnail") r = Some (VStr (lit "https://www.bing.com/th?id=abc")).
Proof.
  destruct (news_thumbnail extract_plain_text [] [1%nat] news_item_1
              (el "a" [("class", "title"); ("href", "https://news.example/1")] "Headline" [] "")
              eq_refl) as [_ H].
  exact (H [0%nat; 0%nat] (el "img" [("src", "https://www.bing.com/th?id=abc")] "" [] "")
           (lit "https://www.bing.com/th?id=abc") eq_refl eq_refl).
Defined.

(** ** The records of the Web parser *)

Lemma is_empty_false {A} (l : list A) : is_empty l = false <-> l <> [].
Proof. destruct l; simpl; split; congruence. Qed.

Lemma is_empty_true {A} (l : list A) : is_empty l = true <-> l = [].
Proof. destruct l; simpl; split; congruence. Qed.

(** [int] on the digits of the banner: the number they spell, or
    [ValueError] past the limit. *)
Lemma int_of_str_cases (s : str) :
  (s <> [] /\ (List.length s <= 4300)%nat /\ int_of_str s = Ok (int_of_digits s)) \/
  ((s = [] \/ (4300 < List.length s)%nat) /\ int_of_str s = Raise ValueError).
Proof.
  destruct s as [|c s]; [right; split; [now left | reflexivity]|].
  unfold int_of_str, int_max_str_digits.
  destruct (N.ltb_spec 4300 (N.of_nat (List.length (c :: s)))) as [H | H].
  - right. split; [right; lia | reflexivity].
  - left. split; [discriminate|]. split; [lia | reflexivity].
Qed.

(** One turn of the loop: no record, or the record of the item. *)
Lemma web_item_cases (extract_text : text_arg -> str) (R R' : list path)
    (item : xitem) (rs : list pydict) :
  Bing.response_item extract_text R item = Ok (rs, R') ->
  (rs = [] /\ R' = R) \/ exists r, rs = [r] /\ web_record_of extract_text R item r.
Proof.
  unfold Bing.response_item, web_record_of.
  destruct item as [p e|x]; [|intros [= <- <-]; now left].
  destruct (getindex0 _) as [[lp le|x]|] eqn:Hl; try (intros [= <- <-]; now left).
  destruct (attrib_get le (lit "href")) as [href|] eqn:Hh;
    [|intros [= <- <-]; now left].
  destruct (is_empty href || is_empty _) eqn:E; [intros [= <- <-]; now left|].
  apply orb_false_iff in E as [Hne Ht].
  apply is_empty_false in Hne, Ht.
  destruct (Bing.resolve_href href) as [u|err] eqn:Hr; cbn [bind]; [|discriminate].
  intros [= <- <-]. right. eexists. split; [reflexivity|].
  exists p, e, lp, le, href, u.
  split; [reflexivity|]. split; [exact Hl|]. split; [exact Hh|].
  split; [exact Hne|]. split; [exact Ht|]. split; [exact Hr|].
  split; [|repeat split].
  intros Hck. unfold Bing.resolve_href, Bing.ck_prefix in Hr.
  rewrite Hck in Hr. now injection Hr.
Qed.

(** The record at the place [i] comes from an item of the list, read
    after the loop went through the items before it and gave the records
    before [i]. *)
Lemma web_loop_nth (extract_text : text_arg -> str) (items : list xitem) :
  forall R R' rs i r,
    Bing.response_loop extract_text items R = Ok (rs, R') ->
    nth_error rs i = Some r ->
    exists pre item post Ri,
      items = pre ++ item :: post /\
      Bing.response_loop extract_text pre R = Ok (firstn i rs, Ri) /\
      web_record_of extract_text Ri item r.
Proof.
  induction items as [|item items IH]; intros R R' rs i r; cbn [Bing.response_loop].
  - intros [= <- _]. now destruct i.
  - destruct (Bing.response_item extract_text R item) as [[r1 R1]|err] eqn:E1;
      cbn [bind]; [|discriminate].
    cbn [fst snd].
    destruct (Bing.response_loop extract_text items R1) as [[r2 R2]|err] eqn:E2;
      cbn [bind]; [|discriminate].
    cbn [fst snd]. intros [= <- _] Hnth.
    assert (forall j,
              nth_error r2 j = Some r ->
              exists pre it post Ri,
                item :: items = pre ++ it :: post /\
                Bing.response_loop extract_text pre R = Ok (r1 ++ firstn j r2, Ri) /\
                web_record_of extract_text Ri it r) as Hrest.
    { intros j Hj. destruct (IH _ _ _ _ _ E2 Hj) as (pre & it & post & Ri & -> & Hpre & Hit).
      exists (item :: pre), it, post, Ri. split; [reflexivity|]. split; [|exact Hit].
      cbn [Bing.response_loop]. rewrite E1. cbn [bind fst snd]. now rewrite Hpre. }
    destruct (web_item_cases _ _ _ _ _ E1) as [[-> ->] | (r0 & -> & Hr0)].
    + exact (Hrest i Hnth).
    + destruct i as [|j].
      * injection Hnth as <-. exists [], item, items, R. repeat split. exact Hr0.
      * exact (Hrest j Hnth).
Qed.

Lemma web_loop_keys (extract_text : text_arg -> str) (items : list xitem)
    (R R' : list path) (rs : list pydict) :
  Bing.response_loop extract_text items R = Ok (rs, R') ->
  Forall (fun r => dict_keys r = [lit "url"; lit "title"; lit "content"]) rs.
Proof.
  intros H. apply List.Forall_forall. intros r Hin.
  apply In_nth_error in Hin as [i Hi].
  destruct (web_loop_nth _ _ _ _ _ _ _ H Hi) as (pre & item & post & Ri & _ & _ & Hrec).
  destruct Hrec as (p & e & lp & le & href & u & _ & _ & _ & _ & _ & _ & _ & Hk & _).
  exact Hk.
Qed.

(** What [response] makes of the records of the loop. *)
Lemma web_response_dom_loop (extract_text : text_arg -> str) (dom : element)
    (normal : list pydict) (R : list path) :
  Bing.response_loop extract_text (xpath_abs [] Bing.results_xpath dom) [] = Ok (normal, R) ->
  Bing.response_dom extract_text dom =
  if negb (is_empty normal) && negb (is_empty (strip_non_digits (Bing.banner R dom)))
  then
    let! n := int_of_str (strip_non_digits (Bing.banner R dom)) in
    Ok (normal ++ [summary_record n])
  else Ok normal.
Proof.
  intros H. unfold Bing.response_dom. rewrite H. cbn [bind fst snd].
  destruct (negb (is_empty normal)); [|reflexivity].
  destruct (negb (is_empty _)); reflexivity.
Qed.

Lemma web_doc_response :
  Bing.response_dom extract_plain_text web_doc =
  Ok [[(lit "url", VStr (lit "https://example.org/"));
       (lit "title", VStr (lit "First"));
       (lit "content", VStr (lit "Snippet"))];
      [(lit "url", VStr (lit "https://example.com/page"));
       (lit "title", VStr (lit "Second"));
       (lit "content", VStr [])];
      summary_record 1234].
Proof. vm_compute. reflexivity. Qed.

Lemma filter_nonempty {A} (f : A -> bool) (l : list A) :
  List.filter f l <> [] <-> exists x, In x l /\ f x = true.
Proof.
  induction l as [|a l IH]; simpl.
  - split; [congruence | intros (x & [] & _)].
  - destruct (f a) eqn:E.
    + split; [intros _; exists a; auto | congruence].
    + rewrite IH. split.
      * intros (x & Hx & Hf). exists x. auto.
      * intros (x & [-> | Hx] & Hf); [congruence | exists x; auto].
Qed.

(** C7, as the claim states it, fails: on a page with one result item
    and a banner of 4301 digits the conversion [int] raises [ValueError],
    and the parser returns neither the record of the item nor a summary
    record; with 4300 digits it returns both. *)
Lemma web_long_banner_raises :
  Bing.response_dom extract_plain_text (banner_doc (repeat 57 4301)) = Raise ValueError /\
  List.length
    (match Bing.response_dom extract_plain_text (banner_doc (repeat 57 4300)) with
     | Ok rs => rs
     | Raise _ => []
     end) = 2%nat.
Proof. split; vm_compute; reflexivity. Qed.

(** C7 (amended): when the Web parser returns, its result is the records
    of the items followed by at most one summary record; the summary is
    there if and only if an item gave a record and the banner holds a
    digit, and it carries the number that the digits of the banner spell;
    a page without result items gives the empty sequence.  When the items
    gave a record and the banner holds more than 4300 digits, the parser
    raises [ValueError]; when the items are read without an exception it
    returns in every other case. *)
Theorem web_summary_record (extract_text : text_arg -> str) (dom : element) :
  (forall rs,
     Bing.response_dom extract_text dom = Ok rs ->
     exists normal R,
       Bing.response_loop extract_text (xpath_abs [] Bing.results_xpath dom) [] =
         Ok (normal, R) /\
       Forall (fun r => dict_keys r = [lit "url"; lit "title"; lit "content"]) normal /\
       (rs = normal \/
        rs = normal ++
             [summary_record (int_of_digits (strip_non_digits (Bing.banner R dom)))]) /\
       ((exists n, rs = normal ++ [summary_record n]) <->
        (normal <> [] /\ exists c, In c (Bing.banner R dom) /\ is_digit c = true)) /\
       (normal = [] -> rs = []) /\
       (xpath_abs [] Bing.results_xpath dom = [] -> rs = [])) /\
  (forall normal R,
     Bing.response_loop extract_text (xpath_abs [] Bing.results_xpath dom) [] =
       Ok (normal, R) ->
     (normal <> [] ->
      (4300 < List.length (strip_non_digits (Bing.banner R dom)))%nat ->
      Bing.response_dom extract_text dom = Raise ValueError) /\
     (normal = [] \/
      (List.length (strip_non_digits (Bing.banner R dom)) <= 4300)%nat ->
      exists rs, Bing.response_dom extract_text dom = Ok rs)).
Proof.
  split.
  - intros rs H.
    destruct (Bing.response_loop extract_text (xpath_abs [] Bing.results_xpath dom) [])
      as [[normal R]|err] eqn:Hloop.
    2: { unfold Bing.response_dom in H. rewrite Hloop in H. discriminate H. }
    exists normal, R. split; [reflexivity|].
    split; [eapply web_loop_keys; exact Hloop|].
    rewrite (web_response_dom_loop _ _ _ _ Hloop) in H.
    assert (negb (is_empty normal) &&
            negb (is_empty (strip_non_digits (Bing.banner R dom))) = true <->
            normal <> [] /\ exists c, In c (Bing.banner R dom) /\ is_digit c = true) as Hcond.
    { rewrite andb_true_iff, !negb_true_iff, !is_empty_false.
      unfold strip_non_digits. now rewrite filter_nonempty. }
    destruct (negb (is_empty normal) &&
              negb (is_empty (strip_non_digits (Bing.banner R dom)))) eqn:E.
    + destruct (int_of_str_cases (strip_non_digits (Bing.banner R dom)))
        as [(_ & _ & Hint) | (_ & Hint)]; rewrite Hint in H; cbn [bind] in H;
        [|discriminate].
      injection H as <-.
      split; [now right|]. split; [|split].
      * split; [intros _; now apply Hcond | intros _; eexists; reflexivity].
      * intros ->. discriminate E.
      * intros Hitems. rewrite Hitems in Hloop. injection Hloop as <- _. discriminate E.
    + injection H as <-. split; [now left|]. split; [|split].
      * split.
        -- intros (n & Hn').
           apply (f_equal (@List.length pydict)) in Hn'.
           rewrite length_app in Hn'. simpl in Hn'. lia.
        -- intros Hc. apply Hcond in Hc. discriminate Hc.
      * intros ->. reflexivity.
      * intros Hitems. rewrite Hitems in Hloop. now injection Hloop as <- _.
  - intros normal R Hloop. rewrite (web_response_dom_loop _ _ _ _ Hloop). split.
    + intros Hn Hlong.
      destruct normal as [|r normal]; [congruence|]. cbn [is_empty negb andb].
      destruct (strip_non_digits (Bing.banner R dom)) as [|c digits] eqn:Hd;
        [simpl in Hlong; lia|].
      cbn [is_empty negb].
      destruct (int_of_str_cases (c :: digits)) as [(_ & Hle & _) | (_ & ->)];
        [lia | reflexivity].
    + intros Hcase.
      destruct (negb (is_empty normal) && negb (is_empty _)) eqn:E;
        [|eexists; reflexivity].
      apply andb_true_iff in E as [En Ed].
      destruct Hcase as [-> | Hle]; [discriminate En|].
      destruct (int_of_str_cases (strip_non_digits (Bing.banner R dom)))
        as [(_ & _ & ->) | ([Hempty | Hlong] & _)].
      * eexists. reflexivity.
      * rewrite Hempty in Ed. discriminate Ed.
      * lia.
Qed.

Lemma web_summary_witness :
  exists normal R,
    Bing.response_loop extract_plain_text (xpath_abs [] Bing.results_xpath web_doc) [] =
      Ok (normal, R) /\
    Bing.banner R web_doc = lit "1,234 results" /\
    Bing.response_dom extract_plain_text web_doc = Ok (normal ++ [summary_record 1234]).
Proof.
  destruct (proj1 (web_summary_record extract_plain_text web_doc) _ web_doc_response)
    as (normal & R & Hloop & _).
  exists normal, R. split; [exact Hloop|].
  vm_compute in Hloop. injection Hloop as <- <-.
  split; vm_compute; reflexivity.
Defined.

(** ** The loop of the Video parser *)

Section VideoLoop.

Variable json_loads : str -> result pyval.
Variable repr : pyval -> str.

Let item := BingVideos.response_item json_loads repr.
Let loop := BingVideos.response_loop json_loads repr.

Lemma video_loop_ok (items : list xitem) (rs : list pydict) :
  loop items = Ok rs <-> Forall2 (fun b r => item b = Ok r) items rs.
Proof.
  subst loop item. revert rs.
  induction items as [|b items IH]; intros rs; cbn [BingVideos.response_loop].
  - split; [intros [= <-]; constructor | intros H; inversion H; reflexivity].
  - destruct (BingVideos.response_item json_loads repr b) as [r|err] eqn:Eb; cbn [bind].
    + destruct (BingVideos.response_loop json_loads repr items) as [rs'|err] eqn:El;
        cbn [bind].
      * split.
        -- intros [= <-]. constructor; [exact Eb | now apply IH].
        -- intros H. inversion H as [|? r0 ? rs0 Hr Hrest]; subst.
           apply IH in Hrest. congruence.
      * split; [discriminate|].
        intros H. inversion H as [|? r0 ? rs0 Hr Hrest]; subst.
        apply IH in Hrest. discriminate.
    + split; [discriminate|].
      intros H. inversion H; subst. congruence.
Qed.

Lemma video_loop_raise (pre post : list xitem) (b : xitem) (err : exn) :
  Forall (fun b => exists r, item b = Ok r) pre ->
  item b = Raise err ->
  loop (pre ++ b :: post) = Raise err.
Proof.
  subst loop item. intros Hpre Hb.
  induction Hpre as [|x pre (r & Hx) _ IH]; cbn [app BingVideos.response_loop].
  - now rewrite Hb.
  - rewrite Hx. cbn [bind]. now rewrite IH.
Qed.

Lemma video_item_blob_fails (p : path) (e : element) (blob : str) (rest : list str)
    (err : exn) :
  strings_of (xpath_rel [] BingVideos.vrhm_xpath p e) = blob :: rest ->
  json_loads blob = Raise err ->
  item (XElem p e) = Raise err.
Proof.
  subst item. intros Hb Hj. unfold BingVideos.response_item.
  rewrite Hb. cbn [BingVideos.index0 bind]. now rewrite Hj.
Qed.

Lemma video_item_ok_blob (p : path) (e : element) (r : pydict) :
  item (XElem p e) = Ok r ->
  exists blob rest v,
    strings_of (xpath_rel [] BingVideos.vrhm_xpath p e) = blob :: rest /\
    json_loads blob = Ok v.
Proof.
  subst item. unfold BingVideos.response_item.
  destruct (strings_of (xpath_rel [] BingVideos.vrhm_xpath p e)) as [|blob rest];
    cbn [BingVideos.index0 bind]; [discriminate|].
  destruct (json_loads blob) as [v|err] eqn:Hj; cbn [bind]; [|discriminate].
  intros _. now exists blob, rest, v.
Qed.

(** The exceptions of one block: a missing blob or thumbnail, a blob that
    is no JSON, a blob that is no object or lacks [du] or [murl]. *)
Lemma video_item_raises (p : path) (e : element) (err : exn) :
  item (XElem p e) = Raise err ->
  err = IndexError \/ err = KeyError \/ err = TypeError \/
  exists blob, json_loads blob = Raise err.
Proof.
  subst item. unfold BingVideos.response_item.
  destruct (strings_of (xpath_rel [] BingVideos.vrhm_xpath p e)) as [|blob rest];
    cbn [BingVideos.index0 bind]; [intros [= <-]; now left|].
  destruct (json_loads blob) as [metadata|e0] eqn:Hj; cbn [bind];
    [|intros [= <-]; right; right; right; now exists blob].
  destruct metadata as [| | | | |l|d]; cbn [getitem bind];
    try (intros [= <-]; right; right; now left).
  destruct (dict_get (lit "du") d) as [du|]; cbn [bind];
    [|intros [= <-]; right; now left].
  destruct (strings_of (xpath_rel [] BingVideos.thumbnail_xpath p e)) as [|th ths];
    cbn [BingVideos.index0 bind]; [intros [= <-]; now left|].
  destruct (dict_get (lit "murl") d) as [murl|]; cbn [bind];
    [|intros [= <-]; right; now left].
  cbn [get_default]. destruct (dict_get (lit "vt") d); cbn [bind]; discriminate.
Qed.

End VideoLoop.

(** C2, as the claim states it, fails: a block whose blob is no JSON makes
    the parser raise, and the record of the well-formed block beside it is
    not returned, whichever of the two comes first. *)
Lemma video_bad_blob_aborts_response :
  BingVideos.response_dom json_loads_blob repr_unused (video_doc [lit "{"; video_blob]) =
    Raise JSONDecodeError /\
  BingVideos.response_dom json_loads_blob repr_unused (video_doc [video_blob; lit "{"]) =
    Raise JSONDecodeError /\
  BingVideos.response_dom json_loads_blob repr_unused (video_doc [video_blob]) =
    Ok [video_record].
Proof. repeat split; vm_compute; reflexivity. Qed.

(** C2 (amended): the Video parser returns records only when every block
    gives one, and then one per block in document order; a block gives a
    record only if its JSON blob parses; and when the blob of a block
    fails to parse while the blocks before it gave records, the parser
    raises that error for the whole response. *)
Theorem video_blob_failure_aborts (json_loads : str -> result pyval)
    (repr : pyval -> str) (dom : element) :
  (forall rs,
     BingVideos.response_dom json_loads repr dom = Ok rs <->
     Forall2 (fun b r => BingVideos.response_item json_loads repr b = Ok r)
             (xpath_abs [] BingVideos.result_xpath dom) rs) /\
  (forall p e r,
     BingVideos.response_item json_loads repr (XElem p e) = Ok r ->
     exists blob rest v,
       strings_of (xpath_rel [] BingVideos.vrhm_xpath p e) = blob :: rest /\
       json_loads blob = Ok v) /\
  (forall pre p e post blob rest err,
     xpath_abs [] BingVideos.result_xpath dom = pre ++ XElem p e :: post ->
     Forall (fun b => exists r, BingVideos.response_item json_loads repr b = Ok r) pre ->
     strings_of (xpath_rel [] BingVideos.vrhm_xpath p e) = blob :: rest ->
     json_loads blob = Raise err ->
     BingVideos.response_dom json_loads repr dom = Raise err).
Proof.
  split; [|split].
  - intros rs. apply video_loop_ok.
  - apply video_item_ok_blob.
  - intros pre p e post blob rest err Hitems Hpre Hblob Hj.
    unfold BingVideos.response_dom. rewrite Hitems.
    apply video_loop_raise; [exact Hpre|].
    eapply video_item_blob_fails; eauto.
Qed.

Lemma video_blob_failure_witness :
  BingVideos.response_dom json_loads_blob repr_unused (video_doc [video_blob; lit "{"]) =
  Raise JSONDecodeError.
Proof.
  destruct (video_blob_failure_aborts json_loads_blob repr_unused
              (video_doc [video_blob; lit "{"])) as (_ & _ & H).
  apply (H [XElem [0%nat] (video_block video_blob)] [1%nat] (video_block (lit "{")) []
           (lit "{") []).
  - vm_compute. reflexivity.
  - constructor; [|constructor]. exists video_record. vm_compute. reflexivity.
  - vm_compute. reflexivity.
  - vm_compute. reflexivity.
Defined.

(** ** Addresses and titles of the records *)

(** C3, as the claim states it, fails for each of the three parsers: the
    News parser returns a record whose [url] is [None] and whose title is
    empty, the Video parser a record whose title is empty, and the Web
    parser a record whose [url] is empty, from a click-tracking link whose
    payload decodes to nothing. *)
Lemma records_without_url_or_title :
  nth_error
    (match BingNews.response_dom extract_plain_text news_doc with
     | Ok rs => rs
     | Raise _ => []
     end) 1 =
  Some [(lit "url", VNone); (lit "title", VStr []); (lit "content", VStr []);
        (lit "thumbnail", VNone); (lit "metadata", VStr [])] /\
  BingVideos.response_dom json_loads_blob repr_unused (video_doc [video_blob]) =
  Ok [[(lit "url", VStr (lit "https://v.example/1"));
       (lit "thumbnail", VStr (lit "https://t.example/1.jpg"));
       (lit "title", VStr []);
       (lit "content", VStr (lit "3:00 - 1M views - Channel"));
       (lit "template", VStr (lit "videos.html"))]] /\
  Bing.response_dom extract_plain_text junk_payload_doc =
  Ok [[(lit "url", VStr []); (lit "title", VStr (lit "First")); (lit "content", VStr [])]].
Proof. repeat split; vm_compute; reflexivity. Qed.

(** C3 (amended): the records that the Web parser returns are the records
    of result items, in the order of the items, followed by at most one
    summary record.  The record at the place [i] comes from an item that
    the loop reads after the items before it gave the [i] records before:
    the first link below a heading of the item has an [href] and a text
    that are not empty, the title of the record is that text, and its
    address is what the [href] resolves to: the [href] itself unless it
    starts with [https://www.bing.com/ck/a?].  An item without such a
    link, or whose link has no [href], an empty [href] or an empty text,
    adds no record.  The News parser and the Video parser make no such
    check: the record of a news item with a title link has the [href] of
    the link, or [None] without one, as its address and the text of the
    link, empty or not, as its title; a video record has the [murl] of
    the blob as its address and the [vt] of the blob, or the empty string
    without one, as its title, whatever these values are. *)
Theorem web_records_have_title_and_href (extract_text : text_arg -> str)
    (json_loads : str -> result pyval) (repr : pyval -> str) (dom : element)
    (rs : list pydict) :
  Bing.response_dom extract_text dom = Ok rs ->
  (exists normal,
     (rs = normal \/ exists n, rs = normal ++ [summary_record n]) /\
     forall i r,
       nth_error normal i = Some r ->
       exists pre item post R,
         xpath_abs [] Bing.results_xpath dom = pre ++ item :: post /\
         Bing.response_loop extract_text pre [] = Ok (firstn i normal, R) /\
         web_record_of extract_text R item r) /\
  (forall R p e,
     getindex0 (xpath_rel R Bing.link_xpath p e) = None \/
     (exists lp le,
        getindex0 (xpath_rel R Bing.link_xpath p e) = Some (XElem lp le) /\
        (attrib_get le (lit "href") = None \/ attrib_get le (lit "href") = Some [] \/
         extract_text (TElem (prune R lp le)) = [])) ->
     Bing.response_item extract_text R (XElem p e) = Ok ([], R)) /\
  (forall p e lp link news,
     getindex0 (xpath_rel [] BingNews.title_xpath p e) = Some (XElem lp link) ->
     BingNews.response_item extract_text (XElem p e) = Ok news ->
     exists r,
       news = [r] /\
       dict_get (lit "url") r = Some (BingNews.opt_val (attrib_get link (lit "href"))) /\
       dict_get (lit "title") r = Some (VStr (extract_text (TElem link)))) /\
  (forall p e r,
     BingVideos.response_item json_loads repr (XElem p e) = Ok r ->
     exists blob more d murl,
       strings_of (xpath_rel [] BingVideos.vrhm_xpath p e) = blob :: more /\
       json_loads blob = Ok (VDict d) /\
       dict_get (lit "murl") d = Some murl /\
       dict_get (lit "url") r = Some murl /\
       dict_get (lit "title") r =
         Some (match dict_get (lit "vt") d with Some vt => vt | None => VStr [] end)).
Proof.
  intros H. split; [|split; [|split]].
  - destruct (Bing.response_loop extract_text (xpath_abs [] Bing.results_xpath dom) [])
      as [[normal R]|err] eqn:Hloop.
    2: { unfold Bing.response_dom in H. rewrite Hloop in H. discriminate H. }
    exists normal. split.
    + rewrite (web_response_dom_loop _ _ _ _ Hloop) in H.
      destruct (_ && _).
      * destruct (int_of_str _) as [n|err]; cbn [bind] in H; [|discriminate].
        injection H as <-. right. now exists n.
      * injection H as <-. now left.
    + intros i r Hi.
      destruct (web_loop_nth _ _ _ _ _ _ _ Hloop Hi) as (pre & item & post & Ri & Hr).
      now exists pre, item, post, Ri.
  - intros R p e Hdrop. unfold Bing.response_item.
    destruct Hdrop as [-> | (lp & le & -> & Hdrop)]; [reflexivity|].
    destruct Hdrop as [-> | [-> | ->]]; cbn [is_empty orb]; try reflexivity.
    now rewrite orb_true_r.
  - intros p e lp link news Hlink. unfold BingNews.response_item. rewrite Hlink.
    destruct (getindex0 (xpath_rel [] BingNews.imagelink_xpath p e)) as [[ip img|x]|];
      cbn [bind];
      [destruct (BingNews.thumbnail_of _); cbn [bind]; [|discriminate] | |];
      intros [= <-]; eexists; repeat split.
  - intros p e r. unfold BingVideos.response_item.
    destruct (strings_of (xpath_rel [] BingVideos.vrhm_xpath p e)) as [|blob more];
      cbn [BingVideos.index0 bind]; [discriminate|].
    destruct (json_loads blob) as [metadata|e0] eqn:Hj; cbn [bind]; [|discriminate].
    destruct metadata as [| | | | |l|d]; cbn [getitem bind]; try discriminate.
    destruct (dict_get (lit "du") d) as [du|]; cbn [bind]; [|discriminate].
    destruct (strings_of (xpath_rel [] BingVideos.thumbnail_xpath p e)) as [|th ths];
      cbn [BingVideos.index0 bind]; [discriminate|].
    destruct (dict_get (lit "murl") d) as [murl|] eqn:Hm; cbn [bind]; [|discriminate].
    cbn [get_default].
    destruct (dict_get (lit "vt") d) as [vt|] eqn:Hvt; cbn [bind];
      intros H'; injection H' as <-;
      exists blob, more, d, murl; rewrite Hvt; repeat split; assumption.
Qed.

Lemma web_records_witness :
  exists normal,
    ([[(lit "url", VStr (lit "https://example.org/"));
       (lit "title", VStr (lit "First"));
       (lit "content", VStr (lit "Snippet"))];
      [(lit "url", VStr (lit "https://example.com/page"));
       (lit "title", VStr (lit "Second"));
       (lit "content", VStr [])];
      summary_record 1234] = normal \/
     exists n,
       [[(lit "url", VStr (lit "https://example.org/"));
         (lit "title", VStr (lit "First"));
         (lit "content", VStr (lit "Snippet"))];
        [(lit "url", VStr (lit "https://example.com/page"));
         (lit "title", VStr (lit "Second"));
         (lit "content", VStr [])];
        summary_record 1234] = normal ++ [summary_record n]) /\
    forall i r,
      nth_error normal i = Some r ->
      exists pre item post R,
        xpath_abs [] Bing.results_xpath web_doc = pre ++ item :: post /\
        Bing.response_loop extract_plain_text pre [] = Ok (firstn i normal, R) /\
        web_record_of extract_plain_text R item r.
Proof.
  exact (proj1 (web_records_have_title_and_href extract_plain_text json_loads_blob
                  repr_unused web_doc _ web_doc_response)).
Defined.

(** ** Malformed and empty input *)

(** C1, as the claim states it, fails: on a document whose video block
    has no [vrhdata] element the Video parser raises [IndexError]; it
    neither returns the empty sequence nor raises a parse error. *)
Lemma video_block_without_blob_raises :
  BingVideos.response_dom json_loads_blob repr_unused video_doc_without_blob =
  Raise IndexError.
Proof. vm_compute. reflexivity. Qed.

(** C1 (amended): each of the three parsers is a function of the body
    that returns a sequence of records or raises.  An exception of the
    HTML parser surfaces as it is.  On a document without a node that the
    item selector of the parser matches, the parser returns the empty
    sequence.  The Video parser raises whenever one of its blocks does,
    with the exception of the first such block: [IndexError], [KeyError],
    [TypeError] or the exception of the JSON parser. *)
Theorem responses_on_malformed_input (fromstring : str -> result element)
    (extract_text : text_arg -> str) (json_loads : str -> result pyval)
    (repr : pyval -> str) (resp_text : str) :
  (forall err,
     fromstring resp_text = Raise err ->
     Bing.response fromstring extract_text resp_text = Raise err /\
     BingNews.response fromstring extract_text resp_text = Raise err /\
     BingVideos.response fromstring json_loads repr resp_text = Raise err) /\
  (forall dom,
     fromstring resp_text = Ok dom ->
     (xpath_abs [] Bing.results_xpath dom = [] ->
      Bing.response fromstring extract_text resp_text = Ok []) /\
     (xpath_abs [] BingNews.newsitem_xpath dom = [] ->
      BingNews.response fromstring extract_text resp_text = Ok []) /\
     (xpath_abs [] BingVideos.result_xpath dom = [] ->
      BingVideos.response fromstring json_loads repr resp_text = Ok []) /\
     (forall err,
        BingVideos.response fromstring json_loads repr resp_text = Raise err <->
        exists pre b post,
          xpath_abs [] BingVideos.result_xpath dom = pre ++ b :: post /\
          Forall (fun x => exists r, BingVideos.response_item json_loads repr x = Ok r) pre /\
          BingVideos.response_item json_loads repr b = Raise err)) /\
  (forall p e err,
     BingVideos.response_item json_loads repr (XElem p e) = Raise err ->
     err = IndexError \/ err = KeyError \/ err = TypeError \/
     exists blob, json_loads blob = Raise err).
Proof.
  split; [|split; [|apply video_item_raises]].
  - intros err H. unfold Bing.response, BingNews.response, BingVideos.response.
    rewrite H. repeat split.
  - intros dom H. unfold Bing.response, BingNews.response, BingVideos.response.
    rewrite H. cbn [bind]. repeat split.
    + intros E. unfold Bing.response_dom. now rewrite E.
    + intros E. unfold BingNews.response_dom. now rewrite E.
    + intros E. unfold BingVideos.response_dom. now rewrite E.
    + unfold BingVideos.response_dom.
      generalize (xpath_abs [] BingVideos.result_xpath dom) as items.
      induction items as [|x items IH]; cbn [BingVideos.response_loop].
      * intros Hr. discriminate Hr.
      * destruct (BingVideos.response_item json_loads repr x) as [r|e] eqn:Ex; cbn [bind].
        -- destruct (BingVideos.response_loop json_loads repr items) as [rs|e] eqn:El;
             cbn [bind]; [discriminate|].
           intros [= <-]. destruct (IH eq_refl) as (pre & b & post & -> & Hpre & Hb).
           exists (x :: pre), b, post. repeat split; auto.
           constructor; [now exists r | exact Hpre].
        -- intros [= <-]. exists [], x, items. repeat split; auto.
    + intros (pre & b & post & Hitems & Hpre & Hb).
      unfold BingVideos.response_dom. rewrite Hitems.
      now apply video_loop_raise.
Qed.

Lemma responses_on_malformed_input_witness :
  Bing.response (fun _ => Ok empty_page) extract_plain_text [] = Ok [] /\
  BingNews.response (fun _ => Ok empty_page) extract_plain_text [] = Ok [] /\
  BingVideos.response (fun _ => Ok empty_page) json_loads_blob repr_unused [] = Ok [] /\
  Bing.response (fun _ => Raise ParserError) extract_plain_text [] = Raise ParserError.
Proof.
  destruct (responses_on_malformed_input (fun _ => Ok empty_page) extract_plain_text
              json_loads_blob repr_unused []) as (_ & H & _).
  destruct (H empty_page eq_refl) as (Hw & Hn & Hv & _).
  destruct (responses_on_malformed_input (fun _ => Raise ParserError) extract_plain_text
              json_loads_blob repr_unused []) as (H' & _).
  destruct (H' ParserError eq_refl) as (He & _).
  split; [apply Hw; reflexivity|].
  split; [apply Hn; reflexivity|].
  split; [apply Hv; reflexivity | exact He].
Defined.

(** ** Click-tracking links: the decoding chain *)

Lemma all_in_block_spec (k : nat) (P : N -> bool) :
  forall base, all_in_block k base P = true ->
  forall c, base <= c -> c < base + 2 ^ N.of_nat k -> P c = true.
Proof.
  induction k as [|k IH]; intros base H c Hlo Hhi.
  - simpl in *. assert (c = base) as -> by lia. exact H.
  - cbn [all_in_block] in H. apply andb_true_iff in H as [H1 H2].
    rewrite Nat2N.inj_succ, N.pow_succ_r' in Hhi.
    destruct (N.lt_ge_cases c (base + 2 ^ N.of_nat k)) as [Hc | Hc].
    + now apply (IH base).
    + apply (IH (base + 2 ^ N.of_nat k)); auto. lia.
Qed.

Lemma all_bytes_spec (P : N -> bool) :
  all_bytes P = true -> forall b, b < 256 -> P b = true.
Proof.
  intros H b Hb. apply (all_in_block_spec 8 P 0 H); [lia | exact Hb].
Qed.

(** The six bits of an alphabet character as the decoder reads them. *)
Lemma b64_char_value (d : N) :
  d < 64 -> table_a2b_base64 (urlsafe_decode_translation (b64url_char d)) = Some d.
Proof.
  intros Hd.
  assert (all_in_block 6 0
            (fun d => match table_a2b_base64 (urlsafe_decode_translation (b64url_char d)) with
                      | Some x => x =? d
                      | None => false
                      end) = true) as H by (vm_compute; reflexivity).
  pose proof (all_in_block_spec 6 _ 0 H d (N.le_0_l d) Hd) as Hc. cbv beta in Hc.
  destruct (table_a2b_base64 _) as [x|]; [|discriminate].
  apply N.eqb_eq in Hc. now subst.
Qed.

Lemma b64_char_not_pad (d : N) :
  (urlsafe_decode_translation (b64url_char d) =? 61) = false.
Proof.
  unfold b64url_char, urlsafe_decode_translation.
  repeat match goal with
         | |- context [if ?c then _ else _] => destruct c eqn:?
         end;
  repeat match goal with
         | H : (_ <? _) = _ |- _ => first [apply N.ltb_lt in H | apply N.ltb_ge in H]
         | H : (_ =? _) = _ |- _ => first [apply N.eqb_eq in H | apply N.eqb_neq in H]
         end; apply N.eqb_neq; lia.
Qed.

Lemma a2b_loop_char (d : N) (rest : bytes) (quad_pos leftchar pads : N) :
  d < 64 ->
  a2b_base64_loop (urlsafe_decode_translation (b64url_char d) :: rest)
                  quad_pos leftchar pads =
  match quad_pos with
  | 0 => a2b_base64_loop rest 1 d 0
  | 1 => emit (N.lor (N.shiftl leftchar 2) (N.shiftr d 4))
              (a2b_base64_loop rest 2 (N.land d 15) 0)
  | 2 => emit (N.lor (N.shiftl leftchar 4) (N.shiftr d 2))
              (a2b_base64_loop rest 3 (N.land d 3) 0)
  | _ => emit (N.lor (N.shiftl leftchar 6) d) (a2b_base64_loop rest 0 0 0)
  end.
Proof.
  intros Hd. cbn [a2b_base64_loop].
  now rewrite b64_char_not_pad, (b64_char_value d Hd).
Qed.

(** The bits of a quad, read back. *)
Lemma quad_first_half (b1 b2 : N) :
  b1 < 256 -> b2 < 256 ->
  N.shiftr b1 2 < 64 /\
  N.lor (N.shiftl (N.land b1 3) 4) (N.shiftr b2 4) < 64 /\
  N.lor (N.shiftl (N.shiftr b1 2) 2)
        (N.shiftr (N.lor (N.shiftl (N.land b1 3) 4) (N.shiftr b2 4)) 4) = b1 /\
  N.land (N.lor (N.shiftl (N.land b1 3) 4) (N.shiftr b2 4)) 15 = N.shiftr b2 4.
Proof.
  intros H1 H2.
  assert (all_bytes (fun b1 => all_bytes (fun b2 =>
            (N.shiftr b1 2 <? 64) &&
            (N.lor (N.shiftl (N.land b1 3) 4) (N.shiftr b2 4) <? 64) &&
            (N.lor (N.shiftl (N.shiftr b1 2) 2)
               (N.shiftr (N.lor (N.shiftl (N.land b1 3) 4) (N.shiftr b2 4)) 4) =? b1) &&
            (N.land (N.lor (N.shiftl (N.land b1 3) 4) (N.shiftr b2 4)) 15 =? N.shiftr b2 4)))
          = true) as H by (vm_compute; reflexivity).
  pose proof (all_bytes_spec _ (all_bytes_spec _ H b1 H1) b2 H2) as Hc. cbv beta in Hc.
  rewrite !andb_true_iff, !N.ltb_lt, !N.eqb_eq in Hc. tauto.
Qed.

Lemma quad_second_half (b2 b3 : N) :
  b2 < 256 -> b3 < 256 ->
  N.lor (N.shiftl (N.land b2 15) 2) (N.shiftr b3 6) < 64 /\
  N.land b3 63 < 64 /\
  N.lor (N.shiftl (N.shiftr b2 4) 4)
        (N.shiftr (N.lor (N.shiftl (N.land b2 15) 2) (N.shiftr b3 6)) 2) = b2 /\
  N.lor (N.shiftl (N.land (N.lor (N.shiftl (N.land b2 15) 2) (N.shiftr b3 6)) 3) 6)
        (N.land b3 63) = b3.
Proof.
  intros H2 H3.
  assert (all_bytes (fun b2 => all_bytes (fun b3 =>
            (N.lor (N.shiftl (N.land b2 15) 2) (N.shiftr b3 6) <? 64) &&
            (N.land b3 63 <? 64) &&
            (N.lor (N.shiftl (N.shiftr b2 4) 4)
               (N.shiftr (N.lor (N.shiftl (N.land b2 15) 2) (N.shiftr b3 6)) 2) =? b2) &&
            (N.lor (N.shiftl (N.land (N.lor (N.shiftl (N.land b2 15) 2) (N.shiftr b3 6)) 3) 6)
               (N.land b3 63) =? b3)))
          = true) as H by (vm_compute; reflexivity).
  pose proof (all_bytes_spec _ (all_bytes_spec _ H b2 H2) b3 H3) as Hc. cbv beta in Hc.
  rewrite !andb_true_iff, !N.ltb_lt, !N.eqb_eq in Hc. tauto.
Qed.

(** The decoder on the first two, the third and the fourth character of
    a quad. *)
Lemma a2b_loop_two (b1 b2 : N) (rest : bytes) :
  b1 < 256 -> b2 < 256 ->
  a2b_base64_loop
    (urlsafe_decode_translation (b64url_char (N.shiftr b1 2)) ::
     urlsafe_decode_translation
       (b64url_char (N.lor (N.shiftl (N.land b1 3) 4) (N.shiftr b2 4))) :: rest) 0 0 0 =
  emit b1 (a2b_base64_loop rest 2 (N.shiftr b2 4) 0).
Proof.
  intros H1 H2. destruct (quad_first_half b1 b2 H1 H2) as (Hd1 & Hd2 & Hb1 & Hl).
  rewrite (a2b_loop_char _ _ 0 0 0 Hd1), (a2b_loop_char _ _ 1 _ 0 Hd2).
  now rewrite Hb1, Hl.
Qed.

Lemma a2b_loop_third (b2 b3 : N) (rest : bytes) :
  b2 < 256 -> b3 < 256 ->
  a2b_base64_loop
    (urlsafe_decode_translation
       (b64url_char (N.lor (N.shiftl (N.land b2 15) 2) (N.shiftr b3 6))) :: rest)
    2 (N.shiftr b2 4) 0 =
  emit b2 (a2b_base64_loop rest 3
             (N.land (N.lor (N.shiftl (N.land b2 15) 2) (N.shiftr b3 6)) 3) 0).
Proof.
  intros H2 H3. destruct (quad_second_half b2 b3 H2 H3) as (Hd3 & _ & Hb2 & _).
  rewrite (a2b_loop_char _ _ 2 _ 0 Hd3). now rewrite Hb2.
Qed.

Lemma a2b_loop_fourth (b2 b3 : N) (rest : bytes) :
  b2 < 256 -> b3 < 256 ->
  a2b_base64_loop
    (urlsafe_decode_translation (b64url_char (N.land b3 63)) :: rest)
    3 (N.land (N.lor (N.shiftl (N.land b2 15) 2) (N.shiftr b3 6)) 3) 0 =
  emit b3 (a2b_base64_loop rest 0 0 0).
Proof.
  intros H2 H3. destruct (quad_second_half b2 b3 H2 H3) as (_ & Hd4 & _ & Hb3).
  rewrite (a2b_loop_char _ _ 3 _ 0 Hd4). now rewrite Hb3.
Qed.

Lemma list_ind3 {A} (P : list A -> Prop) :
  P [] -> (forall a, P [a]) -> (forall a b, P [a; b]) ->
  (forall a b c l, P l -> P (a :: b :: c :: l)) ->
  forall l, P l.
Proof.
  intros H0 H1 H2 H3. fix IH 1.
  intros [|a [|b [|c l]]]; [apply H0 | apply H1 | apply H2 | apply H3; apply IH].
Qed.

Lemma pad_len_quad (n : nat) : Bing.pad_len (4 + n) = Bing.pad_len n.
Proof.
  unfold Bing.pad_len. replace (4 + n)%nat with (n + 1 * 4)%nat by lia.
  now rewrite Nat.Div0.mod_add.
Qed.

(** Decoding undoes the encoding without padding, once the padding the
    engine computes is put back. *)
Lemma b64_decode_encode (bs : bytes) :
  Forall (fun b => b < 256) bs ->
  a2b_base64
    (List.map urlsafe_decode_translation
       (urlsafe_b64encode_nopad bs ++
        repeat 61 (Bing.pad_len (List.length (urlsafe_b64encode_nopad bs))))) = Ok bs.
Proof.
  unfold a2b_base64.
  induction bs as [|b1|b1 b2|b1 b2 b3 bs IH] using list_ind3; intros Hb.
  - reflexivity.
  - inversion Hb as [|? ? H1 _]; subst.
    cbn [urlsafe_b64encode_nopad b64_quad firstn List.length app List.map].
    rewrite (a2b_loop_two b1 0 _ H1) by lia. reflexivity.
  - inversion Hb as [|? ? H1 Hb']; subst. inversion Hb' as [|? ? H2 _]; subst.
    cbn [urlsafe_b64encode_nopad b64_quad firstn List.length app List.map].
    rewrite (a2b_loop_two b1 b2 _ H1 H2).
    rewrite (a2b_loop_third b2 0 _ H2) by lia. reflexivity.
  - inversion Hb as [|? ? H1 Hb1]; subst. inversion Hb1 as [|? ? H2 Hb2]; subst.
    inversion Hb2 as [|? ? H3 Hb3]; subst.
    cbn [urlsafe_b64encode_nopad].
    rewrite length_app. unfold b64_quad at 2. cbn [List.length]. rewrite (pad_len_quad _).
    unfold b64_quad. cbn [app List.map].
    rewrite (a2b_loop_two b1 b2 _ H1 H2), (a2b_loop_third b2 b3 _ H2 H3),
      (a2b_loop_fourth b2 b3 _ H2 H3).
    now rewrite (IH Hb3).
Qed.

Lemma b64url_char_alphabet (d : N) : is_b64url (b64url_char d) = true.
Proof.
  unfold is_b64url, is_digit, b64url_char.
  repeat match goal with
         | |- context [if ?c then _ else _] => destruct c eqn:?
         end;
  repeat match goal with
         | H : (_ <? _) = _ |- _ => first [apply N.ltb_lt in H | apply N.ltb_ge in H]
         | H : (_ =? _) = _ |- _ => first [apply N.eqb_eq in H | apply N.eqb_neq in H]
         end;
  rewrite !orb_true_iff, !andb_true_iff, !N.leb_le, !N.eqb_eq; lia.
Qed.

Lemma b64encode_alphabet (bs : bytes) :
  forallb is_b64url (urlsafe_b64encode_nopad bs) = true.
Proof.
  induction bs as [|b1|b1 b2|b1 b2 b3 bs IH] using list_ind3;
    cbn [urlsafe_b64encode_nopad b64_quad firstn app forallb];
    rewrite ?b64url_char_alphabet; auto.
Qed.

Lemma is_b64url_inv (c : N) :
  is_b64url c = true ->
  c < 128 /\ c <> 61 /\ c <> 38 /\ c <> 35 /\ c <> 37 /\ c <> 43 /\
  c <> 9 /\ c <> 10 /\ c <> 13.
Proof.
  unfold is_b64url, is_digit.
  rewrite !orb_true_iff, !andb_true_iff, !N.leb_le, !N.eqb_eq. lia.
Qed.

(** *** UTF-8: decoding undoes encoding *)

Lemma utf8_decode_one (b1 : N) (rest : bytes) :
  (b1 <? 128) = true -> utf8_decode (b1 :: rest) = b1 :: utf8_decode rest.
Proof. intros H. cbn [utf8_decode]. now rewrite H. Qed.

Lemma utf8_decode_two (b1 b2 : N) (rest : bytes) :
  (b1 <? 128) = false ->
  (194 <=? b1) && (b1 <=? 223) = true ->
  is_cont b2 = true ->
  utf8_decode (b1 :: b2 :: rest) = cp2 b1 b2 :: utf8_decode rest.
Proof. intros H1 H2 H3. cbn [utf8_decode]. now rewrite H1, H2, H3. Qed.

Lemma utf8_decode_three (b1 b2 b3 : N) (rest : bytes) :
  (b1 <? 128) = false ->
  (194 <=? b1) && (b1 <=? 223) = false ->
  (224 <=? b1) && (b1 <=? 239) = true ->
  second_ok b1 b2 = true ->
  is_cont b3 = true ->
  utf8_decode (b1 :: b2 :: b3 :: rest) = cp3 b1 b2 b3 :: utf8_decode rest.
Proof.
  intros H1 H2 H3 H4 H5. cbn [utf8_decode]. now rewrite H1, H2, H3, H4, H5.
Qed.

Lemma utf8_decode_four (b1 b2 b3 b4 : N) (rest : bytes) :
  (b1 <? 128) = false ->
  (194 <=? b1) && (b1 <=? 223) = false ->
  (224 <=? b1) && (b1 <=? 239) = false ->
  (240 <=? b1) && (b1 <=? 244) = true ->
  second_ok b1 b2 = true ->
  is_cont b3 = true ->
  is_cont b4 = true ->
  utf8_decode (b1 :: b2 :: b3 :: b4 :: rest) = cp4 b1 b2 b3 b4 :: utf8_decode rest.
Proof.
  intros H1 H2 H3 H4 H5 H6 H7. cbn [utf8_decode].
  now rewrite H1, H2, H3, H4, H5, H6, H7.
Qed.

Lemma scalars_decode_back (c : N) :
  is_scalar c = true -> c < 65536 -> decodes_back c = true.
Proof.
  intros Hs Hc.
  assert (all_in_block 16 0 (fun c => negb (is_scalar c) || decodes_back c) = true) as H
    by (vm_compute; reflexivity).
  pose proof (all_in_block_spec 16 _ 0 H c (N.le_0_l c) Hc) as Hd. cbv beta in Hd.
  now rewrite Hs in Hd.
Qed.

Lemma utf8_decode_encode_low (c : N) (rest : bytes) :
  is_scalar c = true -> c < 65536 ->
  utf8_decode (utf8_encode_cp c ++ rest) = c :: utf8_decode rest.
Proof.
  intros Hs Hc. pose proof (scalars_decode_back c Hs Hc) as Hd.
  unfold decodes_back in Hd.
  destruct (utf8_encode_cp c) as [|b1 [|b2 [|b3 [|b4 l]]]]; try discriminate; cbn [app].
  - apply andb_true_iff in Hd as [H1 H2]. apply N.eqb_eq in H2. subst b1.
    now apply utf8_decode_one.
  - apply andb_true_iff in Hd as [Hd H4]. apply andb_true_iff in Hd as [Hd H3].
    apply andb_true_iff in Hd as [H1 H2].
    apply N.eqb_eq in H4. apply negb_true_iff in H1. rewrite <- H4.
    now apply utf8_decode_two.
  - apply andb_true_iff in Hd as [Hd H6]. apply andb_true_iff in Hd as [Hd H5].
    apply andb_true_iff in Hd as [Hd H4]. apply andb_true_iff in Hd as [Hd H3].
    apply andb_true_iff in Hd as [H1 H2].
    apply N.eqb_eq in H6. apply negb_true_iff in H1, H2. rewrite <- H6.
    now apply utf8_decode_three.
Qed.

(** Bit operations as arithmetic. *)
Lemma lor_shiftl_add (h k a : N) :
  a < 2 ^ k -> N.lor (N.shiftl h k) a = h * 2 ^ k + a.
Proof.
  intros Ha. rewrite <- N.lxor_lor, <- N.add_nocarry_lxor, N.shiftl_mul_pow2; auto.
  all: apply N.bits_inj_0; intros n; rewrite N.land_spec;
    destruct (N.lt_ge_cases n k) as [Hn | Hn];
    [ now rewrite N.shiftl_spec_low
    | rewrite <- (N.mod_small a (2 ^ k)) by exact Ha;
      rewrite N.mod_pow2_bits_high by exact Hn; apply andb_false_r ].
Qed.

Lemma land_63 (c : N) : N.land c 63 = c mod 64.
Proof. change 63 with (N.ones 6). now rewrite N.land_ones. Qed.

Lemma land_7 (c : N) : N.land c 7 = c mod 8.
Proof. change 7 with (N.ones 3). now rewrite N.land_ones. Qed.

Ltac lia_div := zify; Z.to_euclidean_division_equations; lia.

(** The four bytes of a code point from 0x10000 on. *)
Lemma utf8_four_bytes (c : N) :
  65536 <= c -> c < 1114112 ->
  N.lor 240 (N.shiftr c 18) = 240 + c / 262144 /\
  N.lor 128 (N.land (N.shiftr c 12) 63) = 128 + (c / 4096) mod 64 /\
  N.lor 128 (N.land (N.shiftr c 6) 63) = 128 + (c / 64) mod 64 /\
  N.lor 128 (N.land c 63) = 128 + c mod 64.
Proof.
  intros Hlo Hhi. repeat split.
  - change 240 with (N.shiftl 30 3).
    rewrite lor_shiftl_add, N.shiftr_div_pow2; [reflexivity|].
    rewrite N.shiftr_div_pow2. change (2 ^ 18) with 262144. change (2 ^ 3) with 8. lia_div.
  - change 128 with (N.shiftl 2 6).
    rewrite lor_shiftl_add, land_63, N.shiftr_div_pow2; [reflexivity|].
    rewrite land_63. change (2 ^ 6) with 64. lia_div.
  - change 128 with (N.shiftl 2 6).
    rewrite lor_shiftl_add, land_63, N.shiftr_div_pow2; [reflexivity|].
    rewrite land_63. change (2 ^ 6) with 64. lia_div.
  - change 128 with (N.shiftl 2 6).
    rewrite lor_shiftl_add, land_63; [reflexivity|].
    rewrite land_63. change (2 ^ 6) with 64. lia_div.
Qed.

Lemma utf8_decode_encode_high (c : N) (rest : bytes) :
  65536 <= c -> c < 1114112 ->
  utf8_decode (utf8_encode_cp c ++ rest) = c :: utf8_decode rest.
Proof.
  intros Hlo Hhi. unfold utf8_encode_cp.
  assert ((c <? 128) = false) as -> by (apply N.ltb_ge; lia).
  assert ((c <? 2048) = false) as -> by (apply N.ltb_ge; lia).
  assert ((c <? 65536) = false) as -> by (apply N.ltb_ge; lia).
  destruct (utf8_four_bytes c Hlo Hhi) as (-> & -> & -> & ->).
  cbn [app].
  set (b1 := 240 + c / 262144). set (b2 := 128 + (c / 4096) mod 64).
  set (b3 := 128 + (c / 64) mod 64). set (b4 := 128 + c mod 64).
  assert (240 <= b1 <= 244) as Hb1 by (subst b1; lia_div).
  assert (128 <= b3 <= 191) as Hb3 by (subst b3; clear Hb1; lia_div).
  assert (128 <= b4 <= 191) as Hb4 by (subst b4; clear Hb1 Hb3; lia_div).
  assert (second_ok b1 b2 = true) as H2.
  { unfold second_ok, is_cont.
    destruct (b1 =? 224) eqn:E1; [apply N.eqb_eq in E1; lia|].
    destruct (b1 =? 237) eqn:E2; [apply N.eqb_eq in E2; lia|].
    destruct (b1 =? 240) eqn:E3; [apply N.eqb_eq in E3|];
      [|destruct (b1 =? 244) eqn:E4; [apply N.eqb_eq in E4|]];
      rewrite andb_true_iff, !N.leb_le; subst b1 b2; clear Hb3 Hb4; lia_div. }
  assert (cp4 b1 b2 b3 b4 = c) as Hcp.
  { unfold cp4. rewrite land_7, !land_63.
    rewrite (lor_shiftl_add _ 6) by (change (2 ^ 6) with 64; lia_div).
    rewrite (lor_shiftl_add _ 12)
      by (change (2 ^ 12) with 4096; change (2 ^ 6) with 64; lia_div).
    rewrite (lor_shiftl_add _ 18)
      by (change (2 ^ 18) with 262144; change (2 ^ 12) with 4096;
          change (2 ^ 6) with 64; lia_div).
    change (2 ^ 18) with 262144. change (2 ^ 12) with 4096. change (2 ^ 6) with 64.
    subst b1 b2 b3 b4. clear H2 Hb1 Hb3 Hb4. lia_div. }
  rewrite <- Hcp.
  apply utf8_decode_four; auto.
  - apply N.ltb_ge. lia.
  - apply andb_false_iff. right. apply N.leb_gt. lia.
  - apply andb_false_iff. right. apply N.leb_gt. lia.
  - apply andb_true_iff. rewrite !N.leb_le. lia.
  - unfold is_cont. apply andb_true_iff. rewrite !N.leb_le. lia.
  - unfold is_cont. apply andb_true_iff. rewrite !N.leb_le. lia.
Qed.

Lemma utf8_decode_encode_cp (c : N) (rest : bytes) :
  is_scalar c = true ->
  utf8_decode (utf8_encode_cp c ++ rest) = c :: utf8_decode rest.
Proof.
  intros Hs. destruct (N.lt_ge_cases c 65536) as [Hc | Hc].
  - now apply utf8_decode_encode_low.
  - apply utf8_decode_encode_high; [exact Hc|].
    unfold is_scalar in Hs.
    rewrite orb_true_iff, andb_true_iff, !N.ltb_lt in Hs. lia.
Qed.

(** [bs.decode("utf-8", errors="replace")] undoes [s.encode("utf-8")]. *)
Lemma utf8_decode_encode (s : str) (bs : bytes) :
  utf8_encode s = Ok bs -> utf8_decode bs = s.
Proof.
  revert bs. induction s as [|c s IH]; intros bs; cbn [utf8_encode].
  - now intros [= <-].
  - destruct (is_scalar c) eqn:Hs; [|discriminate].
    destruct (utf8_encode s) as [r|e]; cbn [bind]; [|discriminate].
    intros [= <-]. rewrite utf8_decode_encode_cp by exact Hs.
    now rewrite (IH r eq_refl).
Qed.

(** *** The query string *)

Lemma split_on_app (sep : N) (a b : str) :
  ~ In sep a -> split_on sep (a ++ sep :: b) = a :: split_on sep b.
Proof.
  induction a as [|c a IH]; intros Hn; cbn [app split_on].
  - now rewrite N.eqb_refl.
  - assert ((c =? sep) = false) as -> by (apply N.eqb_neq; intros ->; apply Hn; now left).
    rewrite IH; [reflexivity|]. intros H. apply Hn. now right.
Qed.

Lemma split_on_none (sep : N) (a : str) : ~ In sep a -> split_on sep a = [a].
Proof.
  induction a as [|c a IH]; intros Hn; cbn [split_on]; [reflexivity|].
  assert ((c =? sep) = false) as -> by (apply N.eqb_neq; intros ->; apply Hn; now left).
  rewrite IH; [reflexivity|]. intros H. apply Hn. now right.
Qed.

Lemma join_snoc_cons (sep : str) (f : str) (fs : list str) (last : str) :
  join sep (f :: fs ++ [last]) = f ++ sep ++ join sep (fs ++ [last]).
Proof. cbn [join]. destruct (fs ++ [last]) eqn:E; [now destruct fs|reflexivity]. Qed.

(** The fields of a query string that is joined from fields. *)
Lemma split_on_join (fs : list str) (last tl : str) :
  Forall (fun f => ~ In 38 f) fs -> ~ In 38 last ->
  tl = [] \/ (exists q, tl = 38 :: q) ->
  split_on 38 (join [38] (fs ++ [last]) ++ tl) =
  fs ++ last :: match tl with [] => [] | _ :: q => split_on 38 q end.
Proof.
  intros Hfs Hlast Htl. induction Hfs as [|f fs Hf _ IH].
  - cbn [app join]. destruct Htl as [-> | (q & ->)].
    + rewrite app_nil_r. now apply split_on_none.
    + now apply split_on_app.
  - change ((f :: fs) ++ [last]) with (f :: fs ++ [last]).
    rewrite join_snoc_cons. rewrite <- !app_assoc. cbn [app].
    rewrite split_on_app by exact Hf. now rewrite IH.
Qed.

Lemma values_app (k : str) (a b : list (str * str)) :
  values k (a ++ b) = values k a ++ values k b.
Proof. unfold values. now rewrite List.filter_app, List.map_app. Qed.

Lemma parse_qs_fold_get (k : str) (pairs : list (str * str)) :
  forall d : list (str * list str),
  dict_get k
    (fold_left
       (fun d nv =>
          match dict_get (fst nv) d with
          | Some vs => dict_set (fst nv) (vs ++ [snd nv]) d
          | None => dict_set (fst nv) [snd nv] d
          end) pairs d) =
  match dict_get k d, values k pairs with
  | Some vs, l => Some (vs ++ l)
  | None, [] => None
  | None, l => Some l
  end.
Proof.
  induction pairs as [|[n v] pairs IH]; intros d; cbn [fold_left].
  - destruct (dict_get k d); [now rewrite app_nil_r | reflexivity].
  - rewrite IH. unfold values. cbn [List.filter fst snd].
    destruct (str_eqb n k) eqn:E.
    + apply str_eqb_eq in E. subst n. cbn [List.map snd].
      destruct (dict_get k d) as [vs|]; rewrite dict_get_set_eq.
      * now rewrite <- app_assoc.
      * reflexivity.
    + destruct (dict_get n d) as [vs|]; now rewrite dict_get_set_ne.
Qed.

(** [parse_qs(qs).get(k)] *)
Lemma parse_qs_get (k : str) (qs : str) :
  dict_get k (parse_qs qs) =
  match values k (parse_qsl qs) with
  | [] => None
  | l => Some l
  end.
Proof. unfold parse_qs. now rewrite parse_qs_fold_get. Qed.

Lemma filter_all {A} (f : A -> bool) (l : list A) :
  forallb f l = true -> List.filter f l = l.
Proof.
  induction l as [|a l IH]; cbn [forallb List.filter]; [reflexivity|].
  rewrite andb_true_iff. intros [-> H]. now rewrite IH.
Qed.

Lemma take_until_app (stop : N) (a b : str) :
  ~ In stop a -> take_until stop (a ++ b) = a ++ take_until stop b.
Proof.
  induction a as [|c a IH]; intros Hn; cbn [app take_until]; [reflexivity|].
  assert ((c =? stop) = false) as -> by (apply N.eqb_neq; intros ->; apply Hn; now left).
  rewrite IH; [reflexivity|]. intros H. apply Hn. now right.
Qed.

Lemma forallb_join (f : N -> bool) (sep : str) (parts : list str) :
  forallb f sep = true -> forallb (forallb f) parts = true ->
  forallb f (join sep parts) = true.
Proof.
  intros Hsep. induction parts as [|p parts IH]; cbn [forallb join]; [reflexivity|].
  rewrite andb_true_iff. intros [Hp Hps]. destruct parts as [|p' parts]; [exact Hp|].
  rewrite !forallb_app, Hp, Hsep. now rewrite IH.
Qed.

Lemma query_char_inv (c : N) :
  query_char c = true -> c <> 35 /\ c <> 9 /\ c <> 10 /\ c <> 13.
Proof.
  unfold query_char. rewrite negb_true_iff, !orb_false_iff, !N.eqb_neq. tauto.
Qed.

Lemma forallb_impl {A} (f g : A -> bool) (l : list A) :
  (forall x, f x = true -> g x = true) -> forallb f l = true -> forallb g l = true.
Proof.
  intros Hfg. induction l as [|a l IH]; cbn [forallb]; [reflexivity|].
  rewrite !andb_true_iff. intros [Ha Hl]. auto.
Qed.

Lemma forallb_not_in (f : N -> bool) (x : N) (l : str) :
  forallb f l = true -> f x = false -> ~ In x l.
Proof.
  intros Hl Hx Hin. rewrite forallb_forall in Hl. apply Hl in Hin. congruence.
Qed.

(** [urlparse(href).query] of an address that begins with the
    click-tracking prefix. *)
Lemma urlparse_query_ck (q rest : str) :
  forallb query_char q = true ->
  urlparse_query (Bing.ck_prefix ++ q ++ rest) =
  q ++ take_until 35
         (List.filter (fun c => negb ((c =? 9) || (c =? 10) || (c =? 13))) rest).
Proof.
  intros Hq. unfold urlparse_query. rewrite !List.filter_app.
  rewrite (filter_all _ q).
  - change (skipn 26 (Bing.ck_prefix ++ ?x)) with x.
    apply take_until_app. eapply forallb_not_in; [exact Hq | reflexivity].
  - eapply forallb_impl; [|exact Hq]. intros c Hc.
    apply query_char_inv in Hc. rewrite negb_true_iff, !orb_false_iff, !N.eqb_neq. tauto.
Qed.

Lemma plus_to_space_id (s : str) :
  forallb (fun c => negb (c =? 43)) s = true -> plus_to_space s = s.
Proof.
  unfold plus_to_space. induction s as [|c s IH]; cbn [forallb List.map]; [reflexivity|].
  rewrite andb_true_iff, negb_true_iff. intros [-> H]. now rewrite IH.
Qed.

Lemma unquote_id (s : str) :
  forallb (fun c => negb (c =? 37)) s = true -> unquote s = s.
Proof.
  intros H. unfold unquote.
  assert (existsb (N.eqb 37) s = false) as ->; [|reflexivity].
  induction s as [|c s IH]; cbn [forallb existsb] in *; [reflexivity|].
  apply andb_true_iff in H as [Hc Hs]. rewrite negb_true_iff, N.eqb_sym in Hc.
  now rewrite Hc, IH.
Qed.

(** The field [u=a1...] as [parse_qsl] reads it. *)
Lemma parse_field_u (payload : str) :
  forallb is_b64url payload = true ->
  parse_field (lit "u=a1" ++ payload) = [(lit "u", lit "a1" ++ payload)].
Proof.
  intros Hp. unfold parse_field.
  change (split_once 61 (lit "u=a1" ++ payload)) with (Some (lit "u", lit "a1" ++ payload)).
  change (is_empty (lit "a1" ++ payload)) with false. cbv iota.
  rewrite (plus_to_space_id (lit "a1" ++ payload)), (unquote_id (lit "a1" ++ payload)).
  - reflexivity.
  - rewrite forallb_app. apply andb_true_iff. split; [reflexivity|].
    eapply forallb_impl; [|exact Hp]. intros c Hc. apply is_b64url_inv in Hc.
    rewrite negb_true_iff, N.eqb_neq. tauto.
  - rewrite forallb_app. apply andb_true_iff. split; [reflexivity|].
    eapply forallb_impl; [|exact Hp]. intros c Hc. apply is_b64url_inv in Hc.
    rewrite negb_true_iff, N.eqb_neq. tauto.
Qed.

Lemma other_fields_no_u (fs : list str) :
  forallb other_field fs = true -> values (lit "u") (flat_map parse_field fs) = [].
Proof.
  induction fs as [|f fs IH]; cbn [forallb flat_map]; [reflexivity|].
  rewrite andb_true_iff. intros [Hf Hfs]. rewrite values_app, (IH Hfs), app_nil_r.
  unfold other_field in Hf. apply andb_true_iff in Hf as [_ Hf].
  now apply is_empty_true.
Qed.

Lemma other_field_chars (f : str) :
  other_field f = true -> forallb query_char f = true /\ ~ In 38 f.
Proof.
  unfold other_field. rewrite andb_true_iff. intros [H _]. split.
  - eapply forallb_impl; [|exact H]. intros c Hc. now apply andb_true_iff in Hc.
  - eapply forallb_not_in; [exact H | reflexivity].
Qed.

Lemma u_field_chars (payload : str) :
  forallb is_b64url payload = true ->
  forallb query_char (lit "u=a1" ++ payload) = true /\ ~ In 38 (lit "u=a1" ++ payload).
Proof.
  intros Hp.
  assert (forallb (fun c => query_char c && negb (c =? 38)) (lit "u=a1" ++ payload) = true)
    as H.
  { rewrite forallb_app. apply andb_true_iff. split; [reflexivity|].
    eapply forallb_impl; [|exact Hp]. intros c Hc. apply is_b64url_inv in Hc.
    unfold query_char.
    rewrite andb_true_iff, !negb_true_iff, !orb_false_iff, !N.eqb_neq. tauto. }
  split.
  - eapply forallb_impl; [|exact H]. intros c Hc. now apply andb_true_iff in Hc.
  - eapply forallb_not_in; [exact H | reflexivity].
Qed.

(** The values of [u] in a click-tracking address start with the
    payload field. *)
Lemma ck_href_u_values (fs : list str) (payload rest : str) :
  forallb other_field fs = true ->
  forallb is_b64url payload = true ->
  ends_field rest ->
  exists more,
    dict_get (lit "u") (parse_qs (urlparse_query (ck_href fs payload rest))) =
    Some ((lit "a1" ++ payload) :: more).
Proof.
  intros Hfs Hp Hrest. unfold ck_href.
  destruct (u_field_chars payload Hp) as [Huq Hu38].
  assert (Forall (fun f => ~ In 38 f) fs) as Hfs38.
  { apply List.Forall_forall. intros f Hf. rewrite forallb_forall in Hfs.
    apply (other_field_chars f (Hfs f Hf)). }
  rewrite urlparse_query_ck.
  - set (tl := take_until 35 _).
    assert (tl = [] \/ exists q, tl = 38 :: q) as Htl.
    { subst tl. destruct Hrest as [-> | (r & [-> | ->])].
      - now left.
      - right. eexists. reflexivity.
      - now left. }
    rewrite parse_qs_get. unfold parse_qsl.
    rewrite (split_on_join fs _ tl Hfs38 Hu38 Htl).
    rewrite flat_map_app. cbn [flat_map].
    rewrite !values_app, (other_fields_no_u fs Hfs), (parse_field_u payload Hp).
    cbn [app]. eexists. reflexivity.
  - apply forallb_join; [reflexivity|].
    rewrite forallb_app. apply andb_true_iff. split.
    + rewrite forallb_forall in *. intros f Hf.
      apply (other_field_chars f (Hfs f Hf)).
    + cbn [forallb]. now rewrite Huq.
Qed.

(** The encoder produces bytes. *)
Lemma second_ok_bound (b1 b2 : N) : second_ok b1 b2 = true -> b2 < 256.
Proof.
  unfold second_ok, is_cont.
  repeat match goal with
         | |- context [if ?c then _ else _] => destruct c
         end;
  rewrite andb_true_iff, !N.leb_le; lia.
Qed.

Lemma utf8_encode_cp_bytes (c : N) :
  is_scalar c = true -> Forall (fun b => b < 256) (utf8_encode_cp c).
Proof.
  intros Hs. destruct (N.lt_ge_cases c 65536) as [Hc | Hc].
  - pose proof (scalars_decode_back c Hs Hc) as Hd. unfold decodes_back in Hd.
    destruct (utf8_encode_cp c) as [|b1 [|b2 [|b3 [|b4 l]]]]; try discriminate.
    + apply andb_true_iff in Hd as [H1 _]. apply N.ltb_lt in H1.
      constructor; [lia | constructor].
    + apply andb_true_iff in Hd as [Hd _]. apply andb_true_iff in Hd as [Hd H3].
      apply andb_true_iff in Hd as [_ H2].
      unfold is_cont in H3. rewrite andb_true_iff, !N.leb_le in H2, H3.
      repeat constructor; lia.
    + apply andb_true_iff in Hd as [Hd _]. apply andb_true_iff in Hd as [Hd H5].
      apply andb_true_iff in Hd as [Hd H4]. apply andb_true_iff in Hd as [_ H3].
      apply second_ok_bound in H4.
      unfold is_cont in H5. rewrite andb_true_iff, !N.leb_le in H3, H5.
      repeat constructor; lia.
  - assert (c < 1114112) as Hhi.
    { unfold is_scalar in Hs. rewrite orb_true_iff, andb_true_iff, !N.ltb_lt in Hs. lia. }
    unfold utf8_encode_cp.
    assert ((c <? 128) = false) as -> by (apply N.ltb_ge; lia).
    assert ((c <? 2048) = false) as -> by (apply N.ltb_ge; lia).
    assert ((c <? 65536) = false) as -> by (apply N.ltb_ge; lia).
    destruct (utf8_four_bytes c Hc Hhi) as (-> & -> & -> & ->).
    repeat constructor; lia_div.
Qed.

Lemma utf8_encode_bytes (s : str) (bs : bytes) :
  utf8_encode s = Ok bs -> Forall (fun b => b < 256) bs.
Proof.
  revert bs. induction s as [|c s IH]; intros bs; cbn [utf8_encode].
  - intros [= <-]. constructor.
  - destruct (is_scalar c) eqn:Hs; [|discriminate].
    destruct (utf8_encode s) as [r|e]; cbn [bind]; [|discriminate].
    intros [= <-]. apply Forall_app. split; [now apply utf8_encode_cp_bytes | now apply IH].
Qed.

Lemma pad_is_ascii (payload : str) (n : nat) :
  forallb is_b64url payload = true ->
  bytes_from_decode_types (payload ++ repeat 61 n) = Ok (payload ++ repeat 61 n).
Proof.
  intros Hp. unfold bytes_from_decode_types.
  assert (forallb (fun c => c <? 128) (payload ++ repeat 61 n) = true) as ->; [|reflexivity].
  rewrite forallb_app. apply andb_true_iff. split.
  - eapply forallb_impl; [|exact Hp]. intros c Hc. apply is_b64url_inv in Hc.
    apply N.ltb_lt. tauto.
  - induction n as [|n IH]; cbn [repeat forallb]; [reflexivity | exact IH].
Qed.

Lemma startswith_app (p s : str) : startswith (p ++ s) p = true.
Proof.
  induction p as [|c p IH]; cbn [app startswith]; [reflexivity|].
  now rewrite N.eqb_refl, IH.
Qed.

(** The decoding of a payload that encodes [target]. *)
Lemma resolve_encoded (fs : list str) (target rest : str) (bs : bytes) :
  utf8_encode target = Ok bs ->
  forallb other_field fs = true ->
  ends_field rest ->
  Bing.resolve_href (ck_href fs (urlsafe_b64encode_nopad bs) rest) = Ok target.
Proof.
  intros Henc Hfs Hrest. unfold Bing.resolve_href.
  assert (startswith (ck_href fs (urlsafe_b64encode_nopad bs) rest) Bing.ck_prefix = true)
    as -> by apply startswith_app.
  destruct (ck_href_u_values fs _ rest Hfs (b64encode_alphabet bs) Hrest) as (more & ->).
  change (startswith (lit "a1" ++ ?p) (lit "a1")) with true. cbv iota.
  change (skipn 2 (lit "a1" ++ ?p)) with p.
  unfold urlsafe_b64decode.
  rewrite (pad_is_ascii _ _ (b64encode_alphabet bs)). cbn [bind].
  rewrite (b64_decode_encode bs (utf8_encode_bytes _ _ Henc)). cbn [bind].
  now rewrite (utf8_decode_encode _ _ Henc).
Qed.

(** C6: when the [href] of a result item is a click-tracking address
    whose parameter [u] is [a1] followed by the base64url encoding,
    without padding, of the UTF-8 bytes of [target], the record of the
    item has the address [target]. *)
Theorem click_tracking_roundtrip (extract_text : text_arg -> str)
    (fs : list str) (target rest : str) (bs : bytes)
    (R : list path) (p lp : path) (e le : element) :
  utf8_encode target = Ok bs ->
  forallb other_field fs = true ->
  ends_field rest ->
  Bing.resolve_href (ck_href fs (urlsafe_b64encode_nopad bs) rest) = Ok target /\
  (getindex0 (xpath_rel R Bing.link_xpath p e) = Some (XElem lp le) ->
   attrib_get le (lit "href") = Some (ck_href fs (urlsafe_b64encode_nopad bs) rest) ->
   extract_text (TElem (prune R lp le)) <> [] ->
   exists content R',
     Bing.response_item extract_text R (XElem p e) =
     Ok ([[(lit "url", VStr target);
           (lit "title", VStr (extract_text (TElem (prune R lp le))));
           (lit "content", VStr content)]], R')).
Proof.
  intros Henc Hfs Hrest.
  pose proof (resolve_encoded fs target rest bs Henc Hfs Hrest) as Hres.
  split; [exact Hres|].
  intros Hlink Hhref Htitle. unfold Bing.response_item.
  rewrite Hlink, Hhref, Hres.
  apply is_empty_false in Htitle. rewrite Htitle.
  change (is_empty (ck_href fs (urlsafe_b64encode_nopad bs) rest)) with false.
  cbn [orb bind]. eexists. eexists. reflexivity.
Qed.

Lemma click_tracking_roundtrip_witness :
  Bing.resolve_href
    (lit "https://www.bing.com/ck/a?p=1&u=a1aHR0cHM6Ly9leGFtcGxlLmNvbS9wYWdl&ntb=1") =
    Ok (lit "https://example.com/page") /\
  exists content R',
    Bing.response_item extract_plain_text [] (XElem [] tracked_item) =
    Ok ([[(lit "url", VStr (lit "https://example.com/page"));
          (lit "title", VStr (lit "Second"));
          (lit "content", VStr content)]], R').
Proof.
  assert (ends_field (lit "&ntb=1")) as Hrest.
  { right. exists (lit "ntb=1"). now left. }
  destruct (click_tracking_roundtrip extract_plain_text [lit "p=1"]
              (lit "https://example.com/page") (lit "&ntb=1")
              (lit "https://example.com/page") [] [] [0%nat; 0%nat] tracked_item
              (el "a" [("href",
                        "https://www.bing.com/ck/a?p=1&u=a1aHR0cHM6Ly9leGFtcGxlLmNvbS9wYWdl&ntb=1")]
                  "Second" [] "")
              eq_refl eq_refl Hrest) as [H1 H2].
  split; [exact H1|].
  apply H2; [reflexivity | reflexivity | discriminate].
Defined.

(** ** Click-tracking links that do not decode *)

(** C4 on a payload that is no base64: [a1Q] holds one character, the
    decoder raises [binascii.Error] and so does [response]; a payload of
    characters outside the alphabet decodes to the empty string, which
    replaces the address. *)
Lemma click_tracking_malformed_payload :
  Bing.resolve_href (lit "https://www.bing.com/ck/a?u=a1Q") = Raise BinasciiError /\
  Bing.response_dom extract_plain_text bad_payload_doc = Raise BinasciiError /\
  Bing.resolve_href (lit "https://www.bing.com/ck/a?u=a1!!!!") = Ok [].
Proof. repeat split; vm_compute; reflexivity. Qed.

(** The address stays as it is when it is no click-tracking address,
    when it has no parameter [u], or when the first [u] does not begin
    with [a1]. *)
Theorem resolve_href_unchanged (href : str) :
  startswith href Bing.ck_prefix = false \/
  dict_get (lit "u") (parse_qs (urlparse_query href)) = None \/
  (exists u_val more,
     dict_get (lit "u") (parse_qs (urlparse_query href)) = Some (u_val :: more) /\
     startswith u_val (lit "a1") = false) ->
  Bing.resolve_href href = Ok href.
Proof.
  unfold Bing.resolve_href.
  intros [-> | [H | (u_val & more & H & Hu)]]; [reflexivity| |].
  - rewrite H. now destruct (startswith href Bing.ck_prefix).
  - rewrite H, Hu. now destruct (startswith href Bing.ck_prefix).
Qed.

Lemma resolve_href_unchanged_witness :
  Bing.resolve_href (lit "https://www.bing.com/ck/a?p=1&u=b2QQ") =
    Ok (lit "https://www.bing.com/ck/a?p=1&u=b2QQ") /\
  Bing.resolve_href (lit "https://www.bing.com/ck/a?p=1&u=") =
    Ok (lit "https://www.bing.com/ck/a?p=1&u=").
Proof.
  split.
  - apply resolve_href_unchanged. right. right.
    exists (lit "b2QQ"), []. split; vm_compute; reflexivity.
  - apply resolve_href_unchanged. right. left. vm_compute. reflexivity.
Defined.

(** * Further properties of the engines *)

(** ** The [Accept-Language] header and the market *)

Lemma override_headers (params : OnlineParams) (region : option str) :
  headers (Bing.override_accept_language params region) =
  match Bing.get_locale_params region, region with
  | Some _, Some r => dict_set (lit "Accept-Language") (accept_language r) (headers params)
  | _, _ => headers params
  end.
Proof.
  unfold Bing.override_accept_language, Bing.get_locale_params.
  destruct region as [[|c r]|]; cbn [truthy negb]; try reflexivity.
  destruct (str_eqb (c :: r) (lit "clear")); reflexivity.
Qed.

(** The value of [mkt] in a dictionary that went through
    [query_params.update(locale_params)] and then had other keys set. *)
Lemma mkt_after_update (region : option str) (d : pydict) :
  dict_get (lit "mkt") d = None ->
  dict_get (lit "mkt")
    (match Bing.get_locale_params region with
     | Some (kv :: lp) => dict_update d (kv :: lp)
     | _ => d
     end) =
  match Bing.get_locale_params region, region with
  | Some _, Some r => Some (VStr r)
  | _, _ => None
  end.
Proof.
  intros Hd. rewrite locale_update.
  destruct (Bing.get_locale_params region); [|exact Hd].
  destruct region; [apply dict_get_set_eq | exact Hd].
Qed.

Lemma web_mkt (traits : EngineTraits) (query : str) (params : OnlineParams) :
  dict_get (lit "mkt") (Bing.query_params traits query params) =
  match Bing.get_locale_params
          (get_region traits (searxng_locale params) (all_locale traits)),
        get_region traits (searxng_locale params) (all_locale traits) with
  | Some _, Some r => Some (VStr r)
  | _, _ => None
  end.
Proof. unfold Bing.query_params. now apply mkt_after_update. Qed.

Lemma news_mkt (traits : EngineTraits) (query : str) (params : OnlineParams) :
  dict_get (lit "mkt") (BingNews.query_params traits query params) =
  match Bing.get_locale_params
          (get_region traits (searxng_locale params) (all_locale traits)),
        get_region traits (searxng_locale params) (all_locale traits) with
  | Some _, Some r => Some (VStr r)
  | _, _ => None
  end.
Proof.
  unfold BingNews.query_params.
  destruct (truthy (time_range params));
    [rewrite dict_get_set_ne by reflexivity|]; now apply mkt_after_update.
Qed.

Lemma video_mkt (traits : EngineTraits) (repr : pyval -> str) (time_map : pydict)
    (query : str) (params : OnlineParams) (qp : pydict) :
  BingVideos.query_params traits repr time_map query params = Ok qp ->
  dict_get (lit "mkt") qp =
  match Bing.get_locale_params
          (get_region traits (searxng_locale params) (all_locale traits)),
        get_region traits (searxng_locale params) (all_locale traits) with
  | Some _, Some r => Some (VStr r)
  | _, _ => None
  end.
Proof.
  unfold BingVideos.query_params.
  destruct (truthy (time_range params)).
  - destruct (getitem _ _) as [age|e]; cbn [bind]; [|discriminate].
    intros H. injection H as <-.
    rewrite !dict_get_set_ne by reflexivity. now apply mkt_after_update.
  - intros H. injection H as <-. now apply mkt_after_update.
Qed.

(** X2: in each of the three engines the request that is returned
    carries the parameter [mkt] with the value [r] exactly when its
    [Accept-Language] header was overridden, and the header then is
    [r,lang;q=0.9] with [lang] the part of [r] before its first hyphen; a
    request without [mkt] keeps the headers it was given. *)
Theorem accept_language_matches_market (traits : EngineTraits)
    (urlencode : pydict -> result str) (repr : pyval -> str) (time_map : pydict)
    (query : str) (params : OnlineParams) :
  (forall params',
     Bing.request traits urlencode query params = Ok params' ->
     (forall r,
        dict_get (lit "mkt") (Bing.query_params traits query params) = Some (VStr r) ->
        dict_get (lit "Accept-Language") (headers params') = Some (accept_language r)) /\
     (dict_get (lit "mkt") (Bing.query_params traits query params) = None ->
      headers params' = headers params)) /\
  (forall params',
     BingNews.request traits urlencode query params = Ok params' ->
     (forall r,
        dict_get (lit "mkt") (BingNews.query_params traits query params) = Some (VStr r) ->
        dict_get (lit "Accept-Language") (headers params') = Some (accept_language r)) /\
     (dict_get (lit "mkt") (BingNews.query_params traits query params) = None ->
      headers params' = headers params)) /\
  (forall qp params',
     BingVideos.query_params traits repr time_map query params = Ok qp ->
     BingVideos.request traits urlencode repr time_map query params = Ok params' ->
     (forall r, dict_get (lit "mkt") qp = Some (VStr r) ->
                dict_get (lit "Accept-Language") (headers params') =
                Some (accept_language r)) /\
     (dict_get (lit "mkt") qp = None -> headers params' = headers params)).
Proof.
  assert (forall r,
            match Bing.get_locale_params
                    (get_region traits (searxng_locale params) (all_locale traits)),
                  get_region traits (searxng_locale params) (all_locale traits) with
            | Some _, Some r' => Some (VStr r')
            | _, _ => None
            end = Some (VStr r) ->
            dict_get (lit "Accept-Language")
              (headers (Bing.override_accept_language params
                          (get_region traits (searxng_locale params) (all_locale traits)))) =
            Some (accept_language r)) as Hset.
  { intros r. rewrite override_headers.
    destruct (Bing.get_locale_params _); [|discriminate].
    destruct (get_region _ _ _); [|discriminate].
    intros H. injection H as ->. apply dict_get_set_eq. }
  assert (match Bing.get_locale_params
                  (get_region traits (searxng_locale params) (all_locale traits)),
                get_region traits (searxng_locale params) (all_locale traits) with
          | Some _, Some r' => Some (VStr r')
          | _, _ => None
          end = None ->
          headers (Bing.override_accept_language params
                     (get_region traits (searxng_locale params) (all_locale traits))) =
          headers params) as Hkeep.
  { rewrite override_headers.
    destruct (Bing.get_locale_params _); [|reflexivity].
    destruct (get_region _ _ _); [discriminate | reflexivity]. }
  split; [|split].
  - intros params'. unfold Bing.request.
    destruct (urlencode _) as [encoded|e]; cbn [bind]; [|discriminate].
    intros H. injection H as <-. rewrite web_mkt.
    split; [intros r; apply Hset | apply Hkeep].
  - intros params'. unfold BingNews.request.
    destruct (urlencode _) as [encoded|e]; cbn [bind]; [|discriminate].
    intros H. injection H as <-. rewrite news_mkt.
    split; [intros r; apply Hset | apply Hkeep].
  - intros qp params' Hqp. unfold BingVideos.request. rewrite Hqp. cbn [bind].
    destruct (urlencode qp) as [encoded|e]; cbn [bind]; [|discriminate].
    intros H. injection H as <-. rewrite (video_mkt _ _ _ _ _ _ Hqp).
    split; [intros r; apply Hset | apply Hkeep].
Qed.

Lemma accept_language_witness :
  exists web news,
    Bing.request sample_traits urlencode_strings (lit "rocq")
      (sample_params "de-DE" 1 None) = Ok web /\
    dict_get (lit "Accept-Language") (headers web) = Some (lit "de-DE,de;q=0.9") /\
    BingNews.request sample_traits urlencode_strings (lit "rocq")
      (sample_params "fr-FR" 1 None) = Ok news /\
    headers news = [].
Proof.
  assert (exists web,
            Bing.request sample_traits urlencode_strings (lit "rocq")
              (sample_params "de-DE" 1 None) = Ok web) as [web Hweb]
    by (eexists; vm_compute; reflexivity).
  assert (exists news,
            BingNews.request sample_traits urlencode_strings (lit "rocq")
              (sample_params "fr-FR" 1 None) = Ok news) as [news Hnews]
    by (eexists; vm_compute; reflexivity).
  destruct (accept_language_matches_market sample_traits urlencode_strings repr_int
              sample_time_map (lit "rocq") (sample_params "de-DE" 1 None))
    as (H & _).
  destruct (accept_language_matches_market sample_traits urlencode_strings repr_int
              sample_time_map (lit "rocq") (sample_params "fr-FR" 1 None))
    as (_ & H' & _).
  exists web, news. split; [exact Hweb|]. split.
  - apply (proj1 (H web Hweb) (lit "de-DE")). reflexivity.
  - split; [exact Hnews|]. apply (proj2 (H' news Hnews)). reflexivity.
Defined.

(** ** The safe-search code of the Web request *)

Lemma kept_after_update (region : option str) (d : pydict) (k : str) :
  str_eqb (lit "mkt") k = false ->
  dict_get k
    (match Bing.get_locale_params region with
     | Some (kv :: lp) => dict_update d (kv :: lp)
     | _ => d
     end) = dict_get k d.
Proof.
  intros Hk. rewrite locale_update.
  destruct (Bing.get_locale_params region); [|reflexivity].
  destruct region; [now apply dict_get_set_ne | reflexivity].
Qed.

(** X3: the Web request sends the query as [q] and the safe-search level
    as [adlt]: [off] for 0, [moderate] for 1, [strict] for 2, and [off]
    again when the level is missing or any other number.  It returns
    unless [urlencode] raises, and the request returned allows redirects
    and has the other parameters as they were. *)
Theorem web_request_safesearch (traits : EngineTraits)
    (urlencode : pydict -> result str) (query : str) (params : OnlineParams) :
  dict_get (lit "q") (Bing.query_params traits query params) = Some (VStr query) /\
  dict_get (lit "adlt") (Bing.query_params traits query params) =
    Some (VStr (match safesearch params with
                | Some 1%Z => lit "moderate"
                | Some 2%Z => lit "strict"
                | _ => lit "off"
                end)) /\
  (forall encoded,
     urlencode (Bing.query_params traits query params) = Ok encoded ->
     exists r,
       Bing.request traits urlencode query params = Ok r /\
       allow_redirects r = Some true /\
       searxng_locale r = searxng_locale params /\
       safesearch r = safesearch params /\
       pageno r = pageno params /\
       time_range r = time_range params) /\
  (forall e,
     urlencode (Bing.query_params traits query params) = Raise e ->
     Bing.request traits urlencode query params = Raise e).
Proof.
  split; [|split; [|split]].
  - unfold Bing.query_params. now rewrite kept_after_update.
  - unfold Bing.query_params. rewrite kept_after_update by reflexivity.
    cbn [dict_get]. change (str_eqb (lit "q") (lit "adlt")) with false.
    change (str_eqb (lit "adlt") (lit "adlt")) with true. cbv iota.
    destruct (safesearch params) as [[|[l|[l|l|]|]|l]|]; reflexivity.
  - intros encoded He. unfold Bing.request. rewrite He. cbn [bind].
    eexists. split; [reflexivity|].
    unfold Bing.override_accept_language.
    destruct (negb (truthy _)); [repeat split|].
    destruct (get_region _ _ _) as [r|]; [|repeat split].
    destruct (str_eqb r (lit "clear")); repeat split.
  - intros e He. unfold Bing.request. now rewrite He.
Qed.

(** ** The Video request *)

Lemma video_query_params_inv (traits : EngineTraits) (repr : pyval -> str)
    (time_map : pydict) (query : str) (params : OnlineParams) (qp : pydict) (k : str) :
  BingVideos.query_params traits repr time_map query params = Ok qp ->
  str_eqb (lit "mkt") k = false ->
  str_eqb (lit "form") k = false ->
  str_eqb (lit "qft") k = false ->
  dict_get k qp =
  dict_get k
    [(lit "q", VStr query); (lit "async", VStr (lit "content"));
     (lit "first",
      VInt (((match pageno params with Some n => n | None => 1 end) - 1) * 35 + 1)%Z);
     (lit "count", VInt 35)].
Proof.
  unfold BingVideos.query_params. intros H Hm Hf Hq.
  destruct (truthy (time_range params)).
  - destruct (getitem _ _) as [age|e]; cbn [bind] in H; [|discriminate].
    injection H as <-. rewrite !dict_get_set_ne by assumption.
    now apply kept_after_update.
  - injection H as <-. now apply kept_after_update.
Qed.

(** X4: the Video request asks for 35 results from position
    [(p-1)*35 + 1] on, where the page [p] is 1 when no page number is
    given; without a time range its dictionary is built without an
    exception and has neither a [form] nor a [qft] parameter.  Once the
    dictionary is built, the request returns with the address of the
    engine followed by [urlencode] of the dictionary, or raises what
    [urlencode] raises. *)
Theorem video_request_paging (traits : EngineTraits)
    (urlencode : pydict -> result str) (repr : pyval -> str) (time_map : pydict)
    (query : str) (params : OnlineParams) :
  (forall qp,
     BingVideos.query_params traits repr time_map query params = Ok qp ->
     dict_get (lit "q") qp = Some (VStr query) /\
     dict_get (lit "async") qp = Some (VStr (lit "content")) /\
     dict_get (lit "first") qp =
       Some (VInt (((match pageno params with Some p => p | None => 1 end) - 1) * 35 + 1)) /\
     dict_get (lit "count") qp = Some (VInt 35) /\
     (forall encoded,
        urlencode qp = Ok encoded ->
        exists params',
          BingVideos.request traits urlencode repr time_map query params = Ok params' /\
          url params' = Some (lit "https://www.bing.com/videos/asyncv2?" ++ encoded)) /\
     (forall e,
        urlencode qp = Raise e ->
        BingVideos.request traits urlencode repr time_map query params = Raise e)) /\
  (time_range params = None \/ time_range params = Some [] ->
   exists qp,
     BingVideos.query_params traits repr time_map query params = Ok qp /\
     dict_get (lit "form") qp = None /\ dict_get (lit "qft") qp = None).
Proof.
  split.
  - intros qp Hqp.
    repeat split;
      try (rewrite (video_query_params_inv _ _ _ _ _ _ _ Hqp) by reflexivity; reflexivity).
    + intros encoded He. unfold BingVideos.request. rewrite Hqp. cbn [bind].
      rewrite He. cbn [bind]. eexists. split; reflexivity.
    + intros e He. unfold BingVideos.request. rewrite Hqp. cbn [bind]. now rewrite He.
  - intros Hr. unfold BingVideos.query_params.
    assert (truthy (time_range params) = false) as -> by (destruct Hr as [-> | ->]; reflexivity).
    eexists. split; [reflexivity|].
    split; now rewrite kept_after_update.
Qed.

Lemma video_request_paging_witness :
  (exists params',
     BingVideos.request sample_traits urlencode_strings repr_int sample_time_map
       (lit "rocq") (sample_params "de-DE" 3 None) = Ok params' /\
     url params' =
     Some (lit "https://www.bing.com/videos/asyncv2?q=rocq&async=content&first=71&count=35&mkt=de-DE")) /\
  BingVideos.request sample_traits urlencode_strings repr_int sample_time_map
    (lit "rocq") (sample_params "de-DE" (10 ^ 4300) None) = Raise ValueError.
Proof.
  split.
  - destruct (video_request_paging sample_traits urlencode_strings repr_int sample_time_map
                (lit "rocq") (sample_params "de-DE" 3 None)) as [H _].
    destruct (H _ eq_refl) as (_ & _ & _ & _ & Hok & _).
    destruct (Hok (lit "q=rocq&async=content&first=71&count=35&mkt=de-DE"))
      as (params' & Hreq & Hurl); [vm_compute; reflexivity|].
    exists params'. split; [exact Hreq | exact Hurl].
  - destruct (video_request_paging sample_traits urlencode_strings repr_int sample_time_map
                (lit "rocq") (sample_params "de-DE" (10 ^ 4300) None)) as [H _].
    destruct (H _ eq_refl) as (_ & _ & _ & _ & _ & Hraise).
    apply Hraise. vm_compute. reflexivity.
Defined.

(** X5: with a time range the Video request adds [form=VRFLTR] and the
    filter [ filterui:videoage-lt] followed by the age that [time_map]
    gives for the range; for a range that [time_map] does not hold the
    request raises [KeyError]. *)
Theorem video_request_time_range (traits : EngineTraits)
    (urlencode : pydict -> result str) (repr : pyval -> str) (time_map : pydict) (query : str) (params : OnlineParams)
    (r : str) :
  time_range params = Some r -> r <> [] ->
  (forall age,
     dict_get r time_map = Some age ->
     exists qp,
       BingVideos.query_params traits repr time_map query params = Ok qp /\
       dict_get (lit "form") qp = Some (VStr (lit "VRFLTR")) /\
       dict_get (lit "qft") qp =
         Some (VStr (lit " filterui:videoage-lt" ++ BingVideos.str_of repr age))) /\
  (dict_get r time_map = None ->
   BingVideos.request traits urlencode repr time_map query params = Raise KeyError).
Proof.
  intros Hr Hne. destruct r as [|c r]; [congruence|].
  split.
  - intros age Hage. unfold BingVideos.query_params. rewrite Hr. cbn [truthy getitem].
    rewrite Hage. cbn [bind]. eexists. split; [reflexivity|]. split.
    + rewrite dict_get_set_ne by reflexivity. apply dict_get_set_eq.
    + apply dict_get_set_eq.
  - intros Hnone.
    unfold BingVideos.request, BingVideos.query_params. rewrite Hr. cbn [truthy getitem].
    now rewrite Hnone.
Qed.

Lemma video_request_time_range_witness :
  (exists qp,
     BingVideos.query_params sample_traits repr_int sample_time_map (lit "rocq")
       (sample_params "de-DE" 1 (Some (lit "week"))) = Ok qp /\
     dict_get (lit "qft") qp = Some (VStr (lit " filterui:videoage-lt10080"))) /\
  BingVideos.request sample_traits urlencode_strings repr_int sample_time_map (lit "rocq")
    (sample_params "de-DE" 1 (Some (lit "decade"))) = Raise KeyError.
Proof.
  split.
  - destruct (video_request_time_range sample_traits urlencode_strings repr_int
                sample_time_map (lit "rocq") (sample_params "de-DE" 1 (Some (lit "week")))
                (lit "week") eq_refl) as [H _]; [discriminate|].
    destruct (H (VInt 10080) eq_refl) as (qp & Hqp & _ & Hqft).
    exists qp. split; [exact Hqp | exact Hqft].
  - destruct (video_request_time_range sample_traits urlencode_strings repr_int
                sample_time_map (lit "rocq") (sample_params "de-DE" 1 (Some (lit "decade")))
                (lit "decade") eq_refl) as [_ H]; [discriminate|].
    exact (H eq_refl).
Defined.

(** ** The exceptions of the Web parser *)

Lemma emit_raise (b : N) (r : result bytes) (e : exn) :
  emit b r = Raise e -> r = Raise e.
Proof. unfold emit. destruct r; cbn [bind]; congruence. Qed.

Lemma a2b_loop_raise (data : bytes) :
  forall quad_pos leftchar pads e,
    a2b_base64_loop data quad_pos leftchar pads = Raise e -> e = BinasciiError.
Proof.
  induction data as [|ch data IH]; intros quad_pos leftchar pads e; cbn [a2b_base64_loop].
  - destruct (quad_pos =? 0); congruence.
  - destruct (ch =? 61).
    + destruct ((2 <=? quad_pos) && (4 <=? quad_pos + (pads + 1))); [discriminate|].
      apply IH.
    + destruct (table_a2b_base64 ch) as [d|]; [|apply IH].
      destruct quad_pos as [|[q|[q|q|]|]];
        try apply IH; intros H; apply emit_raise in H; eapply IH; exact H.
Qed.

Lemma urlsafe_b64decode_raise (s : str) (e : exn) :
  urlsafe_b64decode s = Raise e -> e = ValueError \/ e = BinasciiError.
Proof.
  unfold urlsafe_b64decode, bytes_from_decode_types, a2b_base64.
  destruct (forallb _ s); cbn [bind].
  - intros H. right. eapply a2b_loop_raise. exact H.
  - intros [= <-]. now left.
Qed.

Lemma resolve_href_raise (href : str) (e : exn) :
  Bing.resolve_href href = Raise e ->
  (e = ValueError \/ e = BinasciiError) /\
  startswith href Bing.ck_prefix = true /\
  exists u_val more,
    dict_get (lit "u") (parse_qs (urlparse_query href)) = Some (u_val :: more) /\
    startswith u_val (lit "a1") = true.
Proof.
  unfold Bing.resolve_href.
  destruct (startswith href Bing.ck_prefix); [|discriminate].
  destruct (dict_get _ _) as [[|u_val more]|] eqn:Hu; try discriminate.
  destruct (startswith u_val (lit "a1")) eqn:Ha; [|discriminate].
  destruct (urlsafe_b64decode _) as [b|e0] eqn:Hd; cbn [bind]; [discriminate|].
  intros [= <-]. split; [now apply urlsafe_b64decode_raise in Hd|].
  split; [reflexivity|]. now exists u_val, more.
Qed.

Lemma web_item_raise (extract_text : text_arg -> str) (R : list path) (item : xitem)
    (e : exn) :
  Bing.response_item extract_text R item = Raise e ->
  exists p el lp le href,
    item = XElem p el /\
    getindex0 (xpath_rel R Bing.link_xpath p el) = Some (XElem lp le) /\
    attrib_get le (lit "href") = Some href /\
    Bing.resolve_href href = Raise e.
Proof.
  unfold Bing.response_item.
  destruct item as [p el|x]; [|discriminate].
  destruct (getindex0 _) as [[lp le|x]|] eqn:Hl; try discriminate.
  destruct (attrib_get le (lit "href")) as [href|] eqn:Hh; [|discriminate].
  destruct (is_empty href || is_empty _); [discriminate|].
  destruct (Bing.resolve_href href) as [u|e0] eqn:Hr; cbn [bind]; [discriminate|].
  intros [= <-]. now exists p, el, lp, le, href.
Qed.

Lemma web_loop_raise (extract_text : text_arg -> str) (items : list xitem) :
  forall R e,
    Bing.response_loop extract_text items R = Raise e ->
    exists item R0, In item items /\ Bing.response_item extract_text R0 item = Raise e.
Proof.
  induction items as [|item items IH]; intros R e; cbn [Bing.response_loop]; [discriminate|].
  destruct (Bing.response_item extract_text R item) as [[r1 R1]|e1] eqn:E1; cbn [bind].
  - cbn [snd fst].
    destruct (Bing.response_loop extract_text items R1) as [[r2 R2]|e2] eqn:E2;
      cbn [bind]; [discriminate|].
    intros [= <-]. destruct (IH _ _ E2) as (it & R0 & Hin & Hit).
    exists it, R0. split; [now right | exact Hit].
  - intros [= <-]. exists item, R. split; [now left | exact E1].
Qed.

(** X6: whatever the page, the Web parser raises nothing but what the
    HTML parser raised, [binascii.Error] or [ValueError].  [binascii.Error]
    and the first kind of [ValueError] come from a result item whose link
    is a click-tracking address with a parameter [u] that starts with [a1]
    and a payload that does not decode; the second kind of [ValueError]
    comes from [int] on a banner of more than 4300 digits, after the
    items gave a record. *)
Theorem web_response_exceptions (fromstring : str -> result element)
    (extract_text : text_arg -> str) (resp_text : str) (e : exn) :
  Bing.response fromstring extract_text resp_text = Raise e ->
  fromstring resp_text = Raise e \/
  ((e = ValueError \/ e = BinasciiError) /\
   exists dom R p el lp le href u_val more,
     fromstring resp_text = Ok dom /\
     In (XElem p el) (xpath_abs [] Bing.results_xpath dom) /\
     getindex0 (xpath_rel R Bing.link_xpath p el) = Some (XElem lp le) /\
     attrib_get le (lit "href") = Some href /\
     startswith href Bing.ck_prefix = true /\
     dict_get (lit "u") (parse_qs (urlparse_query href)) = Some (u_val :: more) /\
     startswith u_val (lit "a1") = true /\
     Bing.resolve_href href = Raise e) \/
  (e = ValueError /\
   exists dom normal R,
     fromstring resp_text = Ok dom /\
     Bing.response_loop extract_text (xpath_abs [] Bing.results_xpath dom) [] =
       Ok (normal, R) /\
     normal <> [] /\
     (4300 < List.length (strip_non_digits (Bing.banner R dom)))%nat).
Proof.
  unfold Bing.response.
  destruct (fromstring resp_text) as [dom|e0] eqn:Hf; cbn [bind];
    [|intros H; injection H as ->; now left].
  destruct (Bing.response_loop extract_text (xpath_abs [] Bing.results_xpath dom) [])
    as [[rs R]|e0] eqn:Hl.
  - rewrite (web_response_dom_loop _ _ _ _ Hl).
    destruct (negb (is_empty rs) && negb (is_empty _)) eqn:E; [|discriminate].
    apply andb_true_iff in E as [En Ed].
    apply negb_true_iff, is_empty_false in En.
    apply negb_true_iff, is_empty_false in Ed.
    destruct (int_of_str_cases (strip_non_digits (Bing.banner R dom)))
      as [(_ & _ & ->) | ([Hempty | Hlong] & ->)]; cbn [bind];
      [discriminate | contradiction |].
    intros H. injection H as <-. right. right. split; [reflexivity|].
    exists dom, rs, R. repeat split; assumption.
  - unfold Bing.response_dom. rewrite Hl. cbn [bind].
    intros H. injection H as <-. right. left.
    destruct (web_loop_raise _ _ _ _ Hl) as (item & R0 & Hin & Hit).
    destruct (web_item_raise _ _ _ _ Hit) as (p & el & lp & le & href & -> & Hlink & Hh & Hr).
    destruct (resolve_href_raise _ _ Hr) as (He & Hck & u_val & more & Hu & Ha).
    split; [exact He|].
    exists dom, R0, p, el, lp, le, href, u_val, more. repeat split; assumption.
Qed.

Lemma web_response_exceptions_witness :
  Bing.response (fun _ => Ok bad_payload_doc) extract_plain_text [] = Raise BinasciiError /\
  ((fun _ : str => Ok bad_payload_doc) [] = Raise BinasciiError \/
   ((BinasciiError = ValueError \/ BinasciiError = BinasciiError) /\
    exists dom R p el lp le href u_val more,
      (fun _ : str => Ok bad_payload_doc) [] = Ok dom /\
      In (XElem p el) (xpath_abs [] Bing.results_xpath dom) /\
      getindex0 (xpath_rel R Bing.link_xpath p el) = Some (XElem lp le) /\
      attrib_get le (lit "href") = Some href /\
      startswith href Bing.ck_prefix = true /\
      dict_get (lit "u") (parse_qs (urlparse_query href)) = Some (u_val :: more) /\
      startswith u_val (lit "a1") = true /\
      Bing.resolve_href href = Raise BinasciiError) \/
   (BinasciiError = ValueError /\
    exists dom normal R,
      (fun _ : str => Ok bad_payload_doc) [] = Ok dom /\
      Bing.response_loop extract_plain_text (xpath_abs [] Bing.results_xpath dom) [] =
        Ok (normal, R) /\
      normal <> [] /\
      (4300 < List.length (strip_non_digits (Bing.banner R dom)))%nat)).
Proof.
  assert (Bing.response (fun _ => Ok bad_payload_doc) extract_plain_text [] =
          Raise BinasciiError) as H by (vm_compute; reflexivity).
  split; [exact H|].
  exact (web_response_exceptions (fun _ => Ok bad_payload_doc) extract_plain_text []
           BinasciiError H).
Defined.

(** ** The exceptions of the News parser *)

Lemma news_item_raise (extract_text : text_arg -> str) (item : xitem) (e : exn) :
  BingNews.response_item extract_text item = Raise e <->
  e = AttributeError /\ exists p el0, item = XElem p el0 /\ image_without_src p el0.
Proof.
  unfold BingNews.response_item, image_without_src. split.
  - destruct item as [p el0|x]; [|discriminate].
    destruct (getindex0 (xpath_rel [] BingNews.title_xpath p el0)) as [[lp link|x]|] eqn:Hl;
      try discriminate.
    destruct (getindex0 (xpath_rel [] BingNews.imagelink_xpath p el0)) as [[ip img|x]|] eqn:Hi;
      cbn [bind]; try discriminate.
    destruct (attrib_get img (lit "src")) as [src|] eqn:Hs; cbn [BingNews.thumbnail_of].
    + destruct (negb (startswith src BingNews.origin)); cbn [bind]; discriminate.
    + cbn [bind]. intros [= <-]. split; [reflexivity|].
      exists p, el0. split; [reflexivity|]. now exists lp, link, ip, img.
  - intros (-> & p & el0 & -> & lp & link & ip & img & Hl & Hi & Hs).
    now rewrite Hl, Hi, Hs.
Qed.

Lemma news_loop_raise (extract_text : text_arg -> str) (items : list xitem) :
  (exists e, BingNews.response_loop extract_text items = Raise e) <->
  (exists item e, In item items /\ BingNews.response_item extract_text item = Raise e).
Proof.
  induction items as [|item items IH]; cbn [BingNews.response_loop].
  - split; [intros (e & H); discriminate | intros (item & e & [] & _)].
  - destruct (BingNews.response_item extract_text item) as [r|e1] eqn:E1; cbn [bind].
    + destruct (BingNews.response_loop extract_text items) as [rs|e2]; cbn [bind].
      * split; [intros (e & H); discriminate|].
        intros (it & e & [<- | Hin] & Hit); [congruence|].
        destruct (proj2 IH) as (e' & He'); [now exists it, e | discriminate].
      * split; [|intros _; now exists e2].
        intros _. destruct (proj1 IH) as (it & e & Hin & Hit); [now exists e2|].
        exists it, e. split; [now right | exact Hit].
    + split; [|intros _; now exists e1].
      intros _. exists item, e1. split; [now left | exact E1].
Qed.

(** X7: the News parser raises nothing but [AttributeError], and it
    raises it exactly when the page has a news item with a title link
    whose first image under the image link has no [src] attribute. *)
Theorem news_response_exceptions (extract_text : text_arg -> str) (dom : element) :
  (forall e, BingNews.response_dom extract_text dom = Raise e -> e = AttributeError) /\
  (BingNews.response_dom extract_text dom = Raise AttributeError <->
   exists p el0,
     In (XElem p el0) (xpath_abs [] BingNews.newsitem_xpath dom) /\
     image_without_src p el0).
Proof.
  unfold BingNews.response_dom.
  set (items := xpath_abs [] BingNews.newsitem_xpath dom).
  assert (forall e, BingNews.response_loop extract_text items = Raise e ->
                    e = AttributeError) as Honly.
  { generalize items. clear items. intros items.
    induction items as [|item items IH]; intros e; cbn [BingNews.response_loop];
      [discriminate|].
    destruct (BingNews.response_item extract_text item) as [r|e1] eqn:E1; cbn [bind].
    - destruct (BingNews.response_loop extract_text items) as [rs|e2]; cbn [bind];
        [discriminate|].
      intros [= <-]. now apply IH.
    - intros [= <-]. now apply news_item_raise in E1. }
  split; [exact Honly|]. split.
  - intros H. destruct (proj1 (news_loop_raise extract_text items)) as (it & e & Hin & Hit);
      [now exists AttributeError|].
    apply news_item_raise in Hit as (_ & p & el0 & -> & Himg). now exists p, el0.
  - intros (p & el0 & Hin & Himg).
    destruct (proj2 (news_loop_raise extract_text items)) as (e & He).
    + exists (XElem p el0), AttributeError. split; [exact Hin|].
      apply news_item_raise. split; [reflexivity|]. now exists p, el0.
    + now rewrite (Honly e He) in He.
Qed.

Lemma news_response_exceptions_witness :
  BingNews.response_dom extract_plain_text news_doc_without_src = Raise AttributeError.
Proof.
  apply (proj2 (news_response_exceptions extract_plain_text news_doc_without_src)).
  exists [1%nat],
    (el "div" [("class", "newsitem")] ""
       [el "a" [("class", "imagelink")] "" [el "img" [("alt", "x")] "" [] ""] "";
        el "a" [("class", "title"); ("href", "https://news.example/2")] "Two" [] ""] "").
  split; [right; left; reflexivity|].
  exists [1%nat; 1%nat],
    (el "a" [("class", "title"); ("href", "https://news.example/2")] "Two" [] ""),
    [1%nat; 0%nat; 0%nat], (el "img" [("alt", "x")] "" [] "").
  repeat split.
Defined.

(** ** The metadata of a news record *)

Lemma lstrip_split (s : str) :
  exists sp, s = sp ++ lstrip s /\ forallb is_space sp = true.
Proof.
  induction s as [|c s (sp & Hs & Hsp)]; cbn [lstrip].
  - now exists [].
  - destruct (is_space c) eqn:Hc.
    + exists (c :: sp). cbn [app forallb]. rewrite Hc, Hsp. split; [congruence | reflexivity].
    + now exists [].
Qed.

Lemma lstrip_head (s : str) (c : N) (r : str) :
  lstrip s = c :: r -> is_space c = false.
Proof.
  induction s as [|d s IH]; cbn [lstrip]; [discriminate|].
  destruct (is_space d) eqn:Hd; [exact IH|]. now intros [= <- _].
Qed.

Lemma strip_stripped (s : str) : strip s <> [] -> stripped (strip s).
Proof.
  unfold strip. intros Hne.
  destruct (lstrip (rev (lstrip s))) as [|c y] eqn:Hy; [now contradiction Hne|].
  pose proof (lstrip_head _ _ _ Hy) as Hc.
  destruct (lstrip_split (rev (lstrip s))) as (sp & Hsplit & _).
  rewrite Hy in Hsplit.
  assert (lstrip s = rev (c :: y) ++ rev sp) as Hx.
  { rewrite <- rev_app_distr, <- Hsplit. now rewrite rev_involutive. }
  split.
  - destruct (rev (c :: y)) as [|d r] eqn:Hr.
    + apply (f_equal (@List.length N)) in Hr. rewrite length_rev in Hr. discriminate.
    + exists d, r. split; [reflexivity|].
      cbn [app] in Hx. now apply lstrip_head in Hx.
  - exists (rev y), c. split; [reflexivity | exact Hc].
Qed.

(** The entries that one item adds to the metadata list. *)
Lemma metadata_item (extract_text : text_arg -> str) (item : option str) :
  match item with
  | Some i =>
      if negb (is_empty (extract_text (TStr i))) &&
         negb (is_empty (strip (extract_text (TStr i))))
      then [strip (extract_text (TStr i))] else []
  | None => []
  end =
  match metadata_part extract_text item with
  | Some t => [t]
  | None => []
  end.
Proof.
  unfold metadata_part. destruct item as [i|]; [|reflexivity].
  destruct (extract_text (TStr i)) as [|c t] eqn:Ht; [reflexivity|].
  cbn [is_empty negb andb].
  now destruct (is_empty (strip (c :: t))).
Qed.

Lemma metadata_part_stripped (extract_text : text_arg -> str) (item : option str)
    (t : str) :
  metadata_part extract_text item = Some t -> stripped t.
Proof.
  unfold metadata_part. destruct item as [i|]; [|discriminate].
  destruct (is_empty (strip (extract_text (TStr i)))) eqn:E; [discriminate|].
  intros [= <-]. apply strip_stripped. now apply is_empty_false.
Qed.

(** X8: the metadata of a news record is what the [aria-label] of the
    first labelled [span] of the source block and the [data-author]
    attribute of the title link give, in this order: each is stripped, one
    that is missing or blank is left out, and the two are joined with
    [ | ]; an item without a source block has empty metadata, whatever
    its [data-author] attribute. *)
Theorem news_metadata (extract_text : text_arg -> str) (p lp : path) (e link : element)
    (news : list pydict) :
  getindex0 (xpath_rel [] BingNews.title_xpath p e) = Some (XElem lp link) ->
  BingNews.response_item extract_text (XElem p e) = Ok news ->
  exists r,
    news = [r] /\
    (getindex0
       (xpath_rel []
          (XPath [Step Descendant (lit "div") [AttrContains (lit "class") (lit "source")]]
                 Elements) p e) = None ->
     dict_get (lit "metadata") r = Some (VStr [])) /\
    (forall sp source,
       getindex0
         (xpath_rel []
            (XPath [Step Descendant (lit "div") [AttrContains (lit "class") (lit "source")]]
                   Elements) p e) = Some (XElem sp source) ->
       let label :=
         metadata_part extract_text
           (List.head
              (strings_of
                 (xpath_rel []
                    (XPath [Step Descendant (lit "span") [HasAttr (lit "aria-label")]]
                           (Attribute (lit "aria-label"))) sp source))) in
       let author := metadata_part extract_text (attrib_get link (lit "data-author")) in
       dict_get (lit "metadata") r =
         Some (VStr (match label, author with
                     | Some l, Some a => l ++ lit " | " ++ a
                     | Some l, None => l
                     | None, Some a => a
                     | None, None => []
                     end)) /\
       (forall l, label = Some l -> stripped l) /\
       (forall a, author = Some a -> stripped a)).
Proof.
  intros Hlink. unfold BingNews.response_item. rewrite Hlink.
  change (XPath [Step Descendant (lit "div") [AttrContains (lit "class") (lit "source")]]
                Elements) with BingNews.source_xpath.
  change (XPath [Step Descendant (lit "span") [HasAttr (lit "aria-label")]]
                (Attribute (lit "aria-label"))) with BingNews.aria_label_xpath.
  set (source := getindex0 (xpath_rel [] BingNews.source_xpath p e)).
  intros H.
  assert (exists th,
            news = [[(lit "url", BingNews.opt_val (attrib_get link (lit "href")));
                     (lit "title", VStr (extract_text (TElem link)));
                     (lit "content",
                      VStr (extract_text
                              (TList (elements_of [] (xpath_rel [] BingNews.snippet_xpath p e)))));
                     (lit "thumbnail", th);
                     (lit "metadata",
                      VStr (join (lit " | ")
                              (BingNews.metadata_of extract_text source link)))]]) as (th & ->).
  { destruct (getindex0 (xpath_rel [] BingNews.imagelink_xpath p e)) as [[ip img|x]|];
      cbn [bind] in H;
      [destruct (BingNews.thumbnail_of _); cbn [bind] in H; [|discriminate] | |];
      injection H as <-; eexists; reflexivity. }
  eexists. split; [reflexivity|]. split.
  - intros Hs. rewrite Hs. reflexivity.
  - intros sp se Hs. cbv zeta. rewrite Hs.
    split; [|split; intros t; apply metadata_part_stripped].
    change (dict_get (lit "metadata") _) with
      (Some (VStr (join (lit " | ")
                     (BingNews.metadata_of extract_text (Some (XElem sp se)) link)))).
    unfold BingNews.metadata_of. cbn [flat_map]. rewrite app_nil_r.
    rewrite !metadata_item.
    destruct (metadata_part extract_text (List.head _)) as [l|],
             (metadata_part extract_text (attrib_get link _)) as [a|];
      cbn [app join]; reflexivity.
Qed.

Lemma news_metadata_witness :
  exists r,
    BingNews.response_item extract_plain_text (XElem [] news_item_with_source) = Ok [r] /\
    dict_get (lit "metadata") r = Some (VStr (lit "Paper | Author")).
Proof.
  assert (exists news,
            BingNews.response_item extract_plain_text (XElem [] news_item_with_source) =
            Ok news) as (news & Hitem) by (eexists; reflexivity).
  destruct (news_metadata extract_plain_text [] [0%nat] news_item_with_source
              (el "a" [("class", "title"); ("href", "https://news.example/1");
                       ("data-author", "Author")] "One" [] "")
              news eq_refl Hitem) as (r & -> & _ & Hm).
  exists r. split; [exact Hitem|].
  destruct (Hm [1%nat] (el "div" [("class", "source")] ""
                          [el "span" [("aria-label", " Paper ")] "" [] ""] "") eq_refl)
    as (Hmeta & _).
  rewrite Hmeta. vm_compute. reflexivity.
Defined.

(** ** The records of the Video parser *)

(** X9: a record of the Video parser has the keys [url], [thumbnail],
    [title], [content] and [template], in this order.  Its address is the
    [murl] of the JSON blob of the block, its title the [vt] of the blob
    or the empty string when the blob has none, its content the [du] of
    the blob, [ - ] and the stripped texts of the meta block joined with
    [ - ], its thumbnail the first image source of the block, and its
    template [videos.html].  The parser returns as many records as the
    page has video blocks. *)
Theorem video_record_fields (json_loads : str -> result pyval) (repr : pyval -> str)
    (dom : element) (rs : list pydict) :
  BingVideos.response_dom json_loads repr dom = Ok rs ->
  List.length rs = List.length (xpath_abs [] BingVideos.result_xpath dom) /\
  Forall (fun r => dict_keys r =
                   [lit "url"; lit "thumbnail"; lit "title"; lit "content"; lit "template"] /\
                   dict_get (lit "template") r = Some (VStr (lit "videos.html"))) rs /\
  (forall p e r,
     BingVideos.response_item json_loads repr (XElem p e) = Ok r ->
     exists blob more d du murl thumbnail thumbs,
       strings_of (xpath_rel [] BingVideos.vrhm_xpath p e) = blob :: more /\
       json_loads blob = Ok (VDict d) /\
       dict_get (lit "du") d = Some du /\
       dict_get (lit "murl") d = Some murl /\
       strings_of (xpath_rel [] BingVideos.thumbnail_xpath p e) = thumbnail :: thumbs /\
       r = [(lit "url", murl);
            (lit "thumbnail", VStr thumbnail);
            (lit "title", match dict_get (lit "vt") d with Some vt => vt | None => VStr [] end);
            (lit "content",
             VStr (BingVideos.str_of repr du ++ lit " - " ++
                   strip (join (lit " - ")
                            (strings_of (xpath_rel [] BingVideos.meta_xpath p e)))));
            (lit "template", VStr (lit "videos.html"))]).
Proof.
  assert (forall p e r,
     BingVideos.response_item json_loads repr (XElem p e) = Ok r ->
     exists blob more d du murl thumbnail thumbs,
       strings_of (xpath_rel [] BingVideos.vrhm_xpath p e) = blob :: more /\
       json_loads blob = Ok (VDict d) /\
       dict_get (lit "du") d = Some du /\
       dict_get (lit "murl") d = Some murl /\
       strings_of (xpath_rel [] BingVideos.thumbnail_xpath p e) = thumbnail :: thumbs /\
       r = [(lit "url", murl);
            (lit "thumbnail", VStr thumbnail);
            (lit "title", match dict_get (lit "vt") d with Some vt => vt | None => VStr [] end);
            (lit "content",
             VStr (BingVideos.str_of repr du ++ lit " - " ++
                   strip (join (lit " - ")
                            (strings_of (xpath_rel [] BingVideos.meta_xpath p e)))));
            (lit "template", VStr (lit "videos.html"))]) as Hitem.
  { intros p e r. unfold BingVideos.response_item.
    destruct (strings_of (xpath_rel [] BingVideos.vrhm_xpath p e)) as [|blob more];
      cbn [BingVideos.index0 bind]; [discriminate|].
    destruct (json_loads blob) as [metadata|e0] eqn:Hj; cbn [bind]; [|discriminate].
    destruct metadata as [| | | | |l|d]; cbn [getitem bind]; try discriminate.
    destruct (dict_get (lit "du") d) as [du|] eqn:Hdu; cbn [bind]; [|discriminate].
    destruct (strings_of (xpath_rel [] BingVideos.thumbnail_xpath p e)) as [|th ths];
      cbn [BingVideos.index0 bind]; [discriminate|].
    destruct (dict_get (lit "murl") d) as [murl|] eqn:Hmurl; cbn [bind]; [|discriminate].
    cbn [get_default].
    destruct (dict_get (lit "vt") d) as [vt|] eqn:Hvt; cbn [bind];
      intros H; injection H as <-;
      exists blob, more, d, du, murl, th, ths; rewrite Hvt; repeat split; assumption. }
  intros H. unfold BingVideos.response_dom in H. apply video_loop_ok in H.
  split; [symmetry; eapply Forall2_length; exact H|].
  split; [|exact Hitem].
  induction H as [|b r items rs Hb _ IH]; constructor; [|exact IH].
  destruct b as [p e|x]; [|discriminate Hb].
  destruct (Hitem p e r Hb) as (blob & more & d & du & murl & th & ths & _ & _ & _ & _ & _ & ->).
  split; reflexivity.
Qed.

Lemma video_record_fields_witness :
  List.length [video_record; video_record] =
  List.length (xpath_abs [] BingVideos.result_xpath (video_doc [video_blob; video_blob])) /\
  Forall (fun r => dict_keys r =
                   [lit "url"; lit "thumbnail"; lit "title"; lit "content"; lit "template"] /\
                   dict_get (lit "template") r = Some (VStr (lit "videos.html")))
    [video_record; video_record].
Proof.
  assert (BingVideos.response_dom json_loads_blob repr_unused
            (video_doc [video_blob; video_blob]) = Ok [video_record; video_record]) as H
    by (vm_compute; reflexivity).
  destruct (video_record_fields json_loads_blob repr_unused _ _ H) as (Hl & Hf & _).
  split; [exact Hl | exact Hf].
Defined.

(** ** [fetch_traits] *)

Lemma traits_extend_refl (st : EngineTraits * list str) : traits_extend st st.
Proof.
  repeat split; auto.
  - intros tag m H. now exists m.
  - exists []. now rewrite app_nil_r.
Qed.

Lemma traits_extend_trans (a b c : EngineTraits * list str) :
  traits_extend a b -> traits_extend b c -> traits_extend a c.
Proof.
  intros (K1 & D1 & A1 & Z1 & l1 & L1) (K2 & D2 & A2 & Z2 & l2 & L2).
  repeat split.
  - intros tag m H Hm. apply K2; auto.
  - intros tag m H. destruct (D1 _ _ H) as (m' & H'). eapply D2; eauto.
  - destruct A2 as [A2 | A2]; [rewrite A2; exact A1 | now right].
  - auto.
  - exists (l1 ++ l2). now rewrite L2, L1, app_assoc.
Qed.

Lemma mapped_market_code (market_code : str) :
  match dict_get market_code BingTraits.map_market_codes with
  | Some m => m
  | None => market_code
  end <> lit "zh-hk".
Proof.
  unfold BingTraits.map_market_codes. cbn [dict_get].
  destruct (str_eqb (lit "zh-hk") market_code) eqn:E; [discriminate|].
  apply str_eqb_neq in E. congruence.
Qed.

Section FetchTraits.

Variable fromstring : str -> result element.
Variable url_query : str -> result str.
Variable get_official_languages : str -> list str.
Variable region_tag : str -> str -> result str.

Lemma add_language_extends (cc_tag lang_tag : str) (st st' : EngineTraits * list str) :
  BingTraits.add_language region_tag cc_tag st lang_tag = Ok st' ->
  traits_extend st st'.
Proof.
  unfold BingTraits.add_language.
  set (lang := List.hd [] (split_on 95 lang_tag)).
  set (market_code := match dict_get _ BingTraits.map_market_codes with
                      | Some m => m
                      | None => _
                      end).
  assert (market_code <> lit "zh-hk") as Hz by apply mapped_market_code.
  destruct (region_tag lang cc_tag) as [sxng_tag|e].
  2: { destruct (BingTraits.is_unknown_locale_error e); [|discriminate].
       intros [= <-]. apply traits_extend_refl. }
  assert (forall old,
            regions (fst st) !! sxng_tag = old ->
            (old = None \/ old = Some []) ->
            traits_extend st
              ({| regions := <[sxng_tag := market_code]> (regions (fst st));
                  all_locale := all_locale (fst st) |}, snd st)) as Hassign.
  { intros old Hold Hfree. repeat split; cbn [fst snd regions all_locale].
    - intros tag m H Hm. destruct (decide (sxng_tag = tag)) as [<- | Hne].
      + rewrite H in Hold. destruct Hfree as [-> | ->]; congruence.
      + now rewrite lookup_insert_ne.
    - intros tag m H. destruct (decide (sxng_tag = tag)) as [<- | Hne].
      + exists market_code. apply lookup_insert_eq.
      + exists m. now rewrite lookup_insert_ne.
    - now left.
    - intros Hno tag. destruct (decide (sxng_tag = tag)) as [<- | Hne].
      + rewrite lookup_insert_eq. congruence.
      + rewrite lookup_insert_ne by exact Hne. apply Hno.
    - exists []. now rewrite app_nil_r. }
  destruct (regions (fst st) !! sxng_tag) as [conflict|] eqn:Hc.
  - destruct (is_empty conflict) eqn:He.
    + apply is_empty_true in He. subst conflict. intros [= <-].
      apply (Hassign (Some [])); auto.
    + destruct (negb (str_eqb conflict market_code)).
      * intros [= <-]. repeat split; cbn [fst snd]; auto.
        -- intros tag m H. now exists m.
        -- eexists. reflexivity.
      * intros [= <-]. apply traits_extend_refl.
  - intros [= <-]. apply (Hassign None); auto.
Qed.

Lemma add_languages_extends (cc_tag : str) (langs : list str) :
  forall st st',
    BingTraits.add_languages region_tag cc_tag st langs = Ok st' ->
    traits_extend st st'.
Proof.
  induction langs as [|lang langs IH]; intros st st'; cbn [BingTraits.add_languages].
  - intros [= <-]. apply traits_extend_refl.
  - destruct (BingTraits.add_language region_tag cc_tag st lang) as [st1|e] eqn:E;
      cbn [bind]; [|discriminate].
    intros H. eapply traits_extend_trans; [eapply add_language_extends; exact E|].
    now apply IH.
Qed.

Lemma add_region_extends (href : str) (st st' : EngineTraits * list str) :
  BingTraits.add_region url_query get_official_languages region_tag st href = Ok st' ->
  traits_extend st st'.
Proof.
  unfold BingTraits.add_region.
  destruct (url_query href) as [query|e]; cbn [bind]; [|discriminate].
  destruct (dict_get _ _) as [[|cc_tag more]|]; try discriminate.
  destruct (str_eqb cc_tag (lit "clear")) eqn:Hc.
  - apply str_eqb_eq in Hc. subst cc_tag. intros [= <-].
    repeat split; cbn [fst snd regions all_locale]; auto.
    + intros tag m H. now exists m.
    + exists []. now rewrite app_nil_r.
  - apply add_languages_extends.
Qed.

Lemma add_regions_extends (hrefs : list str) :
  forall st st',
    BingTraits.add_regions url_query get_official_languages region_tag st hrefs = Ok st' ->
    traits_extend st st'.
Proof.
  induction hrefs as [|href hrefs IH]; intros st st'; cbn [BingTraits.add_regions].
  - intros [= <-]. apply traits_extend_refl.
  - destruct (BingTraits.add_region _ _ _ st href) as [st1|e] eqn:E;
      cbn [bind]; [|discriminate].
    intros H. eapply traits_extend_trans; [eapply add_region_extends; exact E|].
    now apply IH.
Qed.

Lemma fetch_traits_extends (engine_traits : EngineTraits) (resp_ok : bool)
    (resp_text : str) (st' : EngineTraits * list str) :
  BingTraits.fetch_traits fromstring url_query get_official_languages region_tag
    engine_traits resp_ok resp_text = Ok st' ->
  traits_extend (engine_traits, []) st'.
Proof.
  unfold BingTraits.fetch_traits.
  destruct (negb resp_ok); [discriminate|].
  destruct (fromstring resp_text) as [dom|e]; cbn [bind]; [|discriminate].
  apply add_regions_extends.
Qed.

Lemma add_regions_app (pre post : list str) :
  forall st,
    BingTraits.add_regions url_query get_official_languages region_tag st (pre ++ post) =
    let! st1 := BingTraits.add_regions url_query get_official_languages region_tag st pre in
    BingTraits.add_regions url_query get_official_languages region_tag st1 post.
Proof.
  induction pre as [|href pre IH]; intros st; cbn [app BingTraits.add_regions bind].
  - reflexivity.
  - destruct (BingTraits.add_region _ _ _ st href) as [st1|e]; cbn [bind]; [apply IH | reflexivity].
Qed.

(** X10: While [fetch_traits] reads the links of the region page, the
    first market code stored for a region tag wins: a code that is in the
    table after some of the links (before the first one: the table the
    function is given) and is not empty is still there at the end, no
    region tag is lost, and the lines printed so far stay. *)
Theorem region_codes_are_kept (engine_traits : EngineTraits) (resp_ok : bool)
    (resp_text : str) (dom : element) (pre post : list str)
    (st' : EngineTraits * list str) :
  BingTraits.fetch_traits fromstring url_query get_official_languages region_tag
    engine_traits resp_ok resp_text = Ok st' ->
  fromstring resp_text = Ok dom ->
  strings_of (xpath_abs [] BingTraits.region_xpath dom) = pre ++ post ->
  exists st1,
    BingTraits.add_regions url_query get_official_languages region_tag
      (engine_traits, []) pre = Ok st1 /\
    (forall tag m, regions (fst st1) !! tag = Some m -> m <> [] ->
                   regions (fst st') !! tag = Some m) /\
    (forall tag m, regions (fst st1) !! tag = Some m ->
                   exists m', regions (fst st') !! tag = Some m') /\
    (exists lines, snd st' = snd st1 ++ lines).
Proof.
  unfold BingTraits.fetch_traits.
  destruct (negb resp_ok); [discriminate|].
  intros H Hdom Hrefs. rewrite Hdom in H. cbn [bind] in H.
  rewrite Hrefs, add_regions_app in H.
  destruct (BingTraits.add_regions _ _ _ (engine_traits, []) pre) as [st1|e];
    cbn [bind] in H; [|discriminate].
  exists st1. split; [reflexivity|].
  apply add_regions_extends in H. destruct H as (K & D & _ & _ & L). auto.
Qed.

Lemma add_language_all_locale (cc_tag lang_tag : str) (st st' : EngineTraits * list str) :
  BingTraits.add_language region_tag cc_tag st lang_tag = Ok st' ->
  all_locale (fst st') = all_locale (fst st).
Proof.
  unfold BingTraits.add_language.
  destruct (region_tag _ cc_tag) as [sxng_tag|e].
  2: { destruct (BingTraits.is_unknown_locale_error e); [|discriminate].
       now intros [= <-]. }
  destruct (regions (fst st) !! sxng_tag) as [conflict|].
  - destruct (is_empty conflict); [now intros [= <-]|].
    destruct (negb _); now intros [= <-].
  - now intros [= <-].
Qed.

Lemma add_languages_all_locale (cc_tag : str) (langs : list str) :
  forall st st',
    BingTraits.add_languages region_tag cc_tag st langs = Ok st' ->
    all_locale (fst st') = all_locale (fst st).
Proof.
  induction langs as [|lang langs IH]; intros st st'; cbn [BingTraits.add_languages].
  - now intros [= <-].
  - destruct (BingTraits.add_language region_tag cc_tag st lang) as [st1|e] eqn:E;
      cbn [bind]; [|discriminate].
    intros H. apply IH in H. rewrite H. eapply add_language_all_locale; exact E.
Qed.

Lemma add_region_all_locale (href : str) (st st' : EngineTraits * list str) :
  BingTraits.add_region url_query get_official_languages region_tag st href = Ok st' ->
  all_locale (fst st') =
  if clears_locale url_query href then Some (lit "clear") else all_locale (fst st).
Proof.
  unfold BingTraits.add_region, clears_locale.
  destruct (url_query href) as [query|e]; cbn [bind]; [|discriminate].
  destruct (dict_get _ _) as [[|cc_tag more]|]; try discriminate.
  destruct (str_eqb cc_tag (lit "clear")) eqn:Hc.
  - apply str_eqb_eq in Hc. subst cc_tag. now intros [= <-].
  - apply add_languages_all_locale.
Qed.

Lemma add_regions_all_locale (hrefs : list str) :
  forall st st',
    BingTraits.add_regions url_query get_official_languages region_tag st hrefs = Ok st' ->
    all_locale (fst st') =
    if existsb (clears_locale url_query) hrefs then Some (lit "clear")
    else all_locale (fst st).
Proof.
  induction hrefs as [|href hrefs IH]; intros st st'; cbn [BingTraits.add_regions existsb].
  - now intros [= <-].
  - destruct (BingTraits.add_region _ _ _ st href) as [st1|e] eqn:E;
      cbn [bind]; [|discriminate].
    intros H. apply IH in H. rewrite H.
    apply add_region_all_locale in E. rewrite E.
    destruct (clears_locale url_query href), (existsb _ hrefs); reflexivity.
Qed.

(** X11: After [fetch_traits] the market code for all locales is [clear]
    when the region page has a link whose first [cc] value is [clear],
    and is what it was before otherwise. *)
Theorem all_locale_after_fetch (engine_traits : EngineTraits) (resp_ok : bool)
    (resp_text : str) (dom : element) (st' : EngineTraits * list str) :
  BingTraits.fetch_traits fromstring url_query get_official_languages region_tag
    engine_traits resp_ok resp_text = Ok st' ->
  fromstring resp_text = Ok dom ->
  all_locale (fst st') =
  if existsb (clears_locale url_query)
       (strings_of (xpath_abs [] BingTraits.region_xpath dom))
  then Some (lit "clear")
  else all_locale engine_traits.
Proof.
  unfold BingTraits.fetch_traits.
  destruct (negb resp_ok); [discriminate|].
  intros H Hdom. rewrite Hdom in H. cbn [bind] in H.
  now apply add_regions_all_locale in H.
Qed.

Lemma add_language_provenance (cc_tag lang_tag : str) (st st' : EngineTraits * list str) :
  BingTraits.add_language region_tag cc_tag st lang_tag = Ok st' ->
  forall tag m,
    regions (fst st') !! tag = Some m ->
    regions (fst st) !! tag = Some m \/
    (region_tag (List.hd [] (split_on 95 lang_tag)) cc_tag = Ok tag /\
     m = market_code_of (List.hd [] (split_on 95 lang_tag)) cc_tag).
Proof.
  unfold BingTraits.add_language, market_code_of.
  set (lang := List.hd [] (split_on 95 lang_tag)).
  set (market_code := match dict_get _ BingTraits.map_market_codes with
                      | Some m => m
                      | None => _
                      end).
  destruct (region_tag lang cc_tag) as [sxng_tag|e].
  2: { destruct (BingTraits.is_unknown_locale_error e); [|discriminate].
       intros [= <-]. now left. }
  assert (forall tag m,
            <[sxng_tag := market_code]> (regions (fst st)) !! tag = Some m ->
            regions (fst st) !! tag = Some m \/
            (Ok sxng_tag = Ok tag :> result str) /\ m = market_code) as Hassign.
  { intros tag m. destruct (decide (sxng_tag = tag)) as [<- | Hne].
    - rewrite lookup_insert_eq. intros [= <-]. now right.
    - rewrite lookup_insert_ne by exact Hne. now left. }
  destruct (regions (fst st) !! sxng_tag) as [conflict|] eqn:Hc.
  - destruct (is_empty conflict).
    + intros [= <-]. exact Hassign.
    + destruct (negb _); intros [= <-]; now left.
  - intros [= <-]. exact Hassign.
Qed.

Lemma add_languages_provenance (cc_tag : str) (langs : list str) :
  forall st st',
    BingTraits.add_languages region_tag cc_tag st langs = Ok st' ->
    forall tag m,
      regions (fst st') !! tag = Some m ->
      regions (fst st) !! tag = Some m \/
      exists lang_tag,
        In lang_tag langs /\
        region_tag (List.hd [] (split_on 95 lang_tag)) cc_tag = Ok tag /\
        m = market_code_of (List.hd [] (split_on 95 lang_tag)) cc_tag.
Proof.
  induction langs as [|lang langs IH]; intros st st'; cbn [BingTraits.add_languages].
  - intros [= <-]. now left.
  - destruct (BingTraits.add_language region_tag cc_tag st lang) as [st1|e] eqn:E;
      cbn [bind]; [|discriminate].
    intros H tag m Hm.
    destruct (IH _ _ H _ _ Hm) as [Hold | (l & Hin & Hl)].
    + destruct (add_language_provenance _ _ _ _ E _ _ Hold) as [Hold' | Hnew].
      * now left.
      * right. exists lang. split; [now left | exact Hnew].
    + right. exists l. split; [now right | exact Hl].
Qed.

Lemma add_region_provenance (href : str) (st st' : EngineTraits * list str) :
  BingTraits.add_region url_query get_official_languages region_tag st href = Ok st' ->
  forall tag m,
    regions (fst st') !! tag = Some m ->
    regions (fst st) !! tag = Some m \/ from_link url_query get_official_languages region_tag href tag m.
Proof.
  unfold BingTraits.add_region, from_link.
  destruct (url_query href) as [query|e]; cbn [bind]; [|discriminate].
  destruct (dict_get (lit "cc") (parse_qs query)) as [[|cc_tag more]|] eqn:Hcc;
    try discriminate.
  destruct (str_eqb cc_tag (lit "clear")) eqn:Hc.
  - intros [= <-]. now left.
  - apply str_eqb_neq in Hc. intros H tag m Hm.
    destruct (add_languages_provenance _ _ _ _ H _ _ Hm) as [Hold | (l & Hin & Hl)].
    + now left.
    + right. exists query, cc_tag, more, l. split; [reflexivity|]. split; [exact Hcc|].
      split; [exact Hc|]. split; [exact Hin | exact Hl].
Qed.

Lemma add_regions_provenance (hrefs : list str) :
  forall st st',
    BingTraits.add_regions url_query get_official_languages region_tag st hrefs = Ok st' ->
    forall tag m,
      regions (fst st') !! tag = Some m ->
      regions (fst st) !! tag = Some m \/
      exists href,
        In href hrefs /\
        from_link url_query get_official_languages region_tag href tag m.
Proof.
  induction hrefs as [|href hrefs IH]; intros st st'; cbn [BingTraits.add_regions].
  - intros [= <-]. now left.
  - destruct (BingTraits.add_region _ _ _ st href) as [st1|e] eqn:E;
      cbn [bind]; [|discriminate].
    intros H tag m Hm.
    destruct (IH _ _ H _ _ Hm) as [Hold | (h & Hin & Hl)].
    + destruct (add_region_provenance _ _ _ E _ _ Hold) as [Hold' | Hnew].
      * now left.
      * right. exists href. split; [now left | exact Hnew].
    + right. exists h. split; [now right | exact Hl].
Qed.

(** X12: Every entry of the table after [fetch_traits] was in the table
    before or comes from a link of the region page: the region tag is the
    one [region_tag] gives for an official language of the link's first
    [cc] value, and the market code is language-country of the two, with
    [en-hk] in the place of [zh-hk]. *)
Theorem region_codes_come_from_links (engine_traits : EngineTraits) (resp_ok : bool)
    (resp_text : str) (dom : element) (st' : EngineTraits * list str)
    (tag m : str) :
  BingTraits.fetch_traits fromstring url_query get_official_languages region_tag
    engine_traits resp_ok resp_text = Ok st' ->
  fromstring resp_text = Ok dom ->
  regions (fst st') !! tag = Some m ->
  regions engine_traits !! tag = Some m \/
  exists href,
    In href (strings_of (xpath_abs [] BingTraits.region_xpath dom)) /\
    from_link url_query get_official_languages region_tag href tag m.
Proof.
  unfold BingTraits.fetch_traits.
  destruct (negb resp_ok); [discriminate|].
  intros H Hdom. rewrite Hdom in H. cbn [bind] in H.
  exact (add_regions_provenance _ _ _ H tag m).
Qed.

(** X13: [fetch_traits] never stores the market code [zh-hk]: when the
    table it is given has none, the table afterwards has none. *)
Theorem market_code_zh_hk_not_stored (engine_traits : EngineTraits) (resp_ok : bool)
    (resp_text : str) (st' : EngineTraits * list str) :
  BingTraits.fetch_traits fromstring url_query get_official_languages region_tag
    engine_traits resp_ok resp_text = Ok st' ->
  (forall tag, regions engine_traits !! tag <> Some (lit "zh-hk")) ->
  forall tag, regions (fst st') !! tag <> Some (lit "zh-hk").
Proof.
  intros H. apply fetch_traits_extends in H.
  destruct H as (_ & _ & _ & Z & _). exact Z.
Qed.

(** X14: [fetch_traits] of the news engine is [fetch_traits] of the web
    engine followed by the entry [zh-CN] to [en-hk]: this entry is there
    whatever the table held for [zh-CN]; every other entry of the given
    table with a market code that is not empty is kept; and the market
    code [zh-hk] is not stored. *)
Theorem news_traits_after_fetch (engine_traits : EngineTraits) (resp_ok : bool)
    (resp_text : str) (st' : EngineTraits * list str) :
  BingTraits.news_fetch_traits fromstring url_query get_official_languages region_tag
    engine_traits resp_ok resp_text = Ok st' ->
  regions (fst st') !! lit "zh-CN" = Some (lit "en-hk") /\
  (forall tag m, tag <> lit "zh-CN" -> regions engine_traits !! tag = Some m ->
                 m <> [] -> regions (fst st') !! tag = Some m) /\
  ((forall tag, regions engine_traits !! tag <> Some (lit "zh-hk")) ->
   forall tag, regions (fst st') !! tag <> Some (lit "zh-hk")) /\
  exists st0,
    BingTraits.fetch_traits fromstring url_query get_official_languages region_tag
      engine_traits resp_ok resp_text = Ok st0 /\
    (forall tag, tag <> lit "zh-CN" ->
                 regions (fst st') !! tag = regions (fst st0) !! tag) /\
    all_locale (fst st') = all_locale (fst st0) /\
    snd st' = snd st0.
Proof.
  unfold BingTraits.news_fetch_traits.
  destruct (BingTraits.fetch_traits _ _ _ _ engine_traits resp_ok resp_text)
    as [st0|e] eqn:E; cbn [bind]; [|discriminate].
  intros [= <-]. cbn [fst snd regions all_locale].
  apply fetch_traits_extends in E. destruct E as (K & _ & _ & Z & _).
  cbn [fst] in K, Z.
  split; [apply lookup_insert_eq|].
  split.
  { intros tag m Hne H Hm. rewrite lookup_insert_ne by congruence. now apply K. }
  split.
  { intros Hno tag. destruct (decide (lit "zh-CN" = tag)) as [<- | Hne].
    - rewrite lookup_insert_eq. discriminate.
    - rewrite lookup_insert_ne by exact Hne. now apply Z. }
  exists st0. split; [reflexivity|]. split; [|split; reflexivity].
  intros tag Hne. apply lookup_insert_ne. congruence.
Qed.







End FetchTraits.

Lemma region_codes_are_kept_witness :
  exists st',
    BingTraits.fetch_traits (fun _ => Ok region_page) sample_url_query
      sample_official_languages sample_region_tag old_traits true [] = Ok st' /\
    exists st1,
      BingTraits.add_regions sample_url_query sample_official_languages sample_region_tag
        (old_traits, [])
        [lit "/account/general?cc=clear"; lit "/account/general?cc=de"] = Ok st1 /\
      (forall tag m, regions (fst st1) !! tag = Some m -> m <> [] ->
                     regions (fst st') !! tag = Some m) /\
      (forall tag m, regions (fst st1) !! tag = Some m ->
                     exists m', regions (fst st') !! tag = Some m') /\
      (exists lines, snd st' = snd st1 ++ lines).
Proof.
  assert (exists st',
            BingTraits.fetch_traits (fun _ => Ok region_page) sample_url_query
              sample_official_languages sample_region_tag old_traits true [] = Ok st')
    as [st' E] by (eexists; vm_compute; reflexivity).
  exists st'. split; [exact E|].
  apply (region_codes_are_kept (fun _ => Ok region_page) sample_url_query
           sample_official_languages sample_region_tag old_traits true [] region_page
           [lit "/account/general?cc=clear"; lit "/account/general?cc=de"]
           [lit "/account/general?cc=hk"; lit "/account/general?cc=at"] st' E).
  - reflexivity.
  - vm_compute. reflexivity.
Defined.

Lemma all_locale_after_fetch_witness :
  exists st',
    BingTraits.fetch_traits (fun _ => Ok region_page) sample_url_query
      sample_official_languages sample_region_tag empty_traits true [] = Ok st' /\
    all_locale (fst st') =
    if existsb (clears_locale sample_url_query)
         (strings_of (xpath_abs [] BingTraits.region_xpath region_page))
    then Some (lit "clear")
    else all_locale empty_traits.
Proof.
  assert (exists st',
            BingTraits.fetch_traits (fun _ => Ok region_page) sample_url_query
              sample_official_languages sample_region_tag empty_traits true [] = Ok st')
    as [st' E] by (eexists; vm_compute; reflexivity).
  exists st'. split; [exact E|].
  apply (all_locale_after_fetch (fun _ => Ok region_page) sample_url_query
           sample_official_languages sample_region_tag empty_traits true [] region_page
           st' E).
  reflexivity.
Defined.

Lemma region_codes_come_from_links_witness :
  exists st',
    BingTraits.fetch_traits (fun _ => Ok region_page) sample_url_query
      sample_official_languages sample_region_tag old_traits true [] = Ok st' /\
    regions (fst st') !! lit "zh-HK" = Some (lit "en-hk") /\
    (regions old_traits !! lit "zh-HK" = Some (lit "en-hk") \/
     exists href,
       In href (strings_of (xpath_abs [] BingTraits.region_xpath region_page)) /\
       from_link sample_url_query sample_official_languages sample_region_tag
         href (lit "zh-HK") (lit "en-hk")).
Proof.
  assert (exists st',
            BingTraits.fetch_traits (fun _ => Ok region_page) sample_url_query
              sample_official_languages sample_region_tag old_traits true [] = Ok st' /\
            regions (fst st') !! lit "zh-HK" = Some (lit "en-hk"))
    as (st' & E & Hm) by (eexists; split; vm_compute; reflexivity).
  exists st'. split; [exact E|]. split; [exact Hm|].
  apply (region_codes_come_from_links (fun _ => Ok region_page) sample_url_query
           sample_official_languages sample_region_tag old_traits true [] region_page
           st' (lit "zh-HK") (lit "en-hk") E).
  - reflexivity.
  - exact Hm.
Defined.

Lemma market_code_zh_hk_not_stored_witness :
  exists st',
    BingTraits.fetch_traits (fun _ => Ok region_page) sample_url_query
      sample_official_languages sample_region_tag empty_traits true [] = Ok st' /\
    forall tag, regions (fst st') !! tag <> Some (lit "zh-hk").
Proof.
  assert (exists st',
            BingTraits.fetch_traits (fun _ => Ok region_page) sample_url_query
              sample_official_languages sample_region_tag empty_traits true [] = Ok st')
    as [st' E] by (eexists; vm_compute; reflexivity).
  exists st'. split; [exact E|].
  apply (market_code_zh_hk_not_stored (fun _ => Ok region_page) sample_url_query
           sample_official_languages sample_region_tag empty_traits true [] st' E).
  intros tag. unfold empty_traits. cbn [regions]. rewrite lookup_empty. discriminate.
Defined.

Lemma news_traits_after_fetch_witness :
  exists st',
    BingTraits.news_fetch_traits (fun _ => Ok region_page) sample_url_query
      sample_official_languages sample_region_tag old_traits true [] = Ok st' /\
    regions old_traits !! lit "zh-CN" = Some (lit "zh-cn") /\
    regions (fst st') !! lit "zh-CN" = Some (lit "en-hk").
Proof.
  assert (exists st',
            BingTraits.news_fetch_traits (fun _ => Ok region_page) sample_url_query
              sample_official_languages sample_region_tag old_traits true [] = Ok st')
    as [st' E] by (eexists; vm_compute; reflexivity).
  exists st'. split; [exact E|]. split; [vm_compute; reflexivity|].
  exact (proj1 (news_traits_after_fetch (fun _ => Ok region_page) sample_url_query
                  sample_official_languages sample_region_tag old_traits true [] st' E)).
Defined.


(** ** The icons of the web results *)

Lemma element_children_ind (P : element -> Prop) :
  (forall t a tx cs tl, Forall P cs -> P (Element t a tx cs tl)) ->
  forall e, P e.
Proof.
  intros H. fix IH 1. intros [t a tx cs tl]. apply H.
  induction cs as [|c cs IHcs]; constructor; [apply IH | exact IHcs].
Qed.

Lemma path_eqb_eq (p q : path) : path_eqb p q = true <-> p = q.
Proof.
  revert q. induction p as [|i p IH]; intros [|j q]; cbn [path_eqb];
    try (split; [discriminate | congruence]); [now split|].
  rewrite andb_true_iff, Nat.eqb_eq, IH. split; [intros [-> ->] | intros [= -> ->]]; auto.
Qed.

Lemma detached_In (R : list path) (p : path) : detached R p = true <-> In p R.
Proof.
  unfold detached. rewrite existsb_exists. split.
  - intros (q & Hin & Hq). apply path_eqb_eq in Hq. now subst.
  - intros Hin. exists p. split; [exact Hin | now apply path_eqb_eq].
Qed.

Lemma paths_of_app (a b : list xitem) : paths_of (a ++ b) = paths_of a ++ paths_of b.
Proof. unfold paths_of. apply flat_map_app. Qed.

Lemma walk_all_detached (R R' : list path) (xp : xpath) :
  xp_final xp = Elements ->
  incl R R' ->
  forall e p M D,
    incl (paths_of (walk R xp p M D e)) R' ->
    walk R' xp p M D e = [].
Proof.
  intros Hfin Hsub e. induction e as [t a tx cs tl HF] using element_children_ind.
  intros p M D. cbn [walk].
  assert (emits_text xp M D = false) as Hem by (unfold emits_text; now rewrite Hfin).
  rewrite Hem. cbn [andb text_item app].
  generalize 0%nat. induction HF as [|c cs Hc HF IH]; intros i H; [reflexivity|].
  rewrite paths_of_app in H.
  apply incl_app_inv in H as [Hhd Htl].
  rewrite (IH _ Htl), app_nil_r.
  destruct (detached R' (p ++ [i])) eqn:Hd'; [reflexivity|].
  destruct (detached R (p ++ [i])) eqn:Hd.
  { apply detached_In, Hsub, detached_In in Hd. congruence. }
  rewrite !paths_of_app in Hhd.
  apply incl_app_inv in Hhd as [Hown Hrest].
  apply incl_app_inv in Hrest as [Hwalk _].
  rewrite (Hc _ _ _ Hwalk).
  unfold text_item. cbn [andb app].
  unfold own_items in *. rewrite Hfin in *.
  destruct (mem _ _); [|reflexivity].
  exfalso. assert (In (p ++ [i]) R') as Hin by (apply Hown; now left).
  apply detached_In in Hin. congruence.
Qed.

Lemma prune_tag (R : list path) (p : path) (e : element) : tag (prune R p e) = tag e.
Proof. now destruct e. Qed.
Lemma prune_attrib (R : list path) (p : path) (e : element) :
  attrib (prune R p e) = attrib e.
Proof. now destruct e. Qed.
Lemma prune_tail (R : list path) (p : path) (e : element) :
  tail (prune R p e) = tail e.
Proof. now destruct e. Qed.

Lemma advance_prune (steps : list step) (P D : list nat) (R : list path) (p : path)
    (e : element) :
  advance steps P D (prune R p e) = advance steps P D e.
Proof.
  unfold advance. apply filter_ext. intros [|i]; [reflexivity|].
  destruct (nth_error steps i) as [s|]; [|reflexivity].
  unfold step_ok. rewrite prune_tag.
  destruct (tag e); [|reflexivity].
  f_equal. f_equal.
  induction (st_preds s) as [|q qs IH]; cbn [forallb]; [reflexivity|].
  rewrite IH. f_equal. unfold pred_ok. now rewrite prune_attrib.
Qed.

Lemma own_items_prune_length (xp : xpath) (R : list path) (p p' : path) (M : list nat)
    (e : element) :
  List.length (own_items xp p' M (prune R p e)) = List.length (own_items xp p M e).
Proof.
  unfold own_items. destruct (mem _ M); [|reflexivity].
  destruct (xp_final xp); try reflexivity. now rewrite prune_attrib.
Qed.

(** The path evaluated on the tree without its detached nodes selects as
    many items as the evaluation that skips the detached nodes. *)
Lemma walk_prune_length (R : list path) (xp : xpath) (e : element) :
  forall p p' M D,
    List.length (walk [] xp p' M D (prune R p e)) = List.length (walk R xp p M D e).
Proof.
  induction e as [t a tx cs tl HF] using element_children_ind.
  intros p p' M D. cbn [walk prune]. rewrite !length_app. f_equal.
  generalize 0%nat at 2 3. generalize 0%nat.
  induction HF as [|c cs Hc HF IH]; intros i' i; [reflexivity|].
  destruct (detached R (p ++ [i])) eqn:Hd.
  - cbn [app]. apply IH.
  - cbn [detached existsb]. rewrite !length_app, IH. f_equal.
    rewrite advance_prune, own_items_prune_length, Hc, prune_tail. reflexivity.
Qed.

Lemma remove_icons_spec (els : list xitem) :
  forall R,
    incl R (Bing.remove_icons R els) /\
    forall pp pe,
      In (XElem pp pe) els ->
      exists Rj,
        incl Rj (Bing.remove_icons R els) /\
        incl (paths_of (xpath_rel Rj Bing.icon_xpath pp pe)) (Bing.remove_icons R els).
Proof.
  unfold Bing.remove_icons.
  induction els as [|x els IH]; intros R; cbn [fold_left].
  - split; [apply incl_refl | intros pp pe []].
  - set (R1 := match x with
               | XElem pp pe => R ++ paths_of (xpath_rel R Bing.icon_xpath pp pe)
               | XStr _ => R
               end).
    destruct (IH R1) as [Hincl Hels].
    assert (incl R R1) as HR.
    { subst R1. destruct x; [apply incl_appl|]; apply incl_refl. }
    split; [eapply incl_tran; eassumption|].
    intros pp pe [-> | Hin]; [|now apply Hels].
    exists R. split; [eapply incl_tran; eassumption|].
    eapply incl_tran; [|exact Hincl]. subst R1. apply incl_appr, incl_refl.
Qed.

(** X16: A record of the web parser has as its content the text of the
    paragraphs of its item after the decorative icons below them were
    removed: no paragraph handed to [extract_text] holds a [span] of the
    class [algoSlug_icon] any more, and nodes detached before stay
    detached. *)
Theorem content_without_icons (extract_text : text_arg -> str) (R R' : list path)
    (p : path) (e : element) (r : pydict) :
  Bing.response_item extract_text R (XElem p e) = Ok ([r], R') ->
  incl R R' /\
  dict_get (lit "content") r =
    Some (VStr (extract_text (TList (elements_of R' (xpath_rel R Bing.p_xpath p e))))) /\
  (forall pp pe, In (XElem pp pe) (xpath_rel R Bing.p_xpath p e) ->
                 xpath_rel R' Bing.icon_xpath pp pe = [] /\
                 xpath_rel [] Bing.icon_xpath [] (prune R' pp pe) = []).
Proof.
  unfold Bing.response_item.
  destruct (getindex0 _) as [[lp le|s]|]; try discriminate.
  destruct (is_empty _ || is_empty _); [discriminate|].
  destruct (Bing.resolve_href _) as [u|err]; cbn [bind]; [|discriminate].
  intros H. injection H as <- <-.
  destruct (remove_icons_spec (xpath_rel R Bing.p_xpath p e) R) as [Hincl Hels].
  split; [exact Hincl|]. split; [reflexivity|].
  intros pp pe Hin. destruct (Hels pp pe Hin) as (Rj & HRj & Hp).
  assert (xpath_rel (Bing.remove_icons R (xpath_rel R Bing.p_xpath p e))
            Bing.icon_xpath pp pe = []) as H0.
  { unfold xpath_rel. eapply walk_all_detached; [reflexivity | exact HRj | exact Hp]. }
  split; [exact H0|].
  apply length_zero_iff_nil. unfold xpath_rel in H0 |- *.
  now rewrite (walk_prune_length _ _ _ pp), H0.
Qed.

Lemma content_without_icons_witness :
  exists r R',
    Bing.response_item extract_plain_text [] (XElem [] item_with_icon) = Ok ([r], R') /\
    dict_get (lit "content") r = Some (VStr (lit "Snippet")) /\
    (forall pp pe,
       In (XElem pp pe) (xpath_rel [] Bing.p_xpath [] item_with_icon) ->
       xpath_rel R' Bing.icon_xpath pp pe = [] /\
       xpath_rel [] Bing.icon_xpath [] (prune R' pp pe) = []).
Proof.
  assert (exists r R',
            Bing.response_item extract_plain_text [] (XElem [] item_with_icon) =
            Ok ([r], R')) as (r & R' & E) by (do 2 eexists; vm_compute; reflexivity).
  destruct (content_without_icons extract_plain_text [] R' [] item_with_icon r E)
    as (_ & Hc & Hall).
  exists r, R'. split; [exact E|]. split; [|exact Hall].
  rewrite Hc. vm_compute in E. injection E as _ <-. vm_compute. reflexivity.
Defined.

(** ** The records of the News parser *)

Lemma news_item_records (extract_text : text_arg -> str) (item : xitem)
    (news : list pydict) :
  BingNews.response_item extract_text item = Ok news ->
  if has_title_link item then exists r, news = [r] /\ news_record_of extract_text item r
  else news = [].
Proof.
  unfold BingNews.response_item, has_title_link.
  destruct item as [p e|x]; [|now intros [= <-]].
  destruct (getindex0 (xpath_rel [] BingNews.title_xpath p e)) as [[lp link|x]|] eqn:Hl;
    try (now intros [= <-]).
  intros H.
  assert (exists th,
            news = [[(lit "url", BingNews.opt_val (attrib_get link (lit "href")));
                     (lit "title", VStr (extract_text (TElem link)));
                     (lit "content",
                      VStr (extract_text
                              (TList (elements_of [] (xpath_rel [] BingNews.snippet_xpath p e)))));
                     (lit "thumbnail", th);
                     (lit "metadata",
                      VStr (join (lit " | ")
                              (BingNews.metadata_of extract_text
                                 (getindex0 (xpath_rel [] BingNews.source_xpath p e)) link)))]])
    as (th & ->).
  { destruct (getindex0 (xpath_rel [] BingNews.imagelink_xpath p e)) as [[ip img|x]|];
      cbn [bind] in H;
      [destruct (BingNews.thumbnail_of _); cbn [bind] in H; [|discriminate] | |];
      injection H as <-; eexists; reflexivity. }
  eexists. split; [reflexivity|].
  exists p, e, lp, link. repeat split; assumption.
Qed.

(** X17: The News parser returns one record for each news item that has
    a title link, in document order, and none for the other items.  A
    record has the keys [url], [title], [content], [thumbnail] and
    [metadata], in this order; its address is the [href] of the title link
    or null, its title the text of the link and its content the text of
    the snippet blocks of the item. *)
Theorem news_records_follow_items (extract_text : text_arg -> str) (dom : element)
    (rs : list pydict) :
  BingNews.response_dom extract_text dom = Ok rs ->
  Forall2 (news_record_of extract_text)
    (List.filter has_title_link (xpath_abs [] BingNews.newsitem_xpath dom)) rs.
Proof.
  unfold BingNews.response_dom.
  generalize (xpath_abs [] BingNews.newsitem_xpath dom). intros items. revert rs.
  induction items as [|item items IH]; intros rs; cbn [BingNews.response_loop List.filter].
  - intros [= <-]. constructor.
  - destruct (BingNews.response_item extract_text item) as [news|e] eqn:E;
      cbn [bind]; [|discriminate].
    destruct (BingNews.response_loop extract_text items) as [rest|e];
      cbn [bind]; [|discriminate].
    intros [= <-]. apply news_item_records in E.
    destruct (has_title_link item).
    + destruct E as (r & -> & Hr). constructor; [exact Hr | now apply IH].
    + subst news. now apply IH.
Qed.

Lemma news_records_follow_items_witness :
  exists rs,
    BingNews.response_dom extract_plain_text news_doc = Ok rs /\
    Forall2 (news_record_of extract_plain_text)
      (List.filter has_title_link (xpath_abs [] BingNews.newsitem_xpath news_doc)) rs.
Proof.
  assert (exists rs, BingNews.response_dom extract_plain_text news_doc = Ok rs)
    as [rs E] by (eexists; vm_compute; reflexivity).
  exists rs. split; [exact E|].
  exact (news_records_follow_items extract_plain_text news_doc rs E).
Defined.
